(** * Nullbr resource search plugin: a shallow embedding and its properties

    The development follows [plugins.v2/nullbrsearch/__init__.py] (the
    plugin, its Nullbr API client and its CloudSyncMedia client) and the
    stand-alone clients [plugins.v2/nullbr_search/cms_client.py] and
    [plugins.v2/nullbr_search/nullbr_client.py], with the search plugin
    [plugins.v2/nullbr_search/__init__.py] that uses them.

    Python values that come from JSON are values of [json]; Python
    exceptions are values of [exn]; methods are computations in a state and
    exception monad whose state is the object ([self]) paired with the
    [world]: the clock read by [time.time()], the answers of the network,
    what the interpreter knows of the characters above ASCII, and the trace
    of what the program did to the outside (HTTP requests, replies posted
    to the user, calls of the fallback search).

    Not modelled: log lines, the interpolated part of the text of a reply (a
    reply is recorded with its title and the fixed start of its text),
    floating point (times are integers, in seconds), and
    what [requests] does inside one [session.get] or [session.post]: the
    session of the Nullbr client mounts a urllib3 retry policy
    ([Retry(total=3)] on the statuses 408, 429, 500, 502, 503 and 504), so
    one call can be up to four requests on the wire.  The model has one
    outcome for one call, and [sent] counts the calls. *)

From Stdlib Require Import ZArith Lia Bool List Ascii String.
From stdpp Require Import base gmap strings list.

Local Open Scope Z_scope.

(** ** Python values *)

#[local] Set Warnings "-register-all".

Inductive json : Type :=
| JNull
| JBool (b : bool)
| JNum (n : Z)
| JStr (s : string)
| JList (l : list json)
| JDict (d : list (string * json)).

(** [bool(v)] *)
Definition truthy (v : json) : bool :=
  match v with
  | JNull => false
  | JBool b => b
  | JNum n => negb (n =? 0)
  | JStr s => negb (String.eqb s "")
  | JList l => match l with [] => false | _ => true end
  | JDict d => match d with [] => false | _ => true end
  end.

(** [v == "s"] for a string literal *)
Definition is_str (v : json) (s : string) : bool :=
  match v with
  | JStr s' => String.eqb s' s
  | _ => false
  end.

(** [v == n] for an integer literal other than 0 and 1 *)
Definition is_num (v : json) (n : Z) : bool :=
  match v with
  | JNum m => m =? n
  | _ => false
  end.

(** A dict is an association list read at its first binding of a key. *)
Fixpoint dict_get (d : list (string * json)) (k : string) : option json :=
  match d with
  | [] => None
  | (k', v) :: d' => if String.eqb k' k then Some v else dict_get d' k
  end.

(** ** Exceptions *)

Inductive exn : Type :=
| HTTPError (status : Z)      (* raised by [raise_for_status] *)
| Timeout
| ConnectTimeout
| ReadTimeout
| ConnectionError             (* and its subclasses ProxyError, SSLError *)
| RequestException            (* any other failure of [requests] *)
| JSONDecodeError
| ValueError
| KeyError
| TypeError
| AttributeError.

Inductive result (A : Type) : Type :=
| Ok (a : A)
| Raise (e : exn).
Arguments Ok {A} a.
Arguments Raise {A} e.

(** ** The world *)

(** What one [session.get] or [session.post] can end in. *)
Inductive transport_error : Type :=
| TTimeout | TConnectTimeout | TReadTimeout | TConnectionError | TOther.

Definition exn_of_transport (t : transport_error) : exn :=
  match t with
  | TTimeout => Timeout
  | TConnectTimeout => ConnectTimeout
  | TReadTimeout => ReadTimeout
  | TConnectionError => ConnectionError
  | TOther => RequestException
  end.

(** A response carries its status code and its body, [None] when the body
    is not JSON. *)
Record response : Type := { status_code : Z; body : option json }.

Inductive http_outcome : Type :=
| Response (r : response)
| Failure (t : transport_error).

Inductive timeout_cfg : Type :=
| Timeout5            (* [timeout=5] *)
| Timeout10_30.       (* [timeout=(10, 30)] *)

Inductive endpoint : Type :=
| UrlSearch (query : string) (page : Z)        (* /search *)
| UrlMovie (tmdbid : json) (resource_type : string)  (* /movie/{tmdbid}/{type} *)
| UrlTv (tmdbid : json) (resource_type : string).    (* /tv/{tmdbid}/{type} *)

Inductive request : Type :=
| CmsLogin (base username password : string)
| CmsAddShareDown (base : string) (authorization : option json) (url : json)
| NullbrGet (ep : endpoint) (api_key : option string) (use_proxy : bool)
    (t : timeout_cfg).

Inductive client_call : Type :=
| CallSearch (query : string)
| CallMovie (tmdbid : json) (resource_type : string)
| CallTv (tmdbid : json) (resource_type : string).

Inductive event : Type :=
| Http (r : request)                 (* a request leaves the process *)
| Called (c : client_call)           (* a Nullbr client operation is entered *)
| PostMessage (channel userid title text : string)   (* post_message *)
| FallbackSearch (title : json).     (* fallback_to_moviepilot_search *)

(** What the Unicode database of the interpreter says of a character above
    ASCII, given by its code point: [decimal] is the value of a decimal
    digit (category Nd: what [\d] matches and [int] reads), [other_digit]
    holds of the digits that are no decimal digits (the superscript and
    the circled digits, for instance), which [str.isdigit] accepts as
    well, and [uppercase] is the upper-case form of the character, one
    character or more.  The database belongs to the interpreter, not to
    the repository. *)
Record unicode : Type := {
  decimal : N -> option N;
  other_digit : N -> bool;
  uppercase : N -> list N
}.

Record world : Type := {
  time_src : nat -> Z;            (* the n-th reading of the clock *)
  ticks : nat;                    (* readings made so far *)
  net_src : nat -> http_outcome;  (* the outcome of the n-th call of
                                     [session.get] or [session.post] *)
  sent : nat;                     (* calls made so far *)
  trace : list event;             (* oldest first *)
  unicodedata : unicode           (* the characters above ASCII *)
}.

Definition tick (w : world) : world :=
  {| time_src := time_src w; ticks := S (ticks w);
     net_src := net_src w; sent := sent w; trace := trace w;
     unicodedata := unicodedata w |}.

Definition emit (ev : event) (w : world) : world :=
  {| time_src := time_src w; ticks := ticks w;
     net_src := net_src w; sent := sent w; trace := trace w ++ [ev];
     unicodedata := unicodedata w |}.

Definition send (r : request) (w : world) : world :=
  {| time_src := time_src w; ticks := ticks w;
     net_src := net_src w; sent := S (sent w);
     trace := trace w ++ [Http r]; unicodedata := unicodedata w |}.

(** ** Strings of messages

    A [string] holds the UTF-8 bytes of a Python [str]; its characters are
    the code points that the bytes encode. *)

Definition bytes (s : string) : list N :=
  map N_of_ascii (list_ascii_of_string s).

Definition of_bytes (l : list N) : string :=
  string_of_list_ascii (map ascii_of_N l).

(** [?] is 3F and the full-width question mark U+FF1F is EF BC 9F; the
    argument is the text read from its end. *)
Fixpoint strip_question_rev (l : list N) : list N :=
  match l with
  | a :: l1 =>
      if (a =? 63)%N then strip_question_rev l1
      else
        match l1 with
        | b :: c :: l3 =>
            if ((a =? 159) && (b =? 188) && (c =? 239))%N
            then strip_question_rev l3 else l
        | _ => l
        end
  | [] => []
  end.

(** The white space of [str.strip()], by UTF-8 length. *)
Definition space1 (a : N) : bool :=
  ((9 <=? a) && (a <=? 13) || (28 <=? a) && (a <=? 32))%N.

Definition space2 (a b : N) : bool :=
  ((a =? 194) && ((b =? 133) || (b =? 160)))%N.

Definition space3 (a b c : N) : bool :=
  ((a =? 225) && (b =? 154) && (c =? 128)
   || (a =? 226) && (b =? 128)
      && ((128 <=? c) && (c <=? 138) || (c =? 168) || (c =? 169) || (c =? 175))
   || (a =? 226) && (b =? 129) && (c =? 159)
   || (a =? 227) && (b =? 128) && (c =? 128))%N.

Fixpoint lstrip_space (l : list N) : list N :=
  match l with
  | a :: l1 =>
      if space1 a then lstrip_space l1
      else
        match l1 with
        | b :: l2 =>
            if space2 a b then lstrip_space l2
            else
              match l2 with
              | c :: l3 => if space3 a b c then lstrip_space l3 else l
              | [] => l
              end
        | [] => l
        end
  | [] => []
  end.

Fixpoint lstrip_space_rev (l : list N) : list N :=
  match l with
  | a :: l1 =>
      if space1 a then lstrip_space_rev l1
      else
        match l1 with
        | b :: l2 =>
            if space2 b a then lstrip_space_rev l2
            else
              match l2 with
              | c :: l3 => if space3 c b a then lstrip_space_rev l3 else l
              | [] => l
              end
        | [] => l
        end
  | [] => []
  end.

(** [text.rstrip('？?').strip()] *)
Definition clean (text : string) : string :=
  of_bytes
    (lstrip_space
       (rev (lstrip_space_rev (strip_question_rev (rev (bytes text)))))).

(** The second, third and fourth byte of a character *)
Definition continuation (b : N) : bool := ((128 <=? b) && (b <? 192))%N.

(** The characters of a text, each as its UTF-8 bytes: sequences of one,
    two, three and four bytes.  A [str] encodes to such sequences only; a
    byte that opens no sequence is passed over. *)
Fixpoint utf8_chars (l : list N) : list (list N) :=
  match l with
  | [] => []
  | a :: l1 =>
      if (a <? 128)%N then [a] :: utf8_chars l1
      else
        match l1 with
        | b :: l2 =>
            if negb (continuation b) then utf8_chars l1
            else if (a <? 224)%N then [a; b] :: utf8_chars l2
            else
              match l2 with
              | c :: l3 =>
                  if negb (continuation c) then utf8_chars l2
                  else if (a <? 240)%N then [a; b; c] :: utf8_chars l3
                  else
                    match l3 with
                    | d :: l4 =>
                        if negb (continuation d) then utf8_chars l3
                        else [a; b; c; d] :: utf8_chars l4
                    | [] => []
                    end
              | [] => []
              end
        | [] => []
        end
  end.

(** The code point that the bytes of a character encode. *)
Definition code_point (c : list N) : N :=
  match c with
  | [a] => a
  | [a; b] => (a - 192) * 64 + (b - 128)
  | [a; b; c] => (a - 224) * 4096 + (b - 128) * 64 + (c - 128)
  | [a; b; c; d] =>
      (a - 240) * 262144 + (b - 128) * 4096 + (c - 128) * 64 + (d - 128)
  | _ => 0
  end%N.

Definition code_points (l : list N) : list N :=
  map code_point (utf8_chars l).

(** The characters of a string, which are strings: what iterating over
    it and slicing it give. *)
Definition chars (s : string) : list json :=
  map (fun c => JStr (of_bytes c)) (utf8_chars (bytes s)).

(** The ASCII digits *)
Definition is_digit (a : N) : bool := ((48 <=? a) && (a <=? 57))%N.

(** The value of a character that is a decimal digit: the ASCII digits
    are fixed, the others are the database's. *)
Definition decimal_digit (u : unicode) (c : N) : option N :=
  if (c <? 128)%N then (if is_digit c then Some (c - 48)%N else None)
  else decimal u c.

(** What [\d] matches *)
Definition is_decimal (u : unicode) (c : N) : bool :=
  bool_decide (is_Some (decimal_digit u c)).

(** What [str.isdigit] accepts: the decimal digits and the other digits *)
Definition digit_char (u : unicode) (c : N) : bool :=
  is_decimal u c || ((128 <=? c)%N && other_digit u c).

(** [s.isdigit()] *)
Definition isdigit (u : unicode) (s : string) : bool :=
  match code_points (bytes s) with
  | [] => false
  | l => forallb (digit_char u) l
  end.

(** [sys.get_int_max_str_digits()], as the interpreter sets it *)
Definition int_max_str_digits : Z := 4300.

Fixpoint int_of_digits (u : unicode) (l : list N) (acc : Z) : option Z :=
  match l with
  | [] => Some acc
  | c :: l' =>
      match decimal_digit u c with
      | Some v => int_of_digits u l' (10 * acc + Z.of_N v)
      | None => None
      end
  end.

(** [int(s)] for a text of digits (one that [isdigit] accepts or [\d+]
    matches): a text of more than [int_max_str_digits] digits is refused,
    and so is a digit that is no decimal digit. *)
Definition int (u : unicode) (s : string) : result Z :=
  let l := code_points (bytes s) in
  if int_max_str_digits <? Z.of_nat (length l) then Raise ValueError
  else
    match l with
    | [] => Raise ValueError
    | _ =>
        match int_of_digits u l 0 with
        | Some n => Ok n
        | None => Raise ValueError
        end
    end.

Fixpoint split_dot (l : list N) : option (list N * list N) :=
  match l with
  | [] => None
  | a :: l' =>
      if (a =? 46)%N then Some ([], l')
      else match split_dot l' with
           | Some (before, after) => Some (a :: before, after)
           | None => None
           end
  end.

Definition resource_types : list string := ["115"; "magnet"; "video"; "ed2k"].

(** [re.match(r'^\d+\.(115|magnet|video|ed2k)$', s)] on a text that
    [strip()] has cleaned, then the two parts of [s.split('.')]: the text
    of the number and the type. *)
Definition match_resource_request (u : unicode) (s : string)
    : option (string * string) :=
  match split_dot (bytes s) with
  | Some (digits, after) =>
      if match code_points digits with
         | [] => false
         | l => forallb (is_decimal u) l
         end
         && existsb (String.eqb (of_bytes after)) resource_types
      then Some (of_bytes digits, of_bytes after)
      else None
  | None => None
  end.

(** [text.endswith('？') or text.endswith('?')] *)
Definition ends_with_question (text : string) : bool :=
  match rev (bytes text) with
  | a :: l1 =>
      ((a =? 63)
       || match l1 with
          | b :: c :: _ => (a =? 159) && (b =? 188) && (c =? 239)
          | _ => false
          end)%N
  | [] => false
  end.

(** The UTF-8 bytes of a code point *)
Definition utf8 (c : N) : list N :=
  (if c <? 128 then [c]
   else if c <? 2048 then [192 + c / 64; 128 + c mod 64]
   else if c <? 65536
   then [224 + c / 4096; 128 + (c / 64) mod 64; 128 + c mod 64]
   else [240 + c / 262144; 128 + (c / 4096) mod 64; 128 + (c / 64) mod 64;
         128 + c mod 64])%N.

(** The upper-case form of a character: the ASCII letters are fixed, the
    other characters are the database's. *)
Definition upper_char (u : unicode) (c : N) : list N :=
  if (c <? 128)%N
  then [if ((97 <=? c) && (c <=? 122))%N then (c - 32)%N else c]
  else uppercase u c.

(** [s.upper()] *)
Definition upper (u : unicode) (s : string) : string :=
  of_bytes
    (concat (map utf8 (concat (map (upper_char u) (code_points (bytes s)))))).

(** ** The monad: state [X * world], exceptions [exn] *)

Definition M (X A : Type) : Type := X * world -> result A * (X * world).

Definition ret {X A} (a : A) : M X A := fun s => (Ok a, s).

Definition raise {X A} (e : exn) : M X A := fun s => (Raise e, s).

Definition bind {X A B} (m : M X A) (k : A -> M X B) : M X B :=
  fun s =>
    match m s with
    | (Ok a, s') => k a s'
    | (Raise e, s') => (Raise e, s')
    end.

(** [try: m  except Exception as e: h e]; the state changes made before
    the exception stay. *)
Definition try_except {X A} (m : M X A) (h : exn -> M X A) : M X A :=
  fun s =>
    match m s with
    | (Ok a, s') => (Ok a, s')
    | (Raise e, s') => h e s'
    end.

Declare Scope py_scope.
Delimit Scope py_scope with py.
Notation "x <- m ;; k" := (bind m (fun x => k))
  (at level 100, m at next level, right associativity) : py_scope.
Notation "m ;; k" := (bind m (fun _ => k))
  (at level 100, right associativity) : py_scope.
Local Open Scope py_scope.

Definition get_self {X} : M X X := fun s => (Ok (fst s), s).
Definition put_self {X} (x : X) : M X unit := fun s => (Ok tt, (x, snd s)).
Definition modify_self {X} (f : X -> X) : M X unit :=
  fun s => (Ok tt, (f (fst s), snd s)).

Definition lift_result {X A} (r : result A) : M X A := fun s => (r, s).

(** [time.time()] *)
Definition time_time {X} : M X Z :=
  fun s => (Ok (time_src (snd s) (ticks (snd s))), (fst s, tick (snd s))).

Definition log_event {X} (ev : event) : M X unit :=
  fun s => (Ok tt, (fst s, emit ev (snd s))).

(** The interpreter's database of characters, read without effect. *)
Definition unicode_db {X} : M X unicode :=
  fun s => (Ok (unicodedata (snd s)), s).

(** One request: it is recorded, and the network answers or fails. *)
Definition http {X} (r : request) : M X response :=
  fun s =>
    let w := snd s in
    match net_src w (sent w) with
    | Response resp => (Ok resp, (fst s, send r w))
    | Failure t => (Raise (exn_of_transport t), (fst s, send r w))
    end.

(** [response.raise_for_status()] *)
Definition raise_for_status {X} (r : response) : M X unit :=
  if (400 <=? status_code r) && (status_code r <? 600)
  then raise (HTTPError (status_code r))
  else ret tt.

(** [response.json()] *)
Definition response_json {X} (r : response) : M X json :=
  match body r with
  | Some v => ret v
  | None => raise JSONDecodeError
  end.

(** [v.get(k, default)]; only a dict has [get]. *)
Definition py_get {X} (v : json) (k : string) (default : json) : M X json :=
  match v with
  | JDict d => ret (from_option id default (dict_get d k))
  | _ => raise AttributeError
  end.

(** [k in v] for a dict; a list or a string is searched for the element
    or the substring instead, anything else is not iterable. *)
Definition py_contains {X} (v : json) (k : string) : M X bool :=
  match v with
  | JDict d => ret (bool_decide (is_Some (dict_get d k)))
  | JList l => ret (existsb (fun x => is_str x k) l)
  | JStr s => ret (bool_decide (is_Some (String.index 0 k s)))
  | _ => raise TypeError
  end.

(** [v[k]] for a string key *)
Definition py_getitem {X} (v : json) (k : string) : M X json :=
  match v with
  | JDict d =>
      match dict_get d k with
      | Some x => ret x
      | None => raise KeyError
      end
  | _ => raise TypeError
  end.

(** [len(v)]: lists, strings and dicts have a length. *)
Definition py_len {X} (v : json) : M X nat :=
  match v with
  | JList l => ret (length l)
  | JStr s => ret (length (chars s))
  | JDict d => ret (length d)
  | _ => raise TypeError
  end.

(** ** CloudSyncMediaClient ([cms_client.py]; the same class opens
    [plugins.v2/nullbrsearch/__init__.py]) *)

Module CloudSyncMediaClient.

(** [session.headers['Authorization']] is [Bearer <token>]; the record
    keeps the token that the header was built from. *)
Record t : Type := {
  base_url : string;
  username : string;
  password : string;
  token : json;                  (* [None] is [JNull] *)
  token_expiry : Z;
  authorization : option json
}.

Definition set_token (v : json) (c : t) : t :=
  {| base_url := base_url c; username := username c;
     password := password c; token := v;
     token_expiry := token_expiry c; authorization := authorization c |}.

Definition refreshed (tok : json) (current_time : Z) (c : t) : t :=
  {| base_url := base_url c; username := username c;
     password := password c; token := tok;
     token_expiry := current_time + 86400; authorization := Some tok |}.

(** [_login]; its [except RequestException] clause logs and re-raises. *)
Definition _login : M t json :=
  self <- get_self ;;
  response <- http (CmsLogin (base_url self) (username self) (password self)) ;;
  raise_for_status response ;;
  data <- response_json response ;;
  code <- py_get data "code" JNull ;;
  refused <- (if negb (is_num code 200) then ret true
              else has_data <- py_contains data "data" ;; ret (negb has_data)) ;;
  if refused : bool then raise ValueError
  else py_getitem data "data".

(** The refresh test of [_ensure_valid_token]. *)
Definition stale (c : t) (current_time : Z) : bool :=
  negb (truthy (token c)) || (token_expiry c - 3600 <=? current_time).

Definition _ensure_valid_token : M t unit :=
  current_time <- time_time ;;
  self <- get_self ;;
  if stale self current_time then
    login_data <- _login ;;
    tok <- py_getitem login_data "token" ;;
    modify_self (refreshed tok current_time)
  else ret tt.

Definition post_share (url : json) : M t json :=
  self <- get_self ;;
  response <- http (CmsAddShareDown (base_url self) (authorization self) url) ;;
  raise_for_status response ;;
  response_json response.

(** [add_share_down]; its [except Exception] clause logs and re-raises,
    and does not see what the [except HTTPError] clause raises. *)
Definition add_share_down (url : json) : M t json :=
  if negb (truthy url) then raise ValueError
  else
    try_except
      (_ensure_valid_token ;; post_share url)
      (fun e =>
         match e with
         | HTTPError status =>
             if status =? 401 then
               modify_self (set_token JNull) ;;
               _ensure_valid_token ;;
               post_share url
             else raise e
         | _ => raise e
         end).

(** Requests to [add_share_down] in a trace. *)
Definition is_share_post (ev : event) : bool :=
  match ev with
  | Http (CmsAddShareDown _ _ _) => true
  | _ => false
  end.

Definition share_posts (tr : list event) : nat :=
  length (filter (fun ev => is_share_post ev = true) tr).

(** [s.rstrip('/')] *)
Fixpoint lstrip_slash (l : list ascii) : list ascii :=
  match l with
  | a :: l' => if Ascii.eqb a "/" then lstrip_slash l' else l
  | [] => []
  end.

Definition rstrip_slash (s : string) : string :=
  string_of_list_ascii (rev (lstrip_slash (rev (list_ascii_of_string s)))).

(** The object before [__init__] asks for its first token. *)
Definition blank (base_url username password : string) : t :=
  {| base_url := rstrip_slash base_url; username := username;
     password := password; token := JNull; token_expiry := 0;
     authorization := None |}.

(** [CloudSyncMediaClient(base_url, username, password)], called from an
    object with the state [X]: the new client, or what
    [_ensure_valid_token] raised. *)
Definition __init__ {X} (base_url username password : string) : M X t :=
  fun s =>
    match _ensure_valid_token (blank base_url username password, snd s) with
    | (Ok _, (self, w')) => (Ok self, (fst s, w'))
    | (Raise e, (_, w')) => (Raise e, (fst s, w'))
    end.

End CloudSyncMediaClient.

(** ** NullbrApiClient, as in [plugins.v2/nullbrsearch/__init__.py] *)

(** [bool(key)] for [_api_key], which is [None] or a string *)
Definition key_set (k : option string) : bool :=
  match k with
  | Some s => negb (String.eqb s "")
  | None => false
  end.

(** The exceptions named by the clause
    [except (Timeout, ConnectTimeout, ReadTimeout, ConnectionError)]. *)
Definition proxy_failure (e : exn) : bool :=
  match e with
  | Timeout | ConnectTimeout | ReadTimeout | ConnectionError => true
  | _ => false
  end.

Module NullbrApiClient.

Record t : Type := {
  _app_id : string;
  _api_key : option string
}.

(** The request goes through the session (system proxy) with [timeout=5],
    or through a fresh session without proxies with [timeout=(10, 30)]. *)
Definition _make_request (ep : endpoint) (key : option string)
    (use_proxy : bool) : M t response :=
  http (NullbrGet ep key use_proxy
          (if use_proxy then Timeout5 else Timeout10_30)).

(** The block that opens [search], [get_movie_resources] and
    [get_tv_resources]: [None] stands for its [return None]. *)
Definition request_with_fallback (ep : endpoint) (key : option string)
    : M t (option response) :=
  try_except
    (response <- _make_request ep key true ;; ret (Some response))
    (fun e =>
       if proxy_failure e then
         try_except
           (response <- _make_request ep key false ;; ret (Some response))
           (fun direct_e => ret None)
       else raise e).

(** The functions return [Optional[Dict]]: [None] is [JNull]. *)
Definition search (query : string) (page : Z) : M t json :=
  log_event (Called (CallSearch query)) ;;
  try_except
    (self <- get_self ;;
     let key := if key_set (_api_key self) then _api_key self else None in
     o <- request_with_fallback (UrlSearch query page) key ;;
     match o with
     | None => ret JNull
     | Some response =>
         if status_code response =? 200 then response_json response
         else if status_code response =? 403 then ret JNull
         else ret JNull
     end)
    (fun e => ret JNull).

Definition get_movie_resources (tmdbid : json) (resource_type : string)
    : M t json :=
  log_event (Called (CallMovie tmdbid resource_type)) ;;
  self <- get_self ;;
  if negb (key_set (_api_key self)) then ret JNull
  else
    try_except
      (o <- request_with_fallback (UrlMovie tmdbid resource_type)
              (_api_key self) ;;
       match o with
       | None => ret JNull
       | Some response =>
           if status_code response =? 200 then response_json response
           else if status_code response =? 401 then ret JNull
           else if status_code response =? 403 then ret JNull
           else if status_code response =? 429 then ret JNull
           else ret JNull
       end)
      (fun e => ret JNull).

Definition get_tv_resources (tmdbid : json) (resource_type : string)
    : M t json :=
  log_event (Called (CallTv tmdbid resource_type)) ;;
  self <- get_self ;;
  if negb (key_set (_api_key self)) then ret JNull
  else
    try_except
      (o <- request_with_fallback (UrlTv tmdbid resource_type)
              (_api_key self) ;;
       match o with
       | None => ret JNull
       | Some response =>
           if status_code response =? 200 then response_json response
           else if status_code response =? 401 then ret JNull
           else if status_code response =? 403 then ret JNull
           else if status_code response =? 429 then ret JNull
           else ret JNull
       end)
      (fun e => ret JNull).

(** [NullbrApiClient(app_id, api_key)]: the session and its retry policy
    are set up, no request is made. *)
Definition __init__ {X} (app_id : string) (api_key : option string)
    : M X t :=
  ret {| _app_id := app_id; _api_key := api_key |}.

End NullbrApiClient.

(** ** NullbrApiClient, as in [plugins.v2/nullbr_search/nullbr_client.py] *)

Module nullbr_client.

Definition t : Type := NullbrApiClient.t.

Definition _make_request := NullbrApiClient._make_request.

(** Here a failure of the direct attempt is raised again
    ([raise direct_error]) and meets the outer [except] clauses. *)
Definition request_with_fallback (ep : endpoint) (key : option string)
    : M t response :=
  try_except
    (_make_request ep key true)
    (fun e =>
       if proxy_failure e then
         try_except (_make_request ep key false)
           (fun direct_error => raise direct_error)
       else raise e).

Definition get_movie_resources (tmdbid : json) (resource_type : string)
    : M t json :=
  log_event (Called (CallMovie tmdbid resource_type)) ;;
  self <- get_self ;;
  if negb (key_set (NullbrApiClient._api_key self)) then ret JNull
  else
    try_except
      (response <- request_with_fallback (UrlMovie tmdbid resource_type)
                     (NullbrApiClient._api_key self) ;;
       raise_for_status response ;;
       response_json response)
      (fun e =>
         match e with
         | HTTPError status =>
             (* 404 is logged as a warning, the others as errors *)
             if status =? 404 then ret JNull else ret JNull
         | _ => ret JNull
         end).

Definition get_tv_resources (tmdbid : json) (resource_type : string)
    : M t json :=
  log_event (Called (CallTv tmdbid resource_type)) ;;
  self <- get_self ;;
  if negb (key_set (NullbrApiClient._api_key self)) then ret JNull
  else
    try_except
      (response <- request_with_fallback (UrlTv tmdbid resource_type)
                     (NullbrApiClient._api_key self) ;;
       raise_for_status response ;;
       response_json response)
      (fun e =>
         match e with
         | HTTPError status =>
             if status =? 404 then ret JNull else ret JNull
         | _ => ret JNull
         end).

(** [search]: the line that logs the number of hits evaluates
    [len(result.get('items', []))] before the result is returned, inside
    the [try]. *)
Definition search (query : string) (page : Z) : M t json :=
  log_event (Called (CallSearch query)) ;;
  try_except
    (self <- get_self ;;
     let key := if key_set (NullbrApiClient._api_key self)
                then NullbrApiClient._api_key self else None in
     response <- request_with_fallback (UrlSearch query page) key ;;
     raise_for_status response ;;
     result <- response_json response ;;
     items <- py_get result "items" (JList []) ;;
     py_len items ;;
     ret result)
    (fun e =>
       match e with
       | HTTPError status =>
           if status =? 401 then ret JNull
           else if status =? 403 then ret JNull
           else if status =? 429 then ret JNull
           else ret JNull
       | _ => ret JNull
       end).

End nullbr_client.

(** ** The plugin ([class NullbrSearch]) *)

(** [v[:n]]: a list or a string can be sliced. *)
Definition py_slice {X} (n : nat) (v : json) : M X (list json) :=
  match v with
  | JList l => ret (take n l)
  | JStr s => ret (take n (chars s))
  | _ => raise TypeError
  end.

Module NullbrSearch.

(** [_user_search_cache[userid]] *)
Record search_entry : Type := {
  results : list json;
  keyword : string;
  search_timestamp : Z
}.

(** One element of [_user_resource_cache[userid]['resources']] *)
Record resource_item : Type := {
  url : json;
  title : json;
  size : json;
  type : string
}.

(** [_user_resource_cache[userid]] *)
Record resource_entry : Type := {
  resources : list resource_item;
  source_title : json;
  resource_type : string;
  timestamp : Z
}.

(** The fields of [self] that the message handlers read or write. *)
Record t : Type := {
  _enabled : bool;
  _api_key : option string;
  _resource_priority : list string;
  _enable_115 : bool;
  _enable_magnet : bool;
  _enable_video : bool;
  _enable_ed2k : bool;
  _client : option NullbrApiClient.t;
  _cms_enabled : bool;
  _cms_client : option CloudSyncMediaClient.t;
  _user_search_cache : gmap string search_entry;
  _user_resource_cache : gmap string resource_entry
}.

Definition set_cms_client (c : option CloudSyncMediaClient.t) (self : t) : t :=
  {| _enabled := _enabled self; _api_key := _api_key self;
     _resource_priority := _resource_priority self;
     _enable_115 := _enable_115 self; _enable_magnet := _enable_magnet self;
     _enable_video := _enable_video self; _enable_ed2k := _enable_ed2k self;
     _client := _client self; _cms_enabled := _cms_enabled self;
     _cms_client := c;
     _user_search_cache := _user_search_cache self;
     _user_resource_cache := _user_resource_cache self |}.

Definition set_search_cache (m : gmap string search_entry) (self : t) : t :=
  {| _enabled := _enabled self; _api_key := _api_key self;
     _resource_priority := _resource_priority self;
     _enable_115 := _enable_115 self; _enable_magnet := _enable_magnet self;
     _enable_video := _enable_video self; _enable_ed2k := _enable_ed2k self;
     _client := _client self; _cms_enabled := _cms_enabled self;
     _cms_client := _cms_client self;
     _user_search_cache := m;
     _user_resource_cache := _user_resource_cache self |}.

Definition set_resource_cache (m : gmap string resource_entry) (self : t) : t :=
  {| _enabled := _enabled self; _api_key := _api_key self;
     _resource_priority := _resource_priority self;
     _enable_115 := _enable_115 self; _enable_magnet := _enable_magnet self;
     _enable_video := _enable_video self; _enable_ed2k := _enable_ed2k self;
     _client := _client self; _cms_enabled := _cms_enabled self;
     _cms_client := _cms_client self;
     _user_search_cache := _user_search_cache self;
     _user_resource_cache := m |}.

(** A method of [self._client] run from the plugin; the client has no
    field that its methods write. *)
Definition with_client {A} (m : M NullbrApiClient.t A) : M t A :=
  fun s =>
    match _client (fst s) with
    | Some c =>
        match m (c, snd s) with
        | (r, (_, w')) => (r, (fst s, w'))
        end
    | None => (Raise AttributeError, s)
    end.

(** A method of [self._cms_client] run from the plugin; what it writes to
    the client stays written, also when it raises. *)
Definition with_cms_client {A} (m : M CloudSyncMediaClient.t A) : M t A :=
  fun s =>
    match _cms_client (fst s) with
    | Some c =>
        match m (c, snd s) with
        | (r, (c', w')) => (r, (set_cms_client (Some c') (fst s), w'))
        end
    | None => (Raise AttributeError, s)
    end.

(** [self.post_message]; of the text, the reply keeps the first line up
    to its first interpolated value. *)
Definition post_message (channel userid title text : string) : M t unit :=
  log_event (PostMessage channel userid title text).

(** [fallback_to_moviepilot_search], the search of the host *)
Definition fallback_to_moviepilot_search (title : json)
    (channel userid : string) : M t unit :=
  log_event (FallbackSearch title).

(** [getattr(self, f"_enable_{priority_type}", True)] *)
Definition enable_flag (self : t) (priority_type : string) : bool :=
  if String.eqb priority_type "115" then _enable_115 self
  else if String.eqb priority_type "magnet" then _enable_magnet self
  else if String.eqb priority_type "video" then _enable_video self
  else if String.eqb priority_type "ed2k" then _enable_ed2k self
  else true.

(** The [url] of one raw entry, by resource type. *)
Definition entry_url (resource_type : string) (res : json) : M t json :=
  if String.eqb resource_type "115" then py_get res "share_link" (JStr "")
  else if String.eqb resource_type "magnet" then py_get res "magnet" (JStr "")
  else if String.eqb resource_type "video" || String.eqb resource_type "ed2k"
  then link <- py_get res "link" (JStr "") ;; py_get res "url" link
  else ret (JStr "").

(** The loop that fills [resource_cache]. *)
Fixpoint collect_resources (resource_type : string) (l : list json)
    (resource_cache : list resource_item) : M t (list resource_item) :=
  match l with
  | [] => ret resource_cache
  | res :: l' =>
      u <- entry_url resource_type res ;;
      if truthy u then
        name <- py_get res "name" (JStr "未知") ;;
        ti <- py_get res "title" name ;;
        sz <- py_get res "size" (JStr "未知") ;;
        collect_resources resource_type l'
          (resource_cache ++
             [{| url := u; title := ti; size := sz; type := resource_type |}])
      else collect_resources resource_type l' resource_cache
  end.

Definition _format_and_send_resources (resources : json)
    (resource_type : string) (title : json) (channel userid : string)
    : M t unit :=
  try_except
    (resource_list <- py_get resources resource_type (JList []) ;;
     if negb (truthy resource_list) then post_message channel userid "无资源"
         "没有找到「"
     else
       first10 <- py_slice 10 resource_list ;;
       resource_cache <- collect_resources resource_type first10 [] ;;
       now <- time_time ;;
       modify_self (fun self =>
         set_resource_cache
           (<[userid := {| resources := resource_cache;
                           source_title := title;
                           resource_type := resource_type;
                           timestamp := now |}]>
              (_user_resource_cache self)) self) ;;
       u <- unicode_db ;;
       post_message channel userid (upper u resource_type ++ "资源")
           "🎯 「")
    (fun e => post_message channel userid "错误"
        "处理资源信息时出现错误: ").

(** [self._client.get_movie_resources] or [get_tv_resources], by media
    type; any other media type leaves [resources = None]. *)
Definition fetch_resources (media_type tmdbid : json) (resource_type : string)
    : M t json :=
  if is_str media_type "movie"
  then with_client (NullbrApiClient.get_movie_resources tmdbid resource_type)
  else if is_str media_type "tv"
  then with_client (NullbrApiClient.get_tv_resources tmdbid resource_type)
  else ret JNull.

(** The [for priority_type in self._resource_priority] loop of
    [get_resources_by_priority], with what follows the loop as its last
    step.  When a type has resources, the line that logs their number
    evaluates [len(resources[priority_type])] before the reply is
    posted. *)
Fixpoint priority_walk (selected title media_type tmdbid : json)
    (channel userid : string) (priority : list string) : M t unit :=
  match priority with
  | [] =>
      post_message channel userid "切换搜索"
          "Nullbr没有找到「" ;;
      fallback_to_moviepilot_search title channel userid
  | priority_type :: rest =>
      flag <- py_get selected (priority_type ++ "-flg") JNull ;;
      if negb (truthy flag)
      then priority_walk selected title media_type tmdbid channel userid rest
      else
        self <- get_self ;;
        if negb (enable_flag self priority_type)
        then priority_walk selected title media_type tmdbid channel userid rest
        else
          resources <- fetch_resources media_type tmdbid priority_type ;;
          found <- (if truthy resources
                    then bundle <- py_get resources priority_type JNull ;;
                         ret (truthy bundle)
                    else ret false) ;;
          if found : bool then
            bundle <- py_getitem resources priority_type ;;
            py_len bundle ;;
            post_message channel userid "获取成功"
                "✅ 已获取「" ;;
            _format_and_send_resources resources priority_type title
              channel userid
          else priority_walk selected title media_type tmdbid channel userid
                 rest
  end.

Definition get_resources_by_priority (selected : json)
    (channel userid : string) : M t unit :=
  try_except
    (title <- py_get selected "title" (JStr "未知标题") ;;
     media_type <- py_get selected "media_type" (JStr "unknown") ;;
     tmdbid <- py_get selected "tmdbid" JNull ;;
     if negb (truthy tmdbid) then post_message channel userid "错误"
         "该资源缺少TMDB ID，无法获取下载链接。"
     else
       self <- get_self ;;
       priority_walk selected title media_type tmdbid channel userid
         (_resource_priority self))
    (fun e => post_message channel userid "错误"
        "获取资源时出现错误: ").

(** The year shown for a hit: [d[:4]] is evaluated when either date is
    truthy, on [release_date] when the hit has that key. *)
Definition release_year (item : json) : M t unit :=
  release_date <- py_get item "release_date" JNull ;;
  first_air_date <- py_get item "first_air_date" JNull ;;
  if truthy release_date || truthy first_air_date then
    d <- py_get item "first_air_date" (JStr "") ;;
    v <- py_get item "release_date" d ;;
    py_slice 4 v ;; ret tt
  else ret tt.

(** [results[number - 1]], for [1 <= number <= len(results)] *)
Definition nth_result (l : list json) (number : Z) : M t json :=
  match l !! Z.to_nat (number - 1) with
  | Some x => ret x
  | None => raise KeyError
  end.

(** [handle_resource_selection], from [selected = results[number - 1]]
    on. *)
Definition reply_to_selection (selected : json) (channel userid : string)
    : M t unit :=
  self <- get_self ;;
  title <- py_get selected "title" (JStr "未知标题") ;;
  media_type <- py_get selected "media_type" (JStr "unknown") ;;
  release_year selected ;;
  tmdbid <- py_get selected "tmdbid" JNull ;;
  if negb (key_set (_api_key self)) then
    overview <- py_get selected "overview" JNull ;;
    (if truthy overview then py_slice 100 overview ;; ret tt else ret tt) ;;
    post_message channel userid "资源详情" "📺 选择的资源: "
  else
    post_message channel userid "获取中" "正在按优先级获取「" ;;
    get_resources_by_priority selected channel userid.

Definition handle_resource_selection (number : Z) (channel userid : string)
    : M t unit :=
  try_except
    (self <- get_self ;;
     match _user_search_cache self !! userid with
     | None =>
         post_message channel userid "提示" "搜索结果已过期，请重新搜索。"
     | Some cache =>
         now <- time_time ;;
         if 3600 <? now - search_timestamp cache
         then post_message channel userid "提示"
                "搜索结果已过期，请重新搜索。"
         else
           if (number <? 1) || (Z.of_nat (length (results cache)) <? number)
           then post_message channel userid "提示" "请输入有效的编号 (1-"
           else
             selected <- nth_result (results cache) number ;;
             reply_to_selection selected channel userid
     end)
    (fun e => post_message channel userid "错误" "处理选择时出现错误: ").

(** [handle_get_resources], from [selected = results[number - 1]] on. *)
Definition resources_of_selection (selected : json) (resource_type : string)
    (channel userid : string) : M t unit :=
  title <- py_get selected "title" (JStr "未知标题") ;;
  media_type <- py_get selected "media_type" (JStr "unknown") ;;
  tmdbid <- py_get selected "tmdbid" JNull ;;
  if negb (truthy tmdbid)
  then post_message channel userid "错误"
         "该资源缺少TMDB ID，无法获取下载链接。"
  else
    post_message channel userid "获取中" "正在获取「" ;;
    resources <- fetch_resources media_type tmdbid resource_type ;;
    if negb (truthy resources) then
      post_message channel userid "切换搜索" "Nullbr没有找到「" ;;
      fallback_to_moviepilot_search title channel userid
    else
      _format_and_send_resources resources resource_type title channel userid.

Definition handle_get_resources (number : Z) (resource_type : string)
    (channel userid : string) : M t unit :=
  try_except
    (self <- get_self ;;
     if negb (key_set (_api_key self))
     then post_message channel userid "配置错误"
            "获取下载链接需要配置API_KEY，请在插件设置中添加。"
     else
       match _user_search_cache self !! userid with
       | None =>
           post_message channel userid "提示" "搜索结果已过期，请重新搜索。"
       | Some cache =>
           now <- time_time ;;
           if 3600 <? now - search_timestamp cache
           then post_message channel userid "提示"
                  "搜索结果已过期，请重新搜索。"
           else
             if (number <? 1) || (Z.of_nat (length (results cache)) <? number)
             then post_message channel userid "提示" "请输入有效的编号 (1-"
             else
               selected <- nth_result (results cache) number ;;
               resources_of_selection selected resource_type channel userid
       end)
    (fun e => post_message channel userid "错误" "获取资源链接时出现错误: ").

Definition nth_resource (l : list resource_item) (number : Z)
    : M t resource_item :=
  match l !! Z.to_nat (number - 1) with
  | Some x => ret x
  | None => raise KeyError
  end.

(** [handle_resource_transfer], from
    [selected_resource = resources[resource_id - 1]] on. *)
Definition transfer_selected (selected_resource : resource_item)
    (channel userid : string) : M t unit :=
  post_message channel userid "转存中" "🚀 正在转存资源到CloudSyncMedia:" ;;
  result <- with_cms_client
              (CloudSyncMediaClient.add_share_down (url selected_resource)) ;;
  code <- py_get result "code" JNull ;;
  if is_num code 200
  then post_message channel userid "转存成功" "✅ 资源转存成功!"
  else post_message channel userid "转存失败" "❌ 资源转存失败:".

Definition handle_resource_transfer (resource_id : Z) (channel userid : string)
    : M t unit :=
  try_except
    (self <- get_self ;;
     if negb (_cms_enabled self) || negb (bool_decide (is_Some (_cms_client self)))
     then post_message channel userid "功能未启用"
            "CloudSyncMedia转存功能未启用，请在设置中配置。"
     else
       match _user_resource_cache self !! userid with
       | None =>
           post_message channel userid "缓存过期"
             "资源缓存已过期，请重新获取资源。"
       | Some cache =>
           now <- time_time ;;
           if 3600 <? now - timestamp cache
           then post_message channel userid "缓存过期"
                  "资源缓存已过期，请重新获取资源。"
           else
             if (resource_id <? 1)
                || (Z.of_nat (length (resources cache)) <? resource_id)
             then post_message channel userid "无效编号"
                    "请输入有效的资源编号 (1-"
             else
               selected_resource <- nth_resource (resources cache) resource_id ;;
               transfer_selected selected_resource channel userid
       end)
    (fun e => post_message channel userid "转存错误" "转存过程中发生错误: ").

(** The lines of the reply that are built from one hit. *)
Definition format_hit (item : json) : M t unit :=
  py_get item "title" (JStr "未知标题") ;;
  py_get item "media_type" (JStr "unknown") ;;
  release_year item.

Fixpoint format_hits (items : list json) : M t unit :=
  match items with
  | [] => ret tt
  | item :: rest => format_hit item ;; format_hits rest
  end.

Definition search_and_reply (keyword channel userid : string) : M t unit :=
  try_except
    (result <- with_client (NullbrApiClient.search keyword 1) ;;
     none <- (if negb (truthy result) then ret true
              else found <- py_get result "items" JNull ;;
                   ret (negb (truthy found))) ;;
     if none : bool then
       post_message channel userid "切换搜索"
           "Nullbr没有找到「" ;;
       fallback_to_moviepilot_search (JStr keyword) channel userid
     else
       all_items <- py_get result "items" (JList []) ;;
       items <- py_slice 10 all_items ;;
       now <- time_time ;;
       modify_self (fun self =>
         set_search_cache
           (<[userid := {| results := items; keyword := keyword;
                           search_timestamp := now |}]>
              (_user_search_cache self)) self) ;;
       format_hits items ;;
       post_message channel userid "Nullbr搜索结果"
           "🔍 找到「")
    (fun e => post_message channel userid "搜索错误"
        "搜索「").

(** [event.event_data] *)
Record message : Type := {
  text : option string;
  userid : string;
  channel : string;
  source : option string
}.

(** The test made on a message of digits before it is taken as a choice
    among the search results. *)
Definition transfer_requested (number : Z) (userid : string) : M t bool :=
  self <- get_self ;;
  if _cms_enabled self && bool_decide (is_Some (_cms_client self)) then
    match _user_resource_cache self !! userid with
    | Some cache =>
        now <- time_time ;;
        if now - timestamp cache <? 3600 then
          ret ((1 <=? number)
               && (number <=? Z.of_nat (length (resources cache))))
        else ret false
    | None => ret false
    end
  else ret false.

(** [talk]; the two calls of [int] are outside every [try]. *)
Definition talk (event : message) : M t unit :=
  self <- get_self ;;
  if negb (_enabled self) || negb (bool_decide (is_Some (_client self)))
  then ret tt
  else
    match text event with
    | None => ret tt
    | Some txt =>
        if String.eqb txt "" then ret tt
        else if bool_decide (source event = Some "nullbr_fallback") then ret tt
        else
          let clean_text := clean txt in
          u <- unicode_db ;;
          match match_resource_request u clean_text with
          | Some (number_text, resource_type) =>
              number <- lift_result (int u number_text) ;;
              handle_get_resources number resource_type
                (channel event) (userid event)
          | None =>
              if isdigit u clean_text then
                number <- lift_result (int u clean_text) ;;
                transfer <- transfer_requested number (userid event) ;;
                if transfer : bool
                then handle_resource_transfer number
                       (channel event) (userid event)
                else handle_resource_selection number
                       (channel event) (userid event)
              else if ends_with_question txt then
                if negb (String.eqb clean_text "")
                then search_and_reply clean_text (channel event) (userid event)
                else ret tt
              else ret tt
          end
    end.

(** [stop_service]: the sessions of the clients are closed, which no
    later request of the plugin can observe. *)
Definition stop_service : M t unit :=
  try_except
    (modify_self (fun self =>
       {| _enabled := false; _api_key := _api_key self;
          _resource_priority := _resource_priority self;
          _enable_115 := _enable_115 self;
          _enable_magnet := _enable_magnet self;
          _enable_video := _enable_video self;
          _enable_ed2k := _enable_ed2k self;
          _client := None; _cms_enabled := _cms_enabled self;
          _cms_client := None;
          _user_search_cache := ∅; _user_resource_cache := ∅ |}))
    (fun e => ret tt).

(** A configuration that has at least one key, read with the types of the
    fields of the form; a key that is missing has the default of its
    [config.get], and [None] where there is none. *)
Record config : Type := {
  enabled : bool;
  app_id : option string;
  api_key : option string;
  priority_1 : option string;
  priority_2 : option string;
  priority_3 : option string;
  priority_4 : option string;
  enable_115 : bool;
  enable_magnet : bool;
  enable_video : bool;
  enable_ed2k : bool;
  search_timeout : Z;
  cms_enabled : bool;
  cms_url : string;
  cms_username : string;
  cms_password : string
}.

(** The plugin object: [t] with the fields that only [init_plugin]
    uses. *)
Record plugin : Type := {
  core : t;
  _app_id : option string;
  _search_timeout : Z;
  _cms_url : string;
  _cms_username : string;
  _cms_password : string
}.

Definition on_core (f : t -> t) (p : plugin) : plugin :=
  {| core := f (core p); _app_id := _app_id p;
     _search_timeout := _search_timeout p; _cms_url := _cms_url p;
     _cms_username := _cms_username p; _cms_password := _cms_password p |}.

Definition set_enabled (b : bool) (self : t) : t :=
  {| _enabled := b; _api_key := _api_key self;
     _resource_priority := _resource_priority self;
     _enable_115 := _enable_115 self; _enable_magnet := _enable_magnet self;
     _enable_video := _enable_video self; _enable_ed2k := _enable_ed2k self;
     _client := _client self; _cms_enabled := _cms_enabled self;
     _cms_client := _cms_client self;
     _user_search_cache := _user_search_cache self;
     _user_resource_cache := _user_resource_cache self |}.

Definition set_client (c : option NullbrApiClient.t) (self : t) : t :=
  {| _enabled := _enabled self; _api_key := _api_key self;
     _resource_priority := _resource_priority self;
     _enable_115 := _enable_115 self; _enable_magnet := _enable_magnet self;
     _enable_video := _enable_video self; _enable_ed2k := _enable_ed2k self;
     _client := c; _cms_enabled := _cms_enabled self;
     _cms_client := _cms_client self;
     _user_search_cache := _user_search_cache self;
     _user_resource_cache := _user_resource_cache self |}.

Definition set_cms_enabled (b : bool) (self : t) : t :=
  {| _enabled := _enabled self; _api_key := _api_key self;
     _resource_priority := _resource_priority self;
     _enable_115 := _enable_115 self; _enable_magnet := _enable_magnet self;
     _enable_video := _enable_video self; _enable_ed2k := _enable_ed2k self;
     _client := _client self; _cms_enabled := b;
     _cms_client := _cms_client self;
     _user_search_cache := _user_search_cache self;
     _user_resource_cache := _user_resource_cache self |}.

Definition default_priority : list string := ["115"; "magnet"; "ed2k"; "video"].

(** The loop [for i in range(1, 5)] of [init_plugin], over the values of
    [priority_1] to [priority_4]. *)
Fixpoint collect_priorities (ps : list (option string))
    (priority_list : list string) : list string :=
  match ps with
  | [] => priority_list
  | Some priority :: rest =>
      if negb (String.eqb priority "")
         && negb (existsb (String.eqb priority) priority_list)
      then collect_priorities rest (priority_list ++ [priority])
      else collect_priorities rest priority_list
  | None :: rest => collect_priorities rest priority_list
  end.

(** The block [if config:] of [init_plugin]. *)
Definition configure (c : config) (p : plugin) : plugin :=
  let priority_list :=
    collect_priorities [priority_1 c; priority_2 c; priority_3 c;
                        priority_4 c] [] in
  {| core :=
       {| _enabled := enabled c; _api_key := api_key c;
          _resource_priority :=
            if (length priority_list <? 4)%nat then default_priority
            else priority_list;
          _enable_115 := enable_115 c; _enable_magnet := enable_magnet c;
          _enable_video := enable_video c; _enable_ed2k := enable_ed2k c;
          _client := _client (core p); _cms_enabled := cms_enabled c;
          _cms_client := _cms_client (core p);
          _user_search_cache := _user_search_cache (core p);
          _user_resource_cache := _user_resource_cache (core p) |};
     _app_id := app_id c; _search_timeout := search_timeout c;
     _cms_url := cms_url c; _cms_username := cms_username c;
     _cms_password := cms_password c |}.

Definition nonempty (s : string) : bool := negb (String.eqb s "").

(** What the host passes to [init_plugin]: [None], the empty dict, or a
    dict that has keys. *)
Inductive config_arg : Type :=
| ConfigNone
| ConfigEmpty
| Config (c : config).

(** [bool(config)] *)
Definition config_truthy (cfg : config_arg) : bool :=
  match cfg with
  | Config _ => true
  | ConfigNone | ConfigEmpty => false
  end.

Definition init_plugin (cfg : config_arg) : M plugin unit :=
  (match cfg with
   | Config c => modify_self (configure c)
   | ConfigNone | ConfigEmpty => ret tt
   end) ;;
  self <- get_self ;;
  (match _app_id self with
   | Some app_id =>
       if _enabled (core self) && nonempty app_id then
         try_except
           (client <- NullbrApiClient.__init__ app_id (_api_key (core self)) ;;
            modify_self (on_core (set_client (Some client))))
           (fun e => modify_self (on_core (set_enabled false)))
       else modify_self (on_core (set_client None))
   | None => modify_self (on_core (set_client None))
   end) ;;
  self <- get_self ;;
  if _cms_enabled (core self) && nonempty (_cms_url self)
     && nonempty (_cms_username self) && nonempty (_cms_password self)
  then
    try_except
      (cms <- CloudSyncMediaClient.__init__ (_cms_url self)
                (_cms_username self) (_cms_password self) ;;
       modify_self (on_core (set_cms_client (Some cms))))
      (fun e =>
         modify_self (on_core (set_cms_enabled false)) ;;
         modify_self (on_core (set_cms_client None)))
  else modify_self (on_core (set_cms_client None)).

(** [get_state] *)
Definition get_state : M t bool :=
  self <- get_self ;; ret (_enabled self).

End NullbrSearch.

(** ** The search plugin of [plugins.v2/nullbr_search/__init__.py]

    It uses the client of [nullbr_client.py]. *)

(** [for x in v]: a list gives its elements, a string its characters, a
    dict its keys; nothing else can be iterated. *)
Definition py_iter {X} (v : json) : M X (list json) :=
  match v with
  | JList l => ret l
  | JStr s => ret (chars s)
  | JDict d => ret (map (fun kv => JStr (fst kv)) d)
  | _ => raise TypeError
  end.

(** [v[:n]] as a value *)
Definition py_prefix {X} (n : nat) (v : json) : M X json :=
  match v with
  | JList l => ret (JList (take n l))
  | JStr s =>
      ret (JStr (of_bytes (concat (take n (utf8_chars (bytes s))))))
  | _ => raise TypeError
  end.

(** [l[0]]; the model has [KeyError] for [IndexError] (both are
    [LookupError]), and no handler here tells them apart. *)
Definition py_first {X} (l : list json) : M X json :=
  match l with
  | x :: _ => ret x
  | [] => raise KeyError
  end.

Module nullbr_search.

Inductive MediaType : Type := MOVIE | TV.

Record SearchResult : Type := {
  title : json;
  year : json;
  type : MediaType;
  tmdbid : json;
  vote : json;
  image : json;
  overview : json;
  resource_type : string;
  url : json;
  size : json;
  resolution : json
}.

Record t : Type := {
  _client : option nullbr_client.t;
  _enabled : bool;
  _app_id : string;
  _api_key : string;
  _search_timeout : Z
}.

Definition with_client {A} (m : M nullbr_client.t A) : M t A :=
  fun s =>
    match _client (fst s) with
    | Some c =>
        match m (c, snd s) with
        | (r, (_, w')) => (r, (fst s, w'))
        end
    | None => (Raise AttributeError, s)
    end.

(** The parameters of [NullbrApiClient.search(self, query, page=1)] in
    [nullbr_client.py]. *)
Definition search_parameters : list string := ["query"; "page"].

(** A call of [self._client.search] with keyword arguments: a keyword
    that names no parameter is a [TypeError], raised before the body of
    [search] runs. *)
Definition call_search (keywords : list string) (query : string) (page : Z)
    : M nullbr_client.t json :=
  if forallb (fun k => existsb (String.eqb k) search_parameters) keywords
  then nullbr_client.search query page
  else raise TypeError.

(** One element of the list that [_get_resources] returns. *)
Definition resource_of (res : json) : M t json :=
  title <- py_get res "title" (JStr "") ;;
  size <- py_get res "size" (JStr "") ;;
  url <- py_get res "share_link" (JStr "") ;;
  resolution <- py_get res "resolution" (JStr "") ;;
  ret (JDict [("title", title); ("size", size); ("url", url);
              ("resolution", resolution); ("type", JStr "115")]).

Fixpoint resources_of (l : list json) : M t (list json) :=
  match l with
  | [] => ret []
  | res :: rest =>
      r <- resource_of res ;;
      rs <- resources_of rest ;;
      ret (r :: rs)
  end.

Definition _get_resources (tmdbid : json) (media_type : option MediaType)
    : M t (list json) :=
  self <- get_self ;;
  if negb (bool_decide (is_Some (_client self)))
     || String.eqb (_api_key self) "" || negb (truthy tmdbid)
  then ret []
  else
    try_except
      (resources <-
         match media_type with
         | Some MOVIE =>
             with_client (nullbr_client.get_movie_resources tmdbid "115")
         | _ => with_client (nullbr_client.get_tv_resources tmdbid "115")
         end ;;
       none <- (if negb (truthy resources) then ret true
                else found <- py_get resources "115" JNull ;;
                     ret (negb (truthy found))) ;;
       if none : bool then ret []
       else
         bundle <- py_get resources "115" (JList []) ;;
         entries <- py_iter bundle ;;
         resources_of entries)
      (fun e => ret []).

(** The [SearchResult] built for one hit that has the 115 flag. *)
Definition result_of (media_type : option MediaType) (item : json)
    : M t SearchResult :=
  tmdbid <- py_get item "tmdbid" JNull ;;
  resources <- _get_resources tmdbid media_type ;;
  title <- py_get item "title" (JStr "") ;;
  release_date <- py_get item "release_date" JNull ;;
  year <- (if truthy release_date
           then d <- py_get item "release_date" (JStr "") ;; py_prefix 4 d
           else ret (JStr "")) ;;
  type <- match media_type with
          | Some m => ret m
          | None =>
              kind <- py_get item "media_type" JNull ;;
              ret (if is_str kind "movie" then MOVIE else TV)
          end ;;
  tmdbid <- py_get item "tmdbid" JNull ;;
  vote <- py_get item "vote_average" (JNum 0) ;;
  image <- py_get item "poster_path" (JStr "") ;;
  overview <- py_get item "overview" (JStr "") ;;
  url <- match resources with
         | [] => ret (JStr "")
         | _ => first <- py_first resources ;; py_getitem first "url"
         end ;;
  size <- match resources with
          | [] => ret (JStr "")
          | _ => first <- py_first resources ;; py_getitem first "size"
          end ;;
  first <- py_first resources ;;
  resolution <- py_get first "resolution" (JStr "") ;;
  ret {| title := title; year := year; type := type; tmdbid := tmdbid;
         vote := vote; image := image; overview := overview;
         resource_type := "115"; url := url; size := size;
         resolution := resolution |}.

(** The loop over the hits: those without the 115 flag are passed
    over. *)
Fixpoint results_of (media_type : option MediaType) (items : list json)
    : M t (list SearchResult) :=
  match items with
  | [] => ret []
  | item :: rest =>
      flag <- py_get item "115-flg" JNull ;;
      if negb (truthy flag) then results_of media_type rest
      else
        r <- result_of media_type item ;;
        rs <- results_of media_type rest ;;
        ret (r :: rs)
  end.

Definition search (keyword : string) (media_type : option MediaType)
    (season : option Z) (page : Z) : M t (option (list SearchResult)) :=
  self <- get_self ;;
  if negb (_enabled self) || negb (bool_decide (is_Some (_client self)))
  then ret None
  else
    try_except
      (api_result <-
         with_client
           (call_search ["query"; "media_type"; "page"] keyword page) ;;
       none <- (if negb (truthy api_result) then ret true
                else found <- py_get api_result "items" JNull ;;
                     ret (negb (truthy found))) ;;
       if none : bool then ret None
       else
         all_items <- py_get api_result "items" (JList []) ;;
         items <- py_iter all_items ;;
         search_results <- results_of media_type items ;;
         ret (Some search_results))
      (fun e => ret None).

(** [get_state] and [stop_service] *)
Definition get_state : M t bool :=
  self <- get_self ;; ret (_enabled self).

Definition stop_service : M t unit :=
  try_except
    (modify_self (fun self =>
       {| _client := None; _enabled := false; _app_id := _app_id self;
          _api_key := _api_key self;
          _search_timeout := _search_timeout self |}))
    (fun e => ret tt).

End nullbr_search.

(** ** Requests and answers named in the statements *)

Definition login_request (c : CloudSyncMediaClient.t) : request :=
  CmsLogin (CloudSyncMediaClient.base_url c) (CloudSyncMediaClient.username c)
    (CloudSyncMediaClient.password c).

Definition share_request (c : CloudSyncMediaClient.t) (url : json) : request :=
  CmsAddShareDown (CloudSyncMediaClient.base_url c)
    (CloudSyncMediaClient.authorization c) url.

(** The body of a successful login: [{code: 200, data: {token: tok}}] *)
Definition login_body (tok : json) : json :=
  JDict [("code", JNum 200); ("data", JDict [("token", tok)])].

Definition login_ok (tok : json) : http_outcome :=
  Response {| status_code := 200; body := Some (login_body tok) |}.

Definition answer (status : Z) (v : json) : http_outcome :=
  Response {| status_code := status; body := Some v |}.

(** A database for the examples.  It knows the full-width digits U+FF10
    to U+FF19, which are decimal digits, and the superscripts U+00B2,
    U+00B3 and U+00B9, which are digits that are not decimal; of every
    other character above ASCII it says that it is no digit, and of every
    character above ASCII that it is its own upper-case form, which is
    right for the digits and the Chinese characters of the examples. *)
Definition unicode_sample : unicode :=
  {| decimal := fun c => if ((65296 <=? c) && (c <=? 65305))%N
                         then Some (c - 65296)%N else None;
     other_digit := fun c => ((c =? 178) || (c =? 179) || (c =? 185))%N;
     uppercase := fun c => [c] |}.

(** A world whose clock always reads [now], whose network gives the
    outcomes of [script] in turn and then fails to connect, and in which
    nothing has happened yet. *)
Definition world_of (now : Z) (script : list http_outcome) : world :=
  {| time_src := fun _ => now; ticks := 0;
     net_src := fun n => nth n script (Failure TConnectionError);
     sent := 0; trace := []; unicodedata := unicode_sample |}.

(** A client that holds the token [t0] until the time 100000, and one that
    holds none. *)
Definition cms_holding : CloudSyncMediaClient.t :=
  {| CloudSyncMediaClient.base_url := "http://cms";
     CloudSyncMediaClient.username := "admin";
     CloudSyncMediaClient.password := "secret";
     CloudSyncMediaClient.token := JStr "t0";
     CloudSyncMediaClient.token_expiry := 100000;
     CloudSyncMediaClient.authorization := Some (JStr "t0") |}.

Definition cms_blank : CloudSyncMediaClient.t :=
  {| CloudSyncMediaClient.base_url := "http://cms";
     CloudSyncMediaClient.username := "admin";
     CloudSyncMediaClient.password := "secret";
     CloudSyncMediaClient.token := JNull;
     CloudSyncMediaClient.token_expiry := 0;
     CloudSyncMediaClient.authorization := None |}.

Definition unauthorized : http_outcome :=
  Response {| status_code := 401; body := None |}.

Definition share_url : json := JStr "https://115.com/s/abc".

(** The outcome that the [except HTTPError] clause of [add_share_down]
    answers with its recovery: an [HTTPError] of the status 401. *)
Definition is_401 {A} (r : result A) : bool :=
  match r with
  | Raise (HTTPError status) => status =? 401
  | _ => false
  end.

(** The login is refused with 401, the next login is accepted, and the
    post that follows is refused with 401; the clock reads 1000. *)
Definition world_login_refused : world :=
  world_of 1000 [unauthorized; login_ok (JStr "t1"); unauthorized].

(** The first post is refused, the login is accepted, the second post is
    refused again; the clock reads 1000. *)
Definition world_refusing : world :=
  world_of 1000 [unauthorized; login_ok (JStr "t1"); unauthorized].

(** ** The operations of the Nullbr client, for statements about all three *)

Inductive operation : Type :=
| OpSearch (query : string) (page : Z)
| OpMovie (tmdbid : json) (resource_type : string)
| OpTv (tmdbid : json) (resource_type : string).

Definition run_operation (op : operation) : M NullbrApiClient.t json :=
  match op with
  | OpSearch query page => NullbrApiClient.search query page
  | OpMovie tmdbid resource_type =>
      NullbrApiClient.get_movie_resources tmdbid resource_type
  | OpTv tmdbid resource_type =>
      NullbrApiClient.get_tv_resources tmdbid resource_type
  end.

Definition operation_call (op : operation) : client_call :=
  match op with
  | OpSearch query page => CallSearch query
  | OpMovie tmdbid resource_type => CallMovie tmdbid resource_type
  | OpTv tmdbid resource_type => CallTv tmdbid resource_type
  end.

Definition operation_endpoint (op : operation) : endpoint :=
  match op with
  | OpSearch query page => UrlSearch query page
  | OpMovie tmdbid resource_type => UrlMovie tmdbid resource_type
  | OpTv tmdbid resource_type => UrlTv tmdbid resource_type
  end.

(** A search needs no API key; the resource lookups return [None] at once
    without one. *)
Definition operation_allowed (c : NullbrApiClient.t) (op : operation) : bool :=
  match op with
  | OpSearch _ _ => true
  | _ => key_set (NullbrApiClient._api_key c)
  end.

(** The [X-API-KEY] header of the request. *)
Definition operation_key (c : NullbrApiClient.t) (op : operation)
    : option string :=
  if key_set (NullbrApiClient._api_key c) then NullbrApiClient._api_key c
  else None.

(** A timeout or a connection failure, as opposed to another failure of
    the transport. *)
Definition path_failure (o : http_outcome) : bool :=
  match o with
  | Failure TOther => false
  | Failure _ => true
  | Response _ => false
  end.

Definition proxied (ep : endpoint) (key : option string) : event :=
  Http (NullbrGet ep key true Timeout5).

Definition direct (ep : endpoint) (key : option string) : event :=
  Http (NullbrGet ep key false Timeout10_30).

(** The two-path rule in the spec's words: the preferred path first, with
    the 5 s timeout; the direct path, with the 10 s / 30 s timeouts, once
    and only after a timeout or a connection failure. *)
Definition two_path_requests (ep : endpoint) (key : option string)
    (first : http_outcome) : list event :=
  proxied ep key :: (if path_failure first then [direct ep key] else []).

Definition nullbr_keyed : NullbrApiClient.t :=
  {| NullbrApiClient._app_id := "app"; NullbrApiClient._api_key := Some "key" |}.

Definition nullbr_keyless : NullbrApiClient.t :=
  {| NullbrApiClient._app_id := "app"; NullbrApiClient._api_key := None |}.

Definition movie_603 : operation := OpMovie (JNum 603) "115".

(** Both paths fail: the proxy times out, the direct connection is
    refused. *)
Definition world_unreachable : world :=
  world_of 0 [Failure TTimeout; Failure TConnectionError].

(** The API answers the first request with the given status and an empty
    JSON object. *)
Definition world_answering (status : Z) : world :=
  world_of 0 [answer status (JDict [])].

(** What a caller can observe of a movie lookup answered with [status]:
    the returned value and the trace; first for the client of
    [nullbrsearch/__init__.py], then for the one of [nullbr_client.py]. *)
Definition lookup_outcome (status : Z) : result json * list event :=
  let out := NullbrApiClient.get_movie_resources (JNum 603) "115"
               (nullbr_keyed, world_answering status) in
  (fst out, trace (snd (snd out))).

Definition lookup_outcome_file (status : Z) : result json * list event :=
  let out := nullbr_client.get_movie_resources (JNum 603) "115"
               (nullbr_keyed, world_answering status) in
  (fst out, trace (snd (snd out))).

(** The two per-title lookups, in both clients. *)
Inductive media_kind : Type := Movie | Tv.

Definition lookup_op (k : media_kind) (tmdbid : json) (resource_type : string)
    : operation :=
  match k with
  | Movie => OpMovie tmdbid resource_type
  | Tv => OpTv tmdbid resource_type
  end.

Definition lookup (k : media_kind) (tmdbid : json) (resource_type : string)
    : M NullbrApiClient.t json :=
  run_operation (lookup_op k tmdbid resource_type).

Definition lookup_file (k : media_kind) (tmdbid : json)
    (resource_type : string) : M nullbr_client.t json :=
  match k with
  | Movie => nullbr_client.get_movie_resources tmdbid resource_type
  | Tv => nullbr_client.get_tv_resources tmdbid resource_type
  end.

(** The response that a lookup reads: the answer to the proxied request,
    or, after a timeout or a connection failure of the proxied request,
    the answer to the direct one. *)
Definition received (w : world) : option response :=
  match net_src w (sent w) with
  | Response resp => Some resp
  | Failure tr =>
      if path_failure (Failure tr) then
        match net_src w (S (sent w)) with
        | Response resp => Some resp
        | Failure _ => None
        end
      else None
  end.

(** The state a lookup leaves when it has read a response: the call, the
    proxied request and, if that one failed, the direct request are on the
    trace. *)
Definition after_requests (k : media_kind) (tmdbid : json)
    (resource_type : string) (c : NullbrApiClient.t) (w : world)
    : NullbrApiClient.t * world :=
  let op := lookup_op k tmdbid resource_type in
  let key := NullbrApiClient._api_key c in
  let w1 := send (NullbrGet (operation_endpoint op) key true Timeout5)
              (emit (Called (operation_call op)) w) in
  (c, if path_failure (net_src w (sent w))
      then send (NullbrGet (operation_endpoint op) key false Timeout10_30) w1
      else w1).

(** The proxied request times out, and the direct request is answered
    with the given status and an empty object. *)
Definition world_answering_directly (status : Z) : world :=
  world_of 0 [Failure TTimeout; answer status (JDict [])].

(** ** The resource cache, in the spec's words *)

(** The URL field of a raw entry, by resource type: [share_link] for 115,
    [magnet] for magnet, [url] (or [link] when the entry has no [url] key)
    for video and ed2k; a missing field counts as empty.  An entry that is
    not an object has no field. *)
Definition url_field (resource_type : string) (res : json) : json :=
  match res with
  | JDict d =>
      if String.eqb resource_type "115"
      then from_option id (JStr "") (dict_get d "share_link")
      else if String.eqb resource_type "magnet"
      then from_option id (JStr "") (dict_get d "magnet")
      else if String.eqb resource_type "video" || String.eqb resource_type "ed2k"
      then from_option id (from_option id (JStr "") (dict_get d "link"))
             (dict_get d "url")
      else JStr ""
  | _ => JStr ""
  end.

(** A stored item is actionable: its url is not empty. *)
Definition has_url (it : NullbrSearch.resource_item) : Prop :=
  truthy (NullbrSearch.url it) = true.

(** Every stored entry holds at most 10 items, all with a url. *)
Definition resource_cache_ok (self : NullbrSearch.t) : Prop :=
  forall userid e,
    NullbrSearch._user_resource_cache self !! userid = Some e ->
    Forall has_url (NullbrSearch.resources e) /\
    (length (NullbrSearch.resources e) <= 10)%nat.

(** The raw entries of a bundle for a resource type: the elements of
    [resources[resource_type]]. *)
Definition raw_entries (resources : json) (resource_type : string)
    : list json :=
  match resources with
  | JDict d =>
      match dict_get d resource_type with
      | Some (JList l) => l
      | Some (JStr s) => chars s
      | _ => []
      end
  | _ => []
  end.

(** The entry that [_format_and_send_resources] stores. *)
Definition stored_entry (items : list NullbrSearch.resource_item)
    (title : json) (resource_type : string) (now : Z)
    : NullbrSearch.resource_entry :=
  {| NullbrSearch.resources := items;
     NullbrSearch.source_title := title;
     NullbrSearch.resource_type := resource_type;
     NullbrSearch.timestamp := now |}.

(** A computation of the plugin keeps a property of [self]: if it holds
    before, it holds after, however the computation ends. *)
Definition keeps {A} (P : NullbrSearch.t -> Prop) (m : M NullbrSearch.t A)
    : Prop :=
  forall self w, P self -> P (fst (snd (m (self, w)))).

(** A computation that writes nothing to [self]. *)
Definition reads_only {X A} (m : M X A) : Prop :=
  forall s, fst (snd (m s)) = fst s.

(** ** Example data *)

Definition hit_matrix : json :=
  JDict [("title", JStr "The Matrix"); ("media_type", JStr "movie");
         ("tmdbid", JNum 603); ("release_date", JStr "1999-03-31");
         ("115-flg", JBool true); ("magnet-flg", JBool true);
         ("ed2k-flg", JBool false); ("video-flg", JBool true)].

(** The same hit without its tmdbid. *)
Definition hit_no_tmdbid : json :=
  JDict [("title", JStr "The Matrix"); ("media_type", JStr "movie");
         ("115-flg", JBool true); ("magnet-flg", JBool true)].

(** Three raw 115 entries: one with a share link, one without the field,
    one with an empty link. *)
Definition bundle_115 : json :=
  JDict [("115",
          JList [JDict [("title", JStr "Matrix 4K");
                        ("share_link", JStr "https://115.com/s/a");
                        ("size", JStr "60G")];
                 JDict [("title", JStr "Matrix 1080p"); ("size", JStr "12G")];
                 JDict [("title", JStr "Matrix 720p");
                        ("share_link", JStr "")]])].

(** A configured plugin with empty caches. *)
Definition plugin0 : NullbrSearch.t :=
  {| NullbrSearch._enabled := true;
     NullbrSearch._api_key := Some "key";
     NullbrSearch._resource_priority := ["magnet"; "115"; "ed2k"; "video"];
     NullbrSearch._enable_115 := true;
     NullbrSearch._enable_magnet := true;
     NullbrSearch._enable_video := true;
     NullbrSearch._enable_ed2k := true;
     NullbrSearch._client := Some nullbr_keyed;
     NullbrSearch._cms_enabled := true;
     NullbrSearch._cms_client := Some cms_holding;
     NullbrSearch._user_search_cache := ∅;
     NullbrSearch._user_resource_cache := ∅ |}.

Definition message_of (txt : string) : NullbrSearch.message :=
  {| NullbrSearch.text := Some txt; NullbrSearch.userid := "u1";
     NullbrSearch.channel := "wechat"; NullbrSearch.source := None |}.

(** [self] after an entry has been written for the user in the search
    cache, or in the resource cache. *)
Definition with_search_entry (userid : string)
    (e : NullbrSearch.search_entry) (self : NullbrSearch.t) : NullbrSearch.t :=
  NullbrSearch.set_search_cache
    (<[userid := e]> (NullbrSearch._user_search_cache self)) self.

Definition with_resource_entry (userid : string)
    (e : NullbrSearch.resource_entry) (self : NullbrSearch.t)
    : NullbrSearch.t :=
  NullbrSearch.set_resource_cache
    (<[userid := e]> (NullbrSearch._user_resource_cache self)) self.

(** The replies that tell the user that a cache entry is not there. *)
Definition search_expired (channel userid : string) : event :=
  PostMessage channel userid "提示" "搜索结果已过期，请重新搜索。".

Definition resource_expired (channel userid : string) : event :=
  PostMessage channel userid "缓存过期" "资源缓存已过期，请重新获取资源。".

(** The [except Exception] clauses of the three handlers. *)
Definition selection_failed (channel userid : string) (e : exn)
    : M NullbrSearch.t unit :=
  NullbrSearch.post_message channel userid "错误" "处理选择时出现错误: ".

Definition resources_failed (channel userid : string) (e : exn)
    : M NullbrSearch.t unit :=
  NullbrSearch.post_message channel userid "错误" "获取资源链接时出现错误: ".

Definition transfer_failed (channel userid : string) (e : exn)
    : M NullbrSearch.t unit :=
  NullbrSearch.post_message channel userid "转存错误" "转存过程中发生错误: ".

(** The transfer client is switched on and there. *)
Definition cms_ready (self : NullbrSearch.t) : Prop :=
  NullbrSearch._cms_enabled self = true /\
  is_Some (NullbrSearch._cms_client self).

(** Entries written at the time 1000. *)
Definition listed_at_1000 : NullbrSearch.search_entry :=
  {| NullbrSearch.results := [hit_matrix; hit_no_tmdbid];
     NullbrSearch.keyword := "Matrix";
     NullbrSearch.search_timestamp := 1000 |}.

Definition item_a : NullbrSearch.resource_item :=
  {| NullbrSearch.url := JStr "https://115.com/s/a";
     NullbrSearch.title := JStr "Matrix 4K";
     NullbrSearch.size := JStr "60G";
     NullbrSearch.type := "115" |}.

Definition resolved_at_1000 : NullbrSearch.resource_entry :=
  stored_entry [item_a] (JStr "The Matrix") "115" 1000.

(** ** The dispatcher *)

(** [talk] goes on to classify the message: the plugin is enabled and has
    its client, the text is there and not empty, and the message is not one
    of the plugin's own fallback messages. *)
Definition heard (self : NullbrSearch.t) (event : NullbrSearch.message)
    (txt : string) : Prop :=
  NullbrSearch._enabled self = true /\
  is_Some (NullbrSearch._client self) /\
  NullbrSearch.text event = Some txt /\
  txt <> "" /\
  NullbrSearch.source event <> Some "nullbr_fallback".

(** The number that a text of decimal digits stands for. *)
Definition value_of (u : unicode) (l : list N) : Z :=
  fold_left
    (fun acc c => 10 * acc + Z.of_N (from_option id 0%N (decimal_digit u c)))
    l 0.

(** The text that [talk] hands to [int]: the number of a request for one
    type, or the whole text when [str.isdigit] accepts it. *)
Definition number_text (u : unicode) (s : string) : option string :=
  match match_resource_request u s with
  | Some (digits, _) => Some digits
  | None => if isdigit u s then Some s else None
  end.

(** The user has a resource entry younger than 3600 s at the reading
    [now], and [number] is a 1-based index into it. *)
Definition live_resource (self : NullbrSearch.t) (userid : string)
    (now number : Z) : Prop :=
  exists cache,
    NullbrSearch._user_resource_cache self !! userid = Some cache /\
    now - NullbrSearch.timestamp cache < 3600 /\
    1 <= number <= Z.of_nat (length (NullbrSearch.resources cache)).

(** [plugin0] with the transfer client switched off. *)
Definition plugin_cms_off : NullbrSearch.t :=
  {| NullbrSearch._enabled := true;
     NullbrSearch._api_key := Some "key";
     NullbrSearch._resource_priority := ["magnet"; "115"; "ed2k"; "video"];
     NullbrSearch._enable_115 := true;
     NullbrSearch._enable_magnet := true;
     NullbrSearch._enable_video := true;
     NullbrSearch._enable_ed2k := true;
     NullbrSearch._client := Some nullbr_keyed;
     NullbrSearch._cms_enabled := false;
     NullbrSearch._cms_client := None;
     NullbrSearch._user_search_cache := ∅;
     NullbrSearch._user_resource_cache := ∅ |}.

(** The tmdbid of a hit. *)
Definition tmdbid_of (selected : list (string * json)) : json :=
  from_option id JNull (dict_get selected "tmdbid").

(** The reply to a hit without tmdbid. *)
Definition missing_tmdbid (channel userid : string) : event :=
  PostMessage channel userid "错误" "该资源缺少TMDB ID，无法获取下载链接。".

(** ** The priority walk, in the spec's words *)

(** The availability flag of a hit for a type ([<type>-flg]). *)
Definition available (hit : list (string * json)) (ty : string) : bool :=
  truthy (from_option id JNull (dict_get hit (ty ++ "-flg"))).

(** A type is disabled in the configuration when it is one of the four
    types that have a switch and its switch is off; any other type has no
    switch, and is not disabled. *)
Definition disabled (self : NullbrSearch.t) (ty : string) : bool :=
  String.eqb ty "115" && negb (NullbrSearch._enable_115 self)
  || String.eqb ty "magnet" && negb (NullbrSearch._enable_magnet self)
  || String.eqb ty "video" && negb (NullbrSearch._enable_video self)
  || String.eqb ty "ed2k" && negb (NullbrSearch._enable_ed2k self).

(** A type is tried when the hit has it and the configuration does not
    disable it. *)
Definition tried (self : NullbrSearch.t) (hit : list (string * json))
    (ty : string) : bool :=
  available hit ty && negb (disabled self ty).

(** The configured order, without the types that are skipped. *)
Definition candidates (self : NullbrSearch.t) (hit : list (string * json))
    (priority : list string) : list string :=
  List.filter (tried self hit) priority.

(** The bundle for a type in what a fetch returned is not empty. *)
Definition nonempty_bundle (resources : json) (ty : string) : bool :=
  match resources with
  | JDict d => truthy (from_option id JNull (dict_get d ty))
  | _ => false
  end.

(** The fields of a hit that the walk reads. *)
Definition title_of (hit : list (string * json)) : json :=
  from_option id (JStr "未知标题") (dict_get hit "title").

Definition media_type_of (hit : list (string * json)) : json :=
  from_option id (JStr "unknown") (dict_get hit "media_type").

(** One walk over a priority order, from the world [w]: the types that
    were fetched, in order, the type that won with what its fetch
    returned (or [None] when the order is exhausted), and the world after
    the last fetch.  A type that is not tried is passed over; a tried type
    is fetched; a non-empty bundle ends the walk. *)
Inductive walked (self : NullbrSearch.t) (hit : list (string * json))
    : list string -> world -> list string -> option (string * json) ->
      world -> Prop :=
| walked_out (w : world) :
    walked self hit [] w [] None w
| walked_skip (ty : string) (rest : list string) (w : world)
    (visited : list string) (r : option (string * json)) (w' : world) :
    tried self hit ty = false ->
    walked self hit rest w visited r w' ->
    walked self hit (ty :: rest) w visited r w'
| walked_win (ty : string) (rest : list string) (w : world)
    (resources : json) (w1 : world) :
    tried self hit ty = true ->
    NullbrSearch.fetch_resources (media_type_of hit) (tmdbid_of hit) ty
      (self, w) = (Ok resources, (self, w1)) ->
    nonempty_bundle resources ty = true ->
    walked self hit (ty :: rest) w [ty] (Some (ty, resources)) w1
| walked_on (ty : string) (rest : list string) (w : world)
    (resources : json) (w1 : world)
    (visited : list string) (r : option (string * json)) (w' : world) :
    tried self hit ty = true ->
    NullbrSearch.fetch_resources (media_type_of hit) (tmdbid_of hit) ty
      (self, w) = (Ok resources, (self, w1)) ->
    nonempty_bundle resources ty = false ->
    walked self hit rest w1 visited r w' ->
    walked self hit (ty :: rest) w (ty :: visited) r w'.

(** The client operations entered, as a trace records them. *)
Definition calls (tr : list event) : list client_call :=
  omap (fun ev => match ev with Called c => Some c | _ => None end) tr.

(** The call that fetching a type makes: none when the media type is
    neither [movie] nor [tv]. *)
Definition fetch_call (hit : list (string * json)) (ty : string)
    : list client_call :=
  if is_str (media_type_of hit) "movie" then [CallMovie (tmdbid_of hit) ty]
  else if is_str (media_type_of hit) "tv" then [CallTv (tmdbid_of hit) ty]
  else [].

(** Every body that the API sends is an object, or null or another falsy
    value: the lookups return [Optional[Dict]]. *)
Definition answers_are_objects (w : world) : Prop :=
  forall n resp v,
    net_src w n = Response resp -> body resp = Some v ->
    truthy v = false \/ exists d, v = JDict d.

(** The bundle for a type in what a fetch returned. *)
Definition bundle_of (resources : json) (ty : string) : json :=
  match resources with
  | JDict d => from_option id JNull (dict_get d ty)
  | _ => JNull
  end.

(** A value that has a length: a list, a string or an object. *)
Definition has_len (v : json) : bool :=
  match v with
  | JList _ | JStr _ | JDict _ => true
  | _ => false
  end.

(** The replies of the walk. *)
Definition resources_found (channel userid : string) : event :=
  PostMessage channel userid "获取成功" "✅ 已获取「".

Definition walk_error (channel userid : string) : event :=
  PostMessage channel userid "错误" "获取资源时出现错误: ".

(** What the loop does once the walk is over: the winner's bundle is
    measured, announced and sent on; a bundle without a length raises. *)
Definition loop_end (title : json) (channel userid : string)
    (self : NullbrSearch.t) (r : option (string * json)) (w' : world)
    : result unit * (NullbrSearch.t * world) :=
  match r with
  | Some (ty, resources) =>
      if has_len (bundle_of resources ty) then
        NullbrSearch._format_and_send_resources resources ty title
          channel userid (self, emit (resources_found channel userid) w')
      else (Raise TypeError, (self, w'))
  | None =>
      (Ok tt,
       (self,
        emit (FallbackSearch title)
          (emit (PostMessage channel userid "切换搜索" "Nullbr没有找到「")
             w')))
  end.

(** What [get_resources_by_priority] does once the walk is over: the
    winner's bundle is announced and sent on when it has a length, and the
    one reply is the error reply when it has none. *)
Definition walk_end (title : json) (channel userid : string) (self : NullbrSearch.t)
    (r : option (string * json)) (w' : world)
    : result unit * (NullbrSearch.t * world) :=
  match r with
  | Some (ty, resources) =>
      if has_len (bundle_of resources ty) then
        NullbrSearch._format_and_send_resources resources ty title
          channel userid (self, emit (resources_found channel userid) w')
      else (Ok tt, (self, emit (walk_error channel userid) w'))
  | None =>
      (Ok tt,
       (self,
        emit (FallbackSearch title)
          (emit (PostMessage channel userid "切换搜索" "Nullbr没有找到「")
             w')))
  end.

(** The fields of [hit_matrix], and a world in which the API answers the
    first lookup with an empty object and the second with [bundle_115]. *)
Definition matrix_fields : list (string * json) :=
  [("title", JStr "The Matrix"); ("media_type", JStr "movie");
   ("tmdbid", JNum 603); ("release_date", JStr "1999-03-31");
   ("115-flg", JBool true); ("magnet-flg", JBool true);
   ("ed2k-flg", JBool false); ("video-flg", JBool true)].

Definition world_second_wins : world :=
  world_of 1000 [answer 200 (JDict []); answer 200 bundle_115].

(** A world in which the API answers the first lookup with a count in the
    place of the list of entries. *)
Definition world_counting : world :=
  world_of 1000 [answer 200 (JDict [("magnet", JNum 5)])].

(** The fields of [hit_no_tmdbid]. *)
Definition no_tmdbid_fields : list (string * json) :=
  [("title", JStr "The Matrix"); ("media_type", JStr "movie");
   ("115-flg", JBool true); ("magnet-flg", JBool true)].

(** Whether a trace records that the fallback search was invoked. *)
Definition fell_back (tr : list event) : bool :=
  existsb (fun ev => match ev with FallbackSearch _ => true | _ => false end)
    tr.

(** ** What a message may change *)

(** The account of a transfer client: the fields that no method writes. *)
Definition same_account (c c' : CloudSyncMediaClient.t) : Prop :=
  CloudSyncMediaClient.base_url c' = CloudSyncMediaClient.base_url c /\
  CloudSyncMediaClient.username c' = CloudSyncMediaClient.username c /\
  CloudSyncMediaClient.password c' = CloudSyncMediaClient.password c.

(** The configuration of the plugin: every field but the two caches and
    the transfer client. *)
Definition settings_of (self : NullbrSearch.t)
    : bool * option string * list string * (bool * bool * bool * bool) *
      option NullbrApiClient.t * bool :=
  (NullbrSearch._enabled self, NullbrSearch._api_key self,
   NullbrSearch._resource_priority self,
   (NullbrSearch._enable_115 self, NullbrSearch._enable_magnet self,
    NullbrSearch._enable_video self, NullbrSearch._enable_ed2k self),
   NullbrSearch._client self, NullbrSearch._cms_enabled self).

(** The account of the transfer client of the plugin, if it has one. *)
Definition cms_account (self : NullbrSearch.t)
    : option (string * string * string) :=
  match NullbrSearch._cms_client self with
  | Some c => Some (CloudSyncMediaClient.base_url c,
                    CloudSyncMediaClient.username c,
                    CloudSyncMediaClient.password c)
  | None => None
  end.

(** Every entry of the search cache lists at most 10 hits. *)
Definition search_cache_ok (self : NullbrSearch.t) : Prop :=
  forall userid e,
    NullbrSearch._user_search_cache self !! userid = Some e ->
    (length (NullbrSearch.results e) <= 10)%nat.

(** A message of another user. *)
Definition message_from (userid txt : string) : NullbrSearch.message :=
  {| NullbrSearch.text := Some txt; NullbrSearch.userid := userid;
     NullbrSearch.channel := "wechat"; NullbrSearch.source := None |}.

(** ** Searching *)

(** What a search found counts as nothing: [not result or not
    result.get('items')]. *)
Definition no_hits (result : json) : Prop :=
  truthy result = false \/
  exists d, result = JDict d /\
            truthy (from_option id JNull (dict_get d "items")) = false.

(** The replies of [search_and_reply]. *)
Definition switching_search (channel userid : string) : event :=
  PostMessage channel userid "切换搜索" "Nullbr没有找到「".

Definition search_listing (channel userid : string) : event :=
  PostMessage channel userid "Nullbr搜索结果" "🔍 找到「".

Definition search_failed (channel userid : string) : event :=
  PostMessage channel userid "搜索错误" "搜索「".

(** The entry that a search stores. *)
Definition listed (items : list json) (keyword : string) (now : Z)
    : NullbrSearch.search_entry :=
  {| NullbrSearch.results := take 10 items;
     NullbrSearch.keyword := keyword;
     NullbrSearch.search_timestamp := now |}.

(** A hit that the listing can show: an object whose dates, where it has
    them, are strings. *)
Definition date_ok (d : list (string * json)) (k : string) : Prop :=
  match dict_get d k with
  | Some (JStr _) | None => True
  | Some _ => False
  end.

Definition showable (item : json) : Prop :=
  match item with
  | JDict d => date_ok d "release_date" /\ date_ok d "first_air_date"
  | _ => False
  end.

(** Twelve hits, as an API answer to a search, and a world that gives
    this answer first. *)
Definition twelve_hits : list json :=
  map (fun n => JDict [("title", JStr "Matrix"); ("tmdbid", JNum n);
                       ("media_type", JStr "movie")])
    [601; 602; 603; 604; 605; 606; 607; 608; 609; 610; 611; 612].

Definition world_twelve : world :=
  world_of 1000 [answer 200 (JDict [("items", JList twelve_hits)])].

(** The replies to a number that is no index of the entry. *)
Definition invalid_number (channel userid : string) : event :=
  PostMessage channel userid "提示" "请输入有效的编号 (1-".

Definition invalid_resource_number (channel userid : string) : event :=
  PostMessage channel userid "无效编号" "请输入有效的资源编号 (1-".

(** [number] is no 1-based index into a list of [n] elements. *)
Definition out_of_range (number : Z) (n : nat) : Prop :=
  number < 1 \/ Z.of_nat n < number.

(** ** A request for one type *)

(** The reply that announces the lookup of [handle_get_resources]. *)
Definition fetching (channel userid : string) : event :=
  PostMessage channel userid "获取中" "正在获取「".

(** [plugin0] with ed2k switched off in the configuration. *)
Definition plugin_no_ed2k : NullbrSearch.t :=
  {| NullbrSearch._enabled := true;
     NullbrSearch._api_key := Some "key";
     NullbrSearch._resource_priority := ["magnet"; "115"; "ed2k"; "video"];
     NullbrSearch._enable_115 := true;
     NullbrSearch._enable_magnet := true;
     NullbrSearch._enable_video := true;
     NullbrSearch._enable_ed2k := false;
     NullbrSearch._client := Some nullbr_keyed;
     NullbrSearch._cms_enabled := true;
     NullbrSearch._cms_client := Some cms_holding;
     NullbrSearch._user_search_cache := {["u1" := listed_at_1000]};
     NullbrSearch._user_resource_cache := ∅ |}.

(** ** Without the API key *)






(** ** Transfers *)

(** What a post ends in, by the answer of the network. *)
Definition share_result (o : http_outcome) : result json :=
  match o with
  | Response resp =>
      if (400 <=? status_code resp) && (status_code resp <? 600)
      then Raise (HTTPError (status_code resp))
      else match body resp with
           | Some v => Ok v
           | None => Raise JSONDecodeError
           end
  | Failure tr => Raise (exn_of_transport tr)
  end.

(** The answer is not a 401. *)
Definition not_401 (o : http_outcome) : Prop :=
  forall resp, o = Response resp -> status_code resp <> 401.

(** The replies of [handle_resource_transfer]. *)
Definition transferring (channel userid : string) : event :=
  PostMessage channel userid "转存中" "🚀 正在转存资源到CloudSyncMedia:".

Definition transfer_done (channel userid : string) : event :=
  PostMessage channel userid "转存成功" "✅ 资源转存成功!".

Definition transfer_refused (channel userid : string) : event :=
  PostMessage channel userid "转存失败" "❌ 资源转存失败:".

Definition transfer_error (channel userid : string) : event :=
  PostMessage channel userid "转存错误" "转存过程中发生错误: ".

Definition transfer_off (channel userid : string) : event :=
  PostMessage channel userid "功能未启用"
    "CloudSyncMedia转存功能未启用，请在设置中配置。".

(** The reply to a transfer, by what the post ended in. *)
Definition transfer_reply (channel userid : string) (r : result json)
    : event :=
  match r with
  | Ok (JDict d) =>
      if is_num (from_option id JNull (dict_get d "code")) 200
      then transfer_done channel userid
      else transfer_refused channel userid
  | _ => transfer_error channel userid
  end.

(** The transfer service accepts the share. *)
Definition share_accepted : http_outcome :=
  answer 200 (JDict [("code", JNum 200); ("msg", JStr "ok")]).

(** [plugin0] holding a resolved entry for [u1]. *)
Definition plugin_resolved : NullbrSearch.t :=
  with_resource_entry "u1" resolved_at_1000 plugin0.

(** ** Starting and stopping the plugin *)

(** The plugin object once the block [if config:] is over. *)
Definition configured (cfg : NullbrSearch.config_arg)
    (p : NullbrSearch.plugin) : NullbrSearch.plugin :=
  match cfg with
  | NullbrSearch.Config c => NullbrSearch.configure c p
  | NullbrSearch.ConfigNone | NullbrSearch.ConfigEmpty => p
  end.

(** The search client that [init_plugin] leaves: one is built when the
    plugin is switched on and has an app id. *)
Definition client_for (p : NullbrSearch.plugin) : option NullbrApiClient.t :=
  match NullbrSearch._app_id p with
  | Some app_id =>
      if NullbrSearch._enabled (NullbrSearch.core p)
         && NullbrSearch.nonempty app_id
      then Some {| NullbrApiClient._app_id := app_id;
                   NullbrApiClient._api_key :=
                     NullbrSearch._api_key (NullbrSearch.core p) |}
      else None
  | None => None
  end.

(** A transfer client is asked for: the switch is on and the address, the
    user name and the password are not empty. *)
Definition wants_cms (p : NullbrSearch.plugin) : bool :=
  NullbrSearch._cms_enabled (NullbrSearch.core p)
  && NullbrSearch.nonempty (NullbrSearch._cms_url p)
  && NullbrSearch.nonempty (NullbrSearch._cms_username p)
  && NullbrSearch.nonempty (NullbrSearch._cms_password p).

(** The transfer client before its first login, for the settings of the
    plugin. *)
Definition cms_blank_for (p : NullbrSearch.plugin) : CloudSyncMediaClient.t :=
  CloudSyncMediaClient.blank (NullbrSearch._cms_url p)
    (NullbrSearch._cms_username p) (NullbrSearch._cms_password p).

(** The four configured priorities. *)
Definition priorities_of (c : NullbrSearch.config) : list (option string) :=
  [NullbrSearch.priority_1 c; NullbrSearch.priority_2 c;
   NullbrSearch.priority_3 c; NullbrSearch.priority_4 c].

(** A plugin object as [__init__] leaves it. *)
Definition plugin_new : NullbrSearch.plugin :=
  {| NullbrSearch.core :=
       {| NullbrSearch._enabled := false;
          NullbrSearch._api_key := None;
          NullbrSearch._resource_priority := ["115"; "magnet"; "ed2k"; "video"];
          NullbrSearch._enable_115 := true;
          NullbrSearch._enable_magnet := true;
          NullbrSearch._enable_video := true;
          NullbrSearch._enable_ed2k := true;
          NullbrSearch._client := None;
          NullbrSearch._cms_enabled := false;
          NullbrSearch._cms_client := None;
          NullbrSearch._user_search_cache := ∅;
          NullbrSearch._user_resource_cache := ∅ |};
     NullbrSearch._app_id := None;
     NullbrSearch._search_timeout := 30;
     NullbrSearch._cms_url := "";
     NullbrSearch._cms_username := "";
     NullbrSearch._cms_password := "" |}.

(** A configuration with the transfer service, and one that repeats a
    priority. *)
Definition config_full : NullbrSearch.config :=
  {| NullbrSearch.enabled := true;
     NullbrSearch.app_id := Some "app";
     NullbrSearch.api_key := Some "key";
     NullbrSearch.priority_1 := Some "magnet";
     NullbrSearch.priority_2 := Some "115";
     NullbrSearch.priority_3 := Some "video";
     NullbrSearch.priority_4 := Some "ed2k";
     NullbrSearch.enable_115 := true;
     NullbrSearch.enable_magnet := true;
     NullbrSearch.enable_video := true;
     NullbrSearch.enable_ed2k := true;
     NullbrSearch.search_timeout := 30;
     NullbrSearch.cms_enabled := true;
     NullbrSearch.cms_url := "http://cms/";
     NullbrSearch.cms_username := "admin";
     NullbrSearch.cms_password := "secret" |}.

Definition config_repeating : NullbrSearch.config :=
  {| NullbrSearch.enabled := true;
     NullbrSearch.app_id := Some "app";
     NullbrSearch.api_key := Some "key";
     NullbrSearch.priority_1 := Some "magnet";
     NullbrSearch.priority_2 := Some "magnet";
     NullbrSearch.priority_3 := Some "video";
     NullbrSearch.priority_4 := Some "ed2k";
     NullbrSearch.enable_115 := true;
     NullbrSearch.enable_magnet := true;
     NullbrSearch.enable_video := true;
     NullbrSearch.enable_ed2k := true;
     NullbrSearch.search_timeout := 30;
     NullbrSearch.cms_enabled := false;
     NullbrSearch.cms_url := "";
     NullbrSearch.cms_username := "";
     NullbrSearch.cms_password := "" |}.

(** A configuration with the plugin switched off. *)
Definition config_of_plugin_off (c : NullbrSearch.config)
    : NullbrSearch.config :=
  {| NullbrSearch.enabled := false;
     NullbrSearch.app_id := NullbrSearch.app_id c;
     NullbrSearch.api_key := NullbrSearch.api_key c;
     NullbrSearch.priority_1 := NullbrSearch.priority_1 c;
     NullbrSearch.priority_2 := NullbrSearch.priority_2 c;
     NullbrSearch.priority_3 := NullbrSearch.priority_3 c;
     NullbrSearch.priority_4 := NullbrSearch.priority_4 c;
     NullbrSearch.enable_115 := NullbrSearch.enable_115 c;
     NullbrSearch.enable_magnet := NullbrSearch.enable_magnet c;
     NullbrSearch.enable_video := NullbrSearch.enable_video c;
     NullbrSearch.enable_ed2k := NullbrSearch.enable_ed2k c;
     NullbrSearch.search_timeout := NullbrSearch.search_timeout c;
     NullbrSearch.cms_enabled := NullbrSearch.cms_enabled c;
     NullbrSearch.cms_url := NullbrSearch.cms_url c;
     NullbrSearch.cms_username := NullbrSearch.cms_username c;
     NullbrSearch.cms_password := NullbrSearch.cms_password c |}.

(** ** The two files of the search client *)

(** The statuses of the API: 200, or an error status from 400 to 599. *)
Definition plain_statuses (w : world) : Prop :=
  forall n resp,
    net_src w n = Response resp ->
    status_code resp = 200 \/ 400 <= status_code resp < 600.

(** A search result whose hits can be counted: an object whose [items],
    if it has the key, is a list, a string or an object. *)
Definition countable (v : json) : bool :=
  match v with
  | JDict d =>
      match from_option id (JList []) (dict_get d "items") with
      | JList _ | JStr _ | JDict _ => true
      | _ => false
      end
  | _ => false
  end.

(** The API answers a search with an object whose [items] is null. *)
Definition world_null_items : world :=
  world_of 0 [answer 200 (JDict [("items", JNull)])].

(** ** The answers to a login *)

(** What [_login] ends in, by the answer of the network: the [data] of
    an object with the code 200, or the exception. *)
Definition login_result (o : http_outcome) : result json :=
  match o with
  | Response resp =>
      if (400 <=? status_code resp) && (status_code resp <? 600)
      then Raise (HTTPError (status_code resp))
      else
        match body resp with
        | None => Raise JSONDecodeError
        | Some (JDict d) =>
            if is_num (from_option id JNull (dict_get d "code")) 200
            then match dict_get d "data" with
                 | Some v => Ok v
                 | None => Raise ValueError
                 end
            else Raise ValueError
        | Some _ => Raise AttributeError
        end
  | Failure tr => Raise (exn_of_transport tr)
  end.

(** What a refresh of the token does to the client, by what the login
    ended in. *)
Definition refresh_result (login : result json) (now : Z)
    (c : CloudSyncMediaClient.t) : result unit * CloudSyncMediaClient.t :=
  match login with
  | Ok (JDict data) =>
      match dict_get data "token" with
      | Some tok => (Ok tt, CloudSyncMediaClient.refreshed tok now c)
      | None => (Raise KeyError, c)
      end
  | Ok _ => (Raise TypeError, c)
  | Raise e => (Raise e, c)
  end.

(** The service answers the login with the code 500 in an object. *)
Definition login_refused : http_outcome :=
  answer 200 (JDict [("code", JNum 500); ("msg", JStr "bad password")]).

(** ** The search plugin of [nullbr_search] *)

(** An element of what [_get_resources] returns: an object of the type
    115 with a url field. *)
Definition resource_115 (r : json) : Prop :=
  exists d, r = JDict d /\ dict_get d "type" = Some (JStr "115") /\
            is_Some (dict_get d "url").

(** The search plugin, switched on and with its client. *)
Definition search_plugin : nullbr_search.t :=
  {| nullbr_search._client := Some nullbr_keyed;
     nullbr_search._enabled := true;
     nullbr_search._app_id := "app";
     nullbr_search._api_key := "key";
     nullbr_search._search_timeout := 30 |}.

(** ** The requests that a computation makes

    A request here is one call of [session.get] or [session.post], which
    [sent] counts. *)

(** A computation keeps the property [P] of its object and makes no more
    than [n] requests, however it ends. *)
Definition costs {X A} (P : X -> Prop) (n : nat) (m : M X A) : Prop :=
  forall x w,
    P x ->
    P (fst (snd (m (x, w)))) /\
    (sent w <= sent (snd (snd (m (x, w)))) <= sent w + n)%nat.

(** A computation that writes nothing to its object and makes no
    request. *)
Definition quiet {X A} (m : M X A) : Prop :=
  forall x w,
    fst (snd (m (x, w))) = x /\ sent (snd (snd (m (x, w)))) = sent w.

(** The requests that one message may cost: four for a transfer (two
    logins and two posts), two for each type of the priority order. *)
Definition message_budget (self : NullbrSearch.t) : nat :=
  Nat.max 4 (2 * length (NullbrSearch._resource_priority self)).

(** The property that every object has. *)
Definition any {X} : X -> Prop := fun _ => True.

(** ** Whom the replies go to *)

(** A computation adds to the trace only events that satisfy [Q]. *)
Definition emits {X A} (Q : event -> Prop) (m : M X A) : Prop :=
  forall s,
    exists tr,
      trace (snd (snd (m s))) = trace (snd s) ++ tr /\ Forall Q tr.

(** A reply is addressed to the user on the channel; other events are
    not replies. *)
Definition routed (channel userid : string) (ev : event) : Prop :=
  match ev with
  | PostMessage channel' userid' _ _ =>
      channel' = channel /\ userid' = userid
  | _ => True
  end.

(** The replies of a trace. *)
Definition replies (tr : list event) : list (string * string) :=
  omap (fun ev => match ev with
                  | PostMessage channel userid _ _ => Some (channel, userid)
                  | _ => None
                  end) tr.

(** A request to the transfer service: a login or a post. *)
Definition to_transfer_service (ev : event) : bool :=
  match ev with
  | Http (CmsLogin _ _ _) | Http (CmsAddShareDown _ _ _) => true
  | _ => false
  end.

(** The priority order of the plugin is [prio]. *)
Definition has_priority (prio : list string) (self : NullbrSearch.t) : Prop :=
  NullbrSearch._resource_priority self = prio.

(** * Properties *)

(** ** The transfer client *)

Section CloudSyncMediaClientFacts.
Import CloudSyncMediaClient.

Lemma stale_spec (c : t) (now : Z) :
  stale c now = true <->
  truthy (token c) = false \/ token_expiry c - 3600 <= now.
Proof.
  unfold stale. rewrite orb_true_iff, negb_true_iff, Z.leb_le. tauto.
Qed.

Lemma fresh_spec (c : t) (now : Z) :
  stale c now = false <->
  truthy (token c) = true /\ now < token_expiry c - 3600.
Proof.
  unfold stale. rewrite orb_false_iff, negb_false_iff, Z.leb_gt. tauto.
Qed.

(** A login makes one request and writes nothing to the client. *)
Lemma login_effect (c : t) (w : world) :
  snd (_login (c, w)) = (c, send (login_request c) w).
Proof.
  unfold _login, bind, get_self, http, raise_for_status, response_json,
    py_get, py_contains, py_getitem, ret, raise; simpl.
  destruct (net_src w (sent w)) as [resp|tr]; simpl; [|reflexivity].
  destruct ((400 <=? status_code resp) && (status_code resp <? 600)); simpl;
    [reflexivity|].
  destruct (body resp) as [data|]; simpl; [|reflexivity].
  destruct data; simpl; try reflexivity.
  destruct (negb _); simpl; [reflexivity|].
  destruct (negb _); simpl; [reflexivity|].
  destruct (dict_get d "data"); reflexivity.
Qed.

Lemma login_accepts (c : t) (w : world) (tok : json) :
  net_src w (sent w) = login_ok tok ->
  fst (_login (c, w)) = Ok (JDict [("token", tok)]).
Proof.
  intros H.
  unfold _login, bind, get_self, http; simpl. rewrite H. reflexivity.
Qed.

Lemma ensure_valid_token_cases (c c' : t) (w w' : world) (r : result unit) :
  _ensure_valid_token (c, w) = (r, (c', w')) ->
  let now := time_src w (ticks w) in
  (stale c now = false -> r = Ok tt /\ c' = c /\ w' = tick w) /\
  (stale c now = true ->
     w' = send (login_request c) (tick w) /\
     ((exists tok, r = Ok tt /\ c' = refreshed tok now c) \/
      (exists e, r = Raise e /\ c' = c)) /\
     (forall tok, net_src w (sent w) = login_ok tok ->
                  r = Ok tt /\ c' = refreshed tok now c)).
Proof.
  intros Hrun now. unfold _ensure_valid_token, bind, time_time, get_self in Hrun.
  simpl in Hrun. fold now in Hrun.
  destruct (stale c now) eqn:Hst.
  - split; [discriminate|]. intros _.
    pose proof (login_effect c (tick w)) as Heff.
    destruct (_login (c, tick w)) as [[ld|e] [c1 w1]] eqn:Hl; simpl in Heff.
    + injection Heff as -> ->.
      split; [| split].
      * unfold py_getitem, modify_self, raise in Hrun.
        destruct ld; simpl in Hrun; try (injection Hrun as _ _ <-; reflexivity).
        destruct (dict_get d "token"); simpl in Hrun;
          injection Hrun as _ _ <-; reflexivity.
      * unfold py_getitem, modify_self, raise, ret in Hrun.
        destruct ld; simpl in Hrun;
          try (right; eexists; injection Hrun as <- <- _; split; reflexivity).
        destruct (dict_get d "token") as [tok|]; simpl in Hrun.
        -- left. exists tok. injection Hrun as <- <- _. split; reflexivity.
        -- right. eexists. injection Hrun as <- <- _. split; reflexivity.
      * intros tok Hnet.
        pose proof (login_accepts c (tick w) tok Hnet) as Hok. rewrite Hl in Hok.
        simpl in Hok. injection Hok as ->. simpl in Hrun.
        unfold modify_self in Hrun. simpl in Hrun.
        injection Hrun as <- <- _. split; reflexivity.
    + injection Heff as -> ->. injection Hrun as <- <- <-.
      split; [reflexivity|]. split.
      * right. eexists. split; reflexivity.
      * intros tok Hnet.
        pose proof (login_accepts c (tick w) tok Hnet) as Hok. rewrite Hl in Hok.
        discriminate.
  - split; [|discriminate]. intros _. unfold ret in Hrun.
    injection Hrun as <- <- <-. repeat split.
Qed.

Lemma ensure_valid_token_fresh (c : t) (w : world) :
  stale c (time_src w (ticks w)) = false ->
  _ensure_valid_token (c, w) = (Ok tt, (c, tick w)).
Proof.
  intros Hst.
  destruct (_ensure_valid_token (c, w)) as [r [c' w']] eqn:Hrun.
  destruct (ensure_valid_token_cases _ _ _ _ _ Hrun) as [Hfresh _].
  destruct (Hfresh Hst) as (-> & -> & ->). reflexivity.
Qed.

(** C6: [_ensure_valid_token] reads the clock once.  When a token is held
    and the clock is more than 3600 s before its expiry, nothing else
    happens: no request, the client unchanged.  When no token is held or
    the clock has reached [token_expiry - 3600], one login request is made;
    if it is accepted the token, its expiry (the clock reading plus 86400)
    and the authorization header are replaced together, and if it fails
    the client keeps what it had.  A second call that finds the token
    fresh changes nothing, and after a refresh the token is fresh for the
    next 82800 s if it is not empty. *)
Theorem ensure_valid_token_refresh (c c' : t) (w w' : world) (r : result unit) :
  _ensure_valid_token (c, w) = (r, (c', w')) ->
  let now := time_src w (ticks w) in
  (truthy (token c) = true /\ now < token_expiry c - 3600 ->
     r = Ok tt /\ c' = c /\ w' = tick w) /\
  (truthy (token c) = false \/ token_expiry c - 3600 <= now ->
     w' = send (login_request c) (tick w) /\
     ((exists tok, r = Ok tt /\ c' = refreshed tok now c /\
                   token c' = tok /\ token_expiry c' = now + 86400 /\
                   authorization c' = Some tok) \/
      (exists e, r = Raise e /\ c' = c)) /\
     (forall tok, net_src w (sent w) = login_ok tok ->
                  r = Ok tt /\ c' = refreshed tok now c)) /\
  (let again := time_src w' (ticks w') in
   truthy (token c') = true /\ again < token_expiry c' - 3600 ->
   _ensure_valid_token (c', w') = (Ok tt, (c', tick w'))) /\
  (forall tok again,
     stale (refreshed tok now c) again = false <->
     truthy tok = true /\ again < now + 82800).
Proof.
  intros Hrun now.
  destruct (ensure_valid_token_cases _ _ _ _ _ Hrun) as [Hfresh Hstale].
  fold now in Hfresh, Hstale.
  split; [| split; [| split]].
  - intros H. apply Hfresh, fresh_spec, H.
  - intros H. apply stale_spec in H.
    destruct (Hstale H) as (Hw & Hcases & Hok).
    split; [exact Hw|]. split; [|exact Hok].
    destruct Hcases as [(tok & Hr & Hc)|Hfail]; [left|right; exact Hfail].
    exists tok. subst c'. repeat split; assumption.
  - intros again H. apply ensure_valid_token_fresh, fresh_spec, H.
  - intros tok again. rewrite fresh_spec. simpl. split; intros [? ?]; split;
      (assumption || lia).
Qed.

Lemma ensure_valid_token_refresh_witness :
  let w := world_of 96400 [login_ok (JStr "t1")] in
  _ensure_valid_token (cms_holding, w) =
    (Ok tt, (refreshed (JStr "t1") 96400 cms_holding,
             send (login_request cms_holding) (tick w))) /\
  _ensure_valid_token
    (refreshed (JStr "t1") 96400 cms_holding,
     send (login_request cms_holding) (tick w)) =
    (Ok tt, (refreshed (JStr "t1") 96400 cms_holding,
             tick (send (login_request cms_holding) (tick w)))).
Proof.
  intros w.
  assert (Hrun : _ensure_valid_token (cms_holding, w) =
                 (Ok tt, (refreshed (JStr "t1") 96400 cms_holding,
                          send (login_request cms_holding) (tick w))))
    by reflexivity.
  split; [exact Hrun|].
  destruct (ensure_valid_token_refresh _ _ _ _ _ Hrun) as (_ & _ & Hagain & _).
  apply Hagain. simpl. split; [reflexivity | lia].
Defined.

(** A post makes one request and writes nothing to the client. *)
Lemma post_share_effect (url : json) (c : t) (w : world) :
  snd (post_share url (c, w)) = (c, send (share_request c url) w).
Proof.
  unfold post_share, bind, get_self, http, raise_for_status, response_json,
    ret, raise; simpl.
  destruct (net_src w (sent w)) as [resp|tr]; simpl; [|reflexivity].
  destruct ((400 <=? status_code resp) && (status_code resp <? 600)); simpl;
    [reflexivity|].
  destruct (body resp); reflexivity.
Qed.

(** What a post ends in, read off the answer of the network. *)
Lemma post_share_result (url : json) (c : t) (w : world) :
  fst (post_share url (c, w)) =
    match net_src w (sent w) with
    | Response resp =>
        if (400 <=? status_code resp) && (status_code resp <? 600)
        then Raise (HTTPError (status_code resp))
        else match body resp with
             | Some v => Ok v
             | None => Raise JSONDecodeError
             end
    | Failure tr => Raise (exn_of_transport tr)
    end.
Proof.
  unfold post_share, bind, get_self, http, raise_for_status, response_json,
    ret, raise; simpl.
  destruct (net_src w (sent w)) as [resp|tr]; simpl; [|reflexivity].
  destruct ((400 <=? status_code resp) && (status_code resp <? 600)); simpl;
    [reflexivity|].
  destruct (body resp); reflexivity.
Qed.

Lemma post_share_401 (url : json) (c : t) (w : world) (resp : response) :
  net_src w (sent w) = Response resp -> status_code resp = 401 ->
  post_share url (c, w) =
    (Raise (HTTPError 401), (c, send (share_request c url) w)).
Proof.
  intros Hnet Hst.
  rewrite (surjective_pairing (post_share url (c, w))).
  rewrite post_share_effect, post_share_result, Hnet, Hst. reflexivity.
Qed.

Lemma stale_no_token (c : t) (now : Z) : stale (set_token JNull c) now = true.
Proof. reflexivity. Qed.

(** When the first post is not answered by 401, it is the only one. *)
Lemma add_share_down_no_retry (url : json) (c c1 : t) (w w1 : world) :
  truthy url = true ->
  _ensure_valid_token (c, w) = (Ok tt, (c1, w1)) ->
  (forall resp, net_src w1 (sent w1) = Response resp ->
                status_code resp <> 401) ->
  add_share_down url (c, w) = post_share url (c1, w1).
Proof.
  intros Hurl Hens Hnet.
  unfold add_share_down. rewrite Hurl. simpl.
  unfold try_except. unfold bind at 1. rewrite Hens.
  pose proof (post_share_result url c1 w1) as Hres.
  destruct (post_share url (c1, w1)) as [[v|e] s] eqn:Hpost; [reflexivity|].
  simpl in Hres.
  destruct e as [st| | | | | | | | | |]; try reflexivity.
  destruct (Z.eqb_spec st 401) as [->|Hne]; [|reflexivity].
  exfalso.
  destruct (net_src w1 (sent w1)) as [resp|tr].
  - specialize (Hnet resp eq_refl).
    destruct ((400 <=? status_code resp) && (status_code resp <? 600)).
    + injection Hres as Hres. congruence.
    + destruct (body resp); discriminate.
  - destruct tr; discriminate.
Qed.

Lemma share_posts_snoc (tr : list event) (ev : event) :
  share_posts (tr ++ [ev]) =
    (share_posts tr + (if is_share_post ev then 1 else 0))%nat.
Proof.
  unfold share_posts. rewrite filter_app, length_app. f_equal.
  rewrite filter_cons. destruct (is_share_post ev) eqn:Hev.
  - rewrite decide_True by reflexivity. reflexivity.
  - rewrite decide_False by discriminate. reflexivity.
Qed.

(** Ensuring the token posts nothing. *)
Lemma ensure_valid_token_posts (c : t) (w : world) :
  share_posts (trace (snd (snd (_ensure_valid_token (c, w))))) =
    share_posts (trace w).
Proof.
  destruct (_ensure_valid_token (c, w)) as [r [c' w']] eqn:Hrun.
  destruct (ensure_valid_token_cases _ _ _ _ _ Hrun) as [Hfresh Hstale].
  simpl. destruct (stale c (time_src w (ticks w))).
  - destruct (Hstale eq_refl) as (-> & _). simpl.
    rewrite share_posts_snoc. simpl. lia.
  - destruct (Hfresh eq_refl) as (_ & _ & ->). reflexivity.
Qed.

(** One attempt, the token ensured and the URL posted, posts once at
    most. *)
Lemma attempt_posts (url : json) (c : t) (w : world) :
  (share_posts
     (trace (snd (snd ((_ensure_valid_token ;; post_share url) (c, w))))) <=
   share_posts (trace w) + 1)%nat.
Proof.
  unfold bind. pose proof (ensure_valid_token_posts c w) as Hens.
  destruct (_ensure_valid_token (c, w)) as [[[]|e] [c1 w1]]; simpl in *;
    [|lia].
  rewrite post_share_effect. simpl. rewrite share_posts_snoc. simpl. lia.
Qed.

(** The one recovery of [add_share_down]: an attempt that ends in 401 is
    followed by a second attempt without the token. *)
Lemma add_share_down_run (url : json) (c : t) (w : world) :
  truthy url = true ->
  add_share_down url (c, w) =
    let first := (_ensure_valid_token ;; post_share url) (c, w) in
    if is_401 (fst first)
    then (_ensure_valid_token ;; post_share url)
           (set_token JNull (fst (snd first)), snd (snd first))
    else first.
Proof.
  intros Hurl. unfold add_share_down. rewrite Hurl. simpl.
  unfold try_except.
  destruct ((_ensure_valid_token ;; post_share url) (c, w))
    as [[v|e] [c1 w1]]; [reflexivity|].
  destruct e as [st| | | | | | | | | |]; try reflexivity.
  simpl. destruct (st =? 401); reflexivity.
Qed.

(** C3, as amended: with a nonempty URL, [add_share_down] first ensures
    the token and then posts the URL.  If this attempt ends in HTTP 401,
    whether the post or the login of the token step was answered so, the
    token is discarded, a token is ensured again (by a login, which the
    missing token forces) and the URL is posted once more, outside any
    handler: there is one recovery in a call, and never a third post.
    When the token step succeeded and the post is answered 401, the post
    is made again exactly once and carries the token of the new login; a
    401 to it is raised.  When it was the login that was answered 401, the
    recovery is spent on it, and a 401 to the one post of the call is
    raised without a retry. *)
Theorem add_share_down_retry_once (url : json) (c : t) (w : world) :
  truthy url = true ->
  let attempt := (_ensure_valid_token ;; post_share url)%py in
  let first := attempt (c, w) in
  let out := add_share_down url (c, w) in
  out = (if is_401 (fst first)
         then attempt (set_token JNull (fst (snd first)), snd (snd first))
         else first) /\
  (share_posts (trace (snd (snd out))) <= share_posts (trace w) + 2)%nat /\
  (forall c1 w1 resp1,
     _ensure_valid_token (c, w) = (Ok tt, (c1, w1)) ->
     net_src w1 (sent w1) = Response resp1 -> status_code resp1 = 401 ->
     (forall tok,
        net_src w1 (S (sent w1)) = login_ok tok ->
        fst out = share_result (net_src w1 (S (S (sent w1)))) /\
        token (fst (snd out)) = tok /\
        authorization (fst (snd out)) = Some tok /\
        token_expiry (fst (snd out)) = time_src w1 (ticks w1) + 86400 /\
        trace (snd (snd out)) =
          trace w1 ++
          [Http (CmsAddShareDown (base_url c1) (authorization c1) url);
           Http (CmsLogin (base_url c1) (username c1) (password c1));
           Http (CmsAddShareDown (base_url c1) (Some tok) url)] /\
        sent (snd (snd out)) = (3 + sent w1)%nat /\
        (forall resp2,
           net_src w1 (S (S (sent w1))) = Response resp2 ->
           status_code resp2 = 401 ->
           fst out = Raise (HTTPError 401))) /\
     (forall e,
        fst (_ensure_valid_token
               (set_token JNull c1, send (share_request c1 url) w1)) =
          Raise e ->
        fst out = Raise e /\
        trace (snd (snd out)) =
          trace w1 ++
          [Http (CmsAddShareDown (base_url c1) (authorization c1) url);
           Http (CmsLogin (base_url c1) (username c1) (password c1))])) /\
  (forall c1 w1,
     _ensure_valid_token (c, w) = (Raise (HTTPError 401), (c1, w1)) ->
     out = attempt (set_token JNull c1, w1) /\
     forall c3 w3 resp,
       _ensure_valid_token (set_token JNull c1, w1) = (Ok tt, (c3, w3)) ->
       net_src w3 (sent w3) = Response resp -> status_code resp = 401 ->
       fst out = Raise (HTTPError 401) /\
       share_posts (trace (snd (snd out))) = S (share_posts (trace w))).
Proof.
  intros Hurl attempt first out.
  assert (Hrun : out = (if is_401 (fst first)
                        then attempt (set_token JNull (fst (snd first)),
                                      snd (snd first))
                        else first))
    by (apply add_share_down_run; exact Hurl).
  split; [exact Hrun|]. split; [|split].
  - rewrite Hrun. pose proof (attempt_posts url c w) as Hfirst.
    fold attempt first in Hfirst.
    destruct (is_401 (fst first)); [|lia].
    pose proof (attempt_posts url (set_token JNull (fst (snd first)))
                  (snd (snd first))) as Hsecond.
    fold attempt in Hsecond. lia.
  - intros c1 w1 resp1 Hens Hnet Hst.
    assert (Hfirst : first = (Raise (HTTPError 401),
                              (c1, send (share_request c1 url) w1))).
    { unfold first, attempt, bind. rewrite Hens.
      apply (post_share_401 url c1 w1 resp1 Hnet Hst). }
    rewrite Hfirst in Hrun. simpl in Hrun.
    set (c2 := set_token JNull c1) in *.
    set (w2 := send (share_request c1 url) w1) in *.
    destruct (_ensure_valid_token (c2, w2)) as [r [c3 w3]] eqn:Hens2.
    destruct (ensure_valid_token_cases _ _ _ _ _ Hens2) as [_ Hstale].
    destruct (Hstale (stale_no_token c1 _)) as (Hw3 & Hcases & Hok).
    split.
    + intros tok Hlogin. destruct (Hok tok Hlogin) as [-> ->].
      rewrite Hrun. unfold attempt, bind. rewrite Hens2.
      rewrite (surjective_pairing (post_share url _)).
      rewrite post_share_effect, post_share_result. subst w3. simpl.
      repeat split; try reflexivity.
      * rewrite <- !app_assoc. reflexivity.
      * intros resp2 Hnet2 Hst2. rewrite Hnet2, Hst2. reflexivity.
    + intros e He. simpl in He. subst r.
      rewrite Hrun. unfold attempt, bind. rewrite Hens2. subst w3. simpl.
      split; [reflexivity|]. rewrite <- !app_assoc. reflexivity.
  - intros c1 w1 Hens.
    assert (Hfirst : first = (Raise (HTTPError 401), (c1, w1))).
    { unfold first, attempt, bind. rewrite Hens. reflexivity. }
    rewrite Hfirst in Hrun. simpl in Hrun.
    split; [exact Hrun|].
    intros c3 w3 resp Hens2 Hnet Hst.
    rewrite Hrun. unfold attempt, bind. rewrite Hens2.
    rewrite (post_share_401 url c3 w3 resp Hnet Hst). simpl.
    split; [reflexivity|].
    rewrite share_posts_snoc. simpl.
    pose proof (ensure_valid_token_posts (set_token JNull c1) w1) as H2.
    rewrite Hens2 in H2. simpl in H2.
    pose proof (ensure_valid_token_posts c w) as H1.
    rewrite Hens in H1. simpl in H1. lia.
Qed.

(** The token t0 is refused, the login gives t1, and the second post, which
    carries t1, is refused as well. *)
Lemma add_share_down_retry_once_witness :
  let out := add_share_down share_url (cms_holding, world_refusing) in
  fst out = Raise (HTTPError 401) /\
  token (fst (snd out)) = JStr "t1" /\
  authorization (fst (snd out)) = Some (JStr "t1") /\
  trace (snd (snd out)) =
    [Http (CmsAddShareDown "http://cms" (Some (JStr "t0")) share_url);
     Http (CmsLogin "http://cms" "admin" "secret");
     Http (CmsAddShareDown "http://cms" (Some (JStr "t1")) share_url)] /\
  share_posts (trace (snd (snd out))) = 2%nat.
Proof.
  intros out.
  destruct (add_share_down_retry_once share_url cms_holding world_refusing
              eq_refl) as (_ & _ & Hpost & _).
  destruct (Hpost cms_holding (tick world_refusing)
              {| status_code := 401; body := None |} eq_refl eq_refl eq_refl)
    as [Haccepted _].
  destruct (Haccepted (JStr "t1") eq_refl)
    as (_ & Htoken & Hauth & _ & Htrace & _ & Hsecond).
  split; [exact (Hsecond {| status_code := 401; body := None |} eq_refl
                   eq_refl)|].
  split; [exact Htoken|]. split; [exact Hauth|].
  split; [exact Htrace|].
  unfold out. rewrite Htrace. reflexivity.
Defined.

(** C3 as stated fails: the client holds no token, its login is answered
    401, the recovery logs in again and posts, and this post, the first of
    the call, is answered 401: it is not made again. *)
Lemma login_401_spends_the_retry :
  let out := add_share_down share_url (cms_blank, world_login_refused) in
  net_src world_login_refused 2 = unauthorized /\
  trace (snd (snd out)) =
    [Http (CmsLogin "http://cms" "admin" "secret");
     Http (CmsLogin "http://cms" "admin" "secret");
     Http (CmsAddShareDown "http://cms" (Some (JStr "t1")) share_url)] /\
  share_posts (trace (snd (snd out))) = 1%nat /\
  fst out = Raise (HTTPError 401).
Proof. vm_compute. repeat split. Qed.

(** C9: with an empty URL ([not url]), [add_share_down] raises
    [ValueError] at once: the clock is not read, no request is made, and
    the client is as it was. *)
Theorem add_share_down_empty_url (url : json) (c : t) (w : world) :
  truthy url = false ->
  add_share_down url (c, w) = (Raise ValueError, (c, w)).
Proof. intros H. unfold add_share_down. rewrite H. reflexivity. Qed.

Lemma add_share_down_empty_url_witness :
  add_share_down (JStr "") (cms_blank, world_refusing) =
    (Raise ValueError, (cms_blank, world_refusing)).
Proof. apply add_share_down_empty_url. reflexivity. Defined.

End CloudSyncMediaClientFacts.

(** ** The Nullbr client *)

Section NullbrApiClientFacts.
Import NullbrApiClient.

Lemma proxy_failure_transport (tr : transport_error) :
  proxy_failure (exn_of_transport tr) = path_failure (Failure tr).
Proof. destruct tr; reflexivity. Qed.

(** The two attempts, by the answers of the network. *)
Lemma request_with_fallback_run (ep : endpoint) (key : option string)
    (c : t) (w : world) :
  request_with_fallback ep key (c, w) =
    match net_src w (sent w) with
    | Response resp =>
        (Ok (Some resp), (c, send (NullbrGet ep key true Timeout5) w))
    | Failure tr =>
        if path_failure (Failure tr) then
          let w1 := send (NullbrGet ep key true Timeout5) w in
          let w2 := send (NullbrGet ep key false Timeout10_30) w1 in
          match net_src w (S (sent w)) with
          | Response resp => (Ok (Some resp), (c, w2))
          | Failure _ => (Ok None, (c, w2))
          end
        else (Raise (exn_of_transport tr),
              (c, send (NullbrGet ep key true Timeout5) w))
    end.
Proof.
  unfold request_with_fallback, try_except, _make_request, bind, http, ret,
    raise; simpl.
  destruct (net_src w (sent w)) as [resp|tr]; simpl; [reflexivity|].
  destruct tr; simpl; try reflexivity;
    destruct (net_src w (S (sent w))); reflexivity.
Qed.

Lemma request_with_fallback_trace (ep : endpoint) (key : option string)
    (c : t) (w : world) :
  trace (snd (snd (request_with_fallback ep key (c, w)))) =
    trace w ++ two_path_requests ep key (net_src w (sent w)).
Proof.
  rewrite request_with_fallback_run. unfold two_path_requests, proxied, direct.
  destruct (net_src w (sent w)) as [resp|tr]; simpl; [reflexivity|].
  destruct tr; simpl; try reflexivity;
    destruct (net_src w (S (sent w))); simpl; rewrite <- app_assoc; reflexivity.
Qed.

Lemma request_with_fallback_self (ep : endpoint) (key : option string)
    (c : t) (w : world) :
  fst (snd (request_with_fallback ep key (c, w))) = c.
Proof.
  rewrite request_with_fallback_run.
  destruct (net_src w (sent w)) as [resp|tr]; simpl; [reflexivity|].
  destruct tr; simpl; try reflexivity;
    destruct (net_src w (S (sent w))); reflexivity.
Qed.

(** The shape shared by the three operations: the two attempts, then a
    reading [k] of the response that writes nothing, all inside a handler
    that turns any exception into [None]. *)
Lemma guarded_request (ep : endpoint) (key : option string)
    (k : option response -> M t json) (c : t) (w : world) :
  (forall o s, snd (k o s) = s) ->
  (forall s, k None s = (Ok JNull, s)) ->
  exists v,
    try_except (o <- request_with_fallback ep key ;; k o)
      (fun e => ret JNull) (c, w) =
      (Ok v, (c, snd (snd (request_with_fallback ep key (c, w))))) /\
    (fst (request_with_fallback ep key (c, w)) = Ok None -> v = JNull).
Proof.
  intros Hk Hnone.
  pose proof (request_with_fallback_self ep key c w) as Hself.
  unfold try_except, bind.
  destruct (request_with_fallback ep key (c, w)) as [[o|e] [c' w']];
    simpl in Hself; subst c'; simpl.
  - pose proof (Hk o (c, w')) as Hs.
    destruct (k o (c, w')) as [[v|e] s] eqn:Hko; simpl in Hs; subst s.
    + exists v. split; [reflexivity|]. intros [= ->].
      rewrite Hnone in Hko. congruence.
    + exists JNull. split; [reflexivity|]. reflexivity.
  - exists JNull. split; [reflexivity|]. discriminate.
Qed.

(** An operation of the client, by the answers of the network: the call
    is recorded, then the two attempts are made, and every ending is a
    returned value. *)
Lemma run_operation_run (op : operation) (c : t) (w : world) :
  operation_allowed c op = true ->
  exists v,
    run_operation op (c, w) =
      (Ok v,
       (c, snd (snd (request_with_fallback (operation_endpoint op)
                       (operation_key c op)
                       (c, emit (Called (operation_call op)) w))))) /\
    (fst (request_with_fallback (operation_endpoint op) (operation_key c op)
            (c, emit (Called (operation_call op)) w)) = Ok None ->
     v = JNull).
Proof.
  intros Hallowed.
  destruct op as [query page|tmdbid rt|tmdbid rt]; simpl in Hallowed;
    unfold run_operation, search, get_movie_resources, get_tv_resources,
      operation_key, operation_endpoint, operation_call;
    unfold bind at 1; unfold log_event; simpl.
  - unfold try_except at 1. unfold bind at 1. unfold get_self. simpl.
    apply (guarded_request _ _
             (fun o => match o with
                       | Some response =>
                           if status_code response =? 200
                           then response_json response
                           else if status_code response =? 403 then ret JNull
                           else ret JNull
                       | None => ret JNull
                       end)).
    + intros [resp|] s; [|reflexivity].
      unfold response_json, ret, raise.
      destruct (status_code resp =? 200); [destruct (body resp)|];
        try reflexivity.
      destruct (status_code resp =? 403); reflexivity.
    + reflexivity.
  - unfold bind at 1. unfold get_self. simpl. rewrite Hallowed. simpl.
    apply (guarded_request _ _
             (fun o => match o with
                       | Some response =>
                           if status_code response =? 200
                           then response_json response
                           else if status_code response =? 401 then ret JNull
                           else if status_code response =? 403 then ret JNull
                           else if status_code response =? 429 then ret JNull
                           else ret JNull
                       | None => ret JNull
                       end)).
    + intros [resp|] s; [|reflexivity].
      unfold response_json, ret, raise.
      destruct (status_code resp =? 200); [destruct (body resp)|];
        try reflexivity.
      destruct (status_code resp =? 401); [reflexivity|].
      destruct (status_code resp =? 403); [reflexivity|].
      destruct (status_code resp =? 429); reflexivity.
    + reflexivity.
  - unfold bind at 1. unfold get_self. simpl. rewrite Hallowed. simpl.
    apply (guarded_request _ _
             (fun o => match o with
                       | Some response =>
                           if status_code response =? 200
                           then response_json response
                           else if status_code response =? 401 then ret JNull
                           else if status_code response =? 403 then ret JNull
                           else if status_code response =? 429 then ret JNull
                           else ret JNull
                       | None => ret JNull
                       end)).
    + intros [resp|] s; [|reflexivity].
      unfold response_json, ret, raise.
      destruct (status_code resp =? 200); [destruct (body resp)|];
        try reflexivity.
      destruct (status_code resp =? 401); [reflexivity|].
      destruct (status_code resp =? 403); [reflexivity|].
      destruct (status_code resp =? 429); reflexivity.
    + reflexivity.
Qed.

Lemma request_with_fallback_sent (ep : endpoint) (key : option string)
    (c : t) (w : world) :
  sent (snd (snd (request_with_fallback ep key (c, w)))) =
    (sent w + length (two_path_requests ep key (net_src w (sent w))))%nat.
Proof.
  rewrite request_with_fallback_run. unfold two_path_requests.
  destruct (net_src w (sent w)) as [resp|tr]; simpl; [lia|].
  destruct tr; simpl; try lia; destruct (net_src w (S (sent w))); simpl; lia.
Qed.

Lemma request_with_fallback_exhausted (ep : endpoint) (key : option string)
    (c : t) (w : world) (tr : transport_error) :
  path_failure (net_src w (sent w)) = true ->
  net_src w (S (sent w)) = Failure tr ->
  fst (request_with_fallback ep key (c, w)) = Ok None.
Proof.
  intros Hfirst Hsecond. rewrite request_with_fallback_run.
  destruct (net_src w (sent w)) as [resp|tr1]; [discriminate|].
  rewrite Hfirst, Hsecond. reflexivity.
Qed.

(** C8: every operation of the client that reaches the network (a search;
    a resource lookup when the API key is set) makes its first request
    through the proxy with the 5 s timeout.  It makes a second request,
    direct and with the 10 s / 30 s timeouts, exactly when the first ended
    in a timeout or a connection failure, and never a third.  If the
    direct request fails too, the operation returns [None].  A response
    on the first request, whatever its status, is the only request. *)
Theorem two_path_transport (op : operation) (c : t) (w : world) :
  operation_allowed c op = true ->
  let first := net_src w (sent w) in
  let second := net_src w (S (sent w)) in
  let ep := operation_endpoint op in
  let key := operation_key c op in
  let out := run_operation op (c, w) in
  trace (snd (snd out)) =
    trace w ++ Called (operation_call op) :: two_path_requests ep key first /\
  sent (snd (snd out)) =
    (sent w + length (two_path_requests ep key first))%nat /\
  (exists v, fst out = Ok v) /\
  (path_failure first = true -> (exists tr, second = Failure tr) ->
   fst out = Ok JNull) /\
  (forall resp, first = Response resp ->
                two_path_requests ep key first = [proxied ep key]) /\
  (path_failure first = true ->
   two_path_requests ep key first = [proxied ep key; direct ep key]).
Proof.
  intros Hallowed first second ep key out.
  destruct (run_operation_run op c w Hallowed) as (v & Hrun & Hnone).
  fold ep key in Hrun, Hnone. subst out. rewrite Hrun. simpl.
  split; [| split; [| split; [| split; [| split]]]].
  - rewrite request_with_fallback_trace. simpl.
    rewrite <- app_assoc. reflexivity.
  - rewrite request_with_fallback_sent. reflexivity.
  - exists v. reflexivity.
  - intros Hfirst [tr Hsecond]. f_equal. apply Hnone.
    apply (request_with_fallback_exhausted _ _ _ _ tr); assumption.
  - intros resp Hresp. unfold two_path_requests. fold first. rewrite Hresp.
    reflexivity.
  - intros Hfirst. unfold two_path_requests. fold first. rewrite Hfirst.
    reflexivity.
Qed.

Lemma two_path_transport_witness :
  trace (snd (snd (run_operation movie_603 (nullbr_keyed, world_unreachable)))) =
    [Called (CallMovie (JNum 603) "115");
     Http (NullbrGet (UrlMovie (JNum 603) "115") (Some "key") true Timeout5);
     Http (NullbrGet (UrlMovie (JNum 603) "115") (Some "key") false
             Timeout10_30)] /\
  fst (run_operation movie_603 (nullbr_keyed, world_unreachable)) = Ok JNull.
Proof.
  destruct (two_path_transport movie_603 nullbr_keyed world_unreachable eq_refl)
    as (Htrace & _ & _ & Hfail & _).
  split; [exact Htrace|].
  apply Hfail; [reflexivity|]. exists TConnectionError. reflexivity.
Defined.

End NullbrApiClientFacts.

(** ** Resource lookups and the status of the response *)

Section ResourceLookupFacts.

(** In [nullbrsearch/__init__.py] every status but 200 ends in
    [return None], on whichever path the response came. *)
Lemma lookup_not_200 (k : media_kind) (tmdbid : json) (rt : string)
    (c : NullbrApiClient.t) (w : world) (resp : response) :
  key_set (NullbrApiClient._api_key c) = true ->
  received w = Some resp ->
  status_code resp <> 200 ->
  lookup k tmdbid rt (c, w) = (Ok JNull, after_requests k tmdbid rt c w).
Proof.
  intros Hkey Hrecv Hstatus.
  apply Z.eqb_neq in Hstatus. unfold received in Hrecv.
  destruct k;
    unfold lookup, lookup_op, after_requests, run_operation,
      NullbrApiClient.get_movie_resources, NullbrApiClient.get_tv_resources;
    unfold bind at 1; unfold log_event; simpl;
    unfold bind at 1; unfold get_self; simpl; rewrite Hkey; simpl;
    unfold try_except, bind;
    rewrite request_with_fallback_run; simpl;
    (destruct (net_src w (sent w)) as [first|tr]; simpl in *;
     [injection Hrecv as ->
     |destruct tr; simpl in *; try discriminate Hrecv;
      (destruct (net_src w (S (sent w))) as [second|tr2];
       [injection Hrecv as ->|discriminate Hrecv])]);
    simpl; rewrite Hstatus;
    repeat match goal with
           | |- context [if ?b then _ else _] => destruct b
           end; reflexivity.
Qed.

(** In [nullbr_client.py] every status that [raise_for_status] rejects
    ends in [return None], on whichever path the response came. *)
Lemma lookup_file_rejected (k : media_kind) (tmdbid : json) (rt : string)
    (c : NullbrApiClient.t) (w : world) (resp : response) :
  key_set (NullbrApiClient._api_key c) = true ->
  received w = Some resp ->
  400 <= status_code resp < 600 ->
  lookup_file k tmdbid rt (c, w) = (Ok JNull, after_requests k tmdbid rt c w).
Proof.
  intros Hkey Hrecv [Hlo Hhi].
  apply Z.leb_le in Hlo. apply Z.ltb_lt in Hhi. unfold received in Hrecv.
  destruct k;
    unfold lookup_file, nullbr_client.get_movie_resources,
      nullbr_client.get_tv_resources, after_requests;
    unfold bind at 1; unfold log_event; simpl;
    unfold bind at 1; unfold get_self; simpl; rewrite Hkey; simpl;
    unfold try_except, bind, nullbr_client.request_with_fallback,
      nullbr_client._make_request, NullbrApiClient._make_request, try_except,
      http, raise_for_status;
    simpl;
    (destruct (net_src w (sent w)) as [first|tr]; simpl in *;
     [injection Hrecv as ->
     |destruct tr; simpl in *; try discriminate Hrecv;
      (destruct (net_src w (S (sent w))) as [second|tr2];
       [injection Hrecv as ->|discriminate Hrecv])]);
    simpl; rewrite Hlo, Hhi; simpl;
    destruct (status_code resp =? 404); reflexivity.
Qed.

(** C5, as amended: a lookup that reads a response with the status 404,
    be it the answer to the proxied request or, after that one timed out
    or could not connect, the answer to the direct request, returns
    [None], and so does one that reads 401, 403, 429 or any other status
    that is not 200 (in [nullbr_client.py]: any status from 400 to 599);
    the returned value, the client and the trace are the same for all of
    them. *)
Theorem lookup_error_statuses_alike (k : media_kind) (tmdbid : json)
    (rt : string) (c : NullbrApiClient.t) (w : world) (resp : response) :
  key_set (NullbrApiClient._api_key c) = true ->
  received w = Some resp ->
  (status_code resp <> 200 ->
   lookup k tmdbid rt (c, w) = (Ok JNull, after_requests k tmdbid rt c w)) /\
  (400 <= status_code resp < 600 ->
   lookup_file k tmdbid rt (c, w) =
     (Ok JNull, after_requests k tmdbid rt c w)).
Proof.
  intros Hkey Hrecv. split.
  - intros Hstatus. apply (lookup_not_200 k tmdbid rt c w resp); assumption.
  - intros Hstatus. apply (lookup_file_rejected k tmdbid rt c w resp);
      assumption.
Qed.

(** A 404 to the proxied request, and a 429 to the direct request after
    the proxied one timed out. *)
Lemma lookup_error_statuses_alike_witness :
  lookup Movie (JNum 603) "115" (nullbr_keyed, world_answering 404) =
    (Ok JNull,
     after_requests Movie (JNum 603) "115" nullbr_keyed
       (world_answering 404)) /\
  lookup_file Tv (JNum 1399) "magnet"
    (nullbr_keyed, world_answering_directly 429) =
    (Ok JNull,
     after_requests Tv (JNum 1399) "magnet" nullbr_keyed
       (world_answering_directly 429)) /\
  trace (snd (after_requests Tv (JNum 1399) "magnet" nullbr_keyed
                (world_answering_directly 429))) =
    [Called (CallTv (JNum 1399) "magnet");
     Http (NullbrGet (UrlTv (JNum 1399) "magnet") (Some "key") true Timeout5);
     Http (NullbrGet (UrlTv (JNum 1399) "magnet") (Some "key") false
             Timeout10_30)].
Proof.
  split; [|split; [|reflexivity]].
  - apply (lookup_error_statuses_alike Movie (JNum 603) "115" nullbr_keyed
             (world_answering 404) {| status_code := 404; body := Some (JDict []) |}
             eq_refl eq_refl).
    simpl. lia.
  - apply (lookup_error_statuses_alike Tv (JNum 1399) "magnet" nullbr_keyed
             (world_answering_directly 429)
             {| status_code := 429; body := Some (JDict []) |}
             eq_refl eq_refl).
    simpl. lia.
Defined.

(** C5 as stated fails: answered with 404, the lookup returns what it
    returns when answered with 401, 403, 429 or 500, and leaves the same
    trace; nothing in the outcome tells 404 apart. *)
Lemma not_found_like_other_errors :
  lookup_outcome 404 = lookup_outcome 401 /\
  lookup_outcome 404 = lookup_outcome 403 /\
  lookup_outcome 404 = lookup_outcome 429 /\
  lookup_outcome 404 = lookup_outcome 500 /\
  fst (lookup_outcome 404) = Ok JNull /\
  lookup_outcome_file 404 = lookup_outcome_file 401 /\
  lookup_outcome_file 404 = lookup_outcome_file 500 /\
  fst (lookup_outcome_file 404) = Ok JNull.
Proof. repeat split; reflexivity. Qed.

End ResourceLookupFacts.

(** ** The resource cache *)

Section ResourceCacheFacts.
Import NullbrSearch.

Lemma py_get_run {X} (v : json) (k : string) (default : json) (s : X * world) :
  @py_get X v k default s =
    match v with
    | JDict d => (Ok (from_option id default (dict_get d k)), s)
    | _ => (Raise AttributeError, s)
    end.
Proof. destruct v; reflexivity. Qed.

Lemma py_get_state {X} (v : json) (k : string) (default : json)
    (s : X * world) :
  snd (@py_get X v k default s) = s.
Proof. destruct v; reflexivity. Qed.

(** Reading the url of an entry writes nothing, and on an object it is
    the url field. *)
Lemma entry_url_state (rt : string) (res : json) (s : t * world) :
  snd (entry_url rt res s) = s.
Proof.
  unfold entry_url.
  destruct (String.eqb rt "115"); [apply py_get_state|].
  destruct (String.eqb rt "magnet"); [apply py_get_state|].
  destruct (String.eqb rt "video" || String.eqb rt "ed2k"); [|reflexivity].
  unfold bind. destruct res; reflexivity.
Qed.

Lemma entry_url_ok (rt : string) (res u : json) (s : t * world) :
  fst (entry_url rt res s) = Ok u -> u = url_field rt res.
Proof.
  unfold entry_url, url_field.
  destruct (String.eqb rt "115");
    [destruct res; simpl; congruence|].
  destruct (String.eqb rt "magnet");
    [destruct res; simpl; congruence|].
  destruct (String.eqb rt "video" || String.eqb rt "ed2k").
  - unfold bind. destruct res; simpl; congruence.
  - destruct res; simpl; congruence.
Qed.

(** The loop keeps the entries whose url field is not empty, in order,
    and writes nothing. *)
Lemma collect_resources_spec (rt : string) (l : list json)
    (acc : list resource_item) (s : t * world) :
  exists r,
    collect_resources rt l acc s = (r, s) /\
    forall items,
      r = Ok items ->
      exists new,
        items = acc ++ new /\
        Forall has_url new /\
        map url new = filter (fun u => truthy u = true) (map (url_field rt) l) /\
        Forall (fun it => type it = rt) new /\
        (length new <= length l)%nat.
Proof.
  revert acc. induction l as [|res l IH]; intros acc; simpl.
  - eexists. split; [reflexivity|]. intros items [= <-]. exists [].
    rewrite app_nil_r. repeat split; constructor.
  - unfold bind.
    pose proof (entry_url_state rt res s) as Hs.
    pose proof (entry_url_ok rt res) as Hu.
    destruct (entry_url rt res s) as [[u|e] s0] eqn:Hentry; simpl in Hs;
      subst s0; [|eexists; split; [reflexivity | discriminate]].
    specialize (Hu u s). rewrite Hentry in Hu. specialize (Hu eq_refl).
    subst u.
    destruct (truthy (url_field rt res)) eqn:Htruthy.
    + destruct res as [| | | | |d]; try (simpl in Htruthy; discriminate).
      simpl.
      destruct (IH (acc ++
                     [{| url := url_field rt (JDict d);
                         title := from_option id
                                    (from_option id (JStr "未知")
                                       (dict_get d "name"))
                                    (dict_get d "title");
                         size := from_option id (JStr "未知")
                                   (dict_get d "size");
                         type := rt |}])) as (r & Hrun & Hitems).
      exists r. split; [exact Hrun|]. intros items Hr.
      destruct (Hitems items Hr) as (new & -> & Hurls & Hmap & Htypes & Hlen).
      eexists (_ :: new). rewrite <- app_assoc. split; [reflexivity|].
      rewrite filter_cons, decide_True by exact Htruthy.
      repeat split.
      * constructor; [exact Htruthy | exact Hurls].
      * simpl. f_equal. exact Hmap.
      * constructor; [reflexivity | exact Htypes].
      * simpl. lia.
    + destruct (IH acc) as (r & Hrun & Hitems).
      exists r. split; [exact Hrun|]. intros items Hr.
      destruct (Hitems items Hr) as (new & -> & Hurls & Hmap & Htypes & Hlen).
      exists new. rewrite filter_cons, decide_False by congruence.
      repeat split; try assumption. lia.
Qed.

Lemma py_slice_raw (resources : list (string * json)) (rt : string)
    (first10 : list json) (s : t * world) :
  fst (py_slice 10 (from_option id (JList []) (dict_get resources rt)) s)
    = Ok first10 ->
  first10 = take 10 (raw_entries (JDict resources) rt).
Proof.
  unfold raw_entries.
  destruct (dict_get resources rt) as [[| | | | |]|]; simpl; congruence.
Qed.

(** What [_format_and_send_resources] does to [self]: nothing, or one
    entry written for the user, made of the entries among the first ten
    whose url field is not empty.  It never raises. *)
Lemma format_and_send_effect (resources : json) (rt : string) (title : json)
    (channel userid : string) (self : t) (w : world) :
  exists self' w',
    _format_and_send_resources resources rt title channel userid (self, w) =
      (Ok tt, (self', w')) /\
    (self' = self \/
     exists items,
       self' = set_resource_cache
                 (<[userid := stored_entry items title rt
                                (time_src w (ticks w))]>
                    (_user_resource_cache self)) self /\
       Forall has_url items /\
       map url items =
         filter (fun u => truthy u = true)
           (map (url_field rt) (take 10 (raw_entries resources rt))) /\
       Forall (fun it => type it = rt) items /\
       (length items <= length (raw_entries resources rt))%nat /\
       (length items <= 10)%nat).
Proof.
  unfold _format_and_send_resources, try_except.
  unfold bind at 1.
  destruct resources as [| | | | |d]; simpl;
    try (eexists _, _; split; [reflexivity | left; reflexivity]).
  destruct (truthy (from_option id (JList []) (dict_get d rt))) eqn:Htruthy;
    simpl; [|eexists _, _; split; [reflexivity | left; reflexivity]].
  unfold bind at 1.
  pose proof (py_slice_raw d rt) as Hraw.
  destruct (py_slice 10 (from_option id (JList []) (dict_get d rt)) (self, w))
    as [[first10|e] s0] eqn:Hslice.
  2: { assert (s0 = (self, w)) as ->
         by (revert Hslice; destruct (from_option id (JList []) (dict_get d rt));
             simpl; unfold ret, raise; congruence).
       eexists _, _; split; [reflexivity | left; reflexivity]. }
  assert (s0 = (self, w)) as ->
    by (revert Hslice; destruct (from_option id (JList []) (dict_get d rt));
        simpl; unfold ret, raise; congruence).
  specialize (Hraw first10 (self, w)). rewrite Hslice in Hraw.
  specialize (Hraw eq_refl).
  unfold bind at 1.
  destruct (collect_resources_spec rt first10 [] (self, w))
    as (r & Hrun & Hitems).
  rewrite Hrun.
  destruct r as [items|e];
    [|eexists _, _; split; [reflexivity | left; reflexivity]].
  destruct (Hitems items eq_refl) as (new & Hnew & Hurls & Hmap & Htypes & Hlen).
  simpl in Hnew. subst new.
  unfold bind, time_time, modify_self, post_message, log_event; simpl.
  eexists _, _; split; [reflexivity|]. right. exists items.
  split; [reflexivity|]. subst first10.
  repeat split; try assumption.
  - unfold raw_entries in Hlen. rewrite length_take in Hlen. lia.
  - rewrite length_take in Hlen. lia.
Qed.

End ResourceCacheFacts.

(** ** Properties of [self] kept by the handlers *)

Section Keeps.
Import NullbrSearch.

Context (P : t -> Prop).

Lemma keeps_reads_only {A} (m : M t A) : reads_only m -> keeps P m.
Proof. intros Hm self w HP. rewrite Hm. exact HP. Qed.

Lemma keeps_bind {A B} (m : M t A) (k : A -> M t B) :
  keeps P m -> (forall a, keeps P (k a)) -> keeps P (bind m k).
Proof.
  intros Hm Hk self w HP. unfold bind.
  specialize (Hm self w HP).
  destruct (m (self, w)) as [[a|e] [self' w']]; simpl in *.
  - apply Hk. exact Hm.
  - exact Hm.
Qed.

Lemma keeps_try_except {A} (m : M t A) (h : exn -> M t A) :
  keeps P m -> (forall e, keeps P (h e)) -> keeps P (try_except m h).
Proof.
  intros Hm Hh self w HP. unfold try_except.
  specialize (Hm self w HP).
  destruct (m (self, w)) as [[a|e] [self' w']]; simpl in *.
  - exact Hm.
  - apply Hh. exact Hm.
Qed.

Lemma keeps_with_client {A} (m : M NullbrApiClient.t A) :
  keeps P (with_client m).
Proof.
  apply keeps_reads_only. intros [self w]. unfold with_client. simpl.
  destruct (_client self); [|reflexivity].
  destruct (m _) as [r [c' w']]. reflexivity.
Qed.

Lemma keeps_with_cms_client {A} (m : M CloudSyncMediaClient.t A) :
  (forall c self, P self -> P (set_cms_client c self)) ->
  keeps P (with_cms_client m).
Proof.
  intros Hset self w HP. unfold with_cms_client. simpl.
  destruct (_cms_client self); [|exact HP].
  destruct (m _) as [r [c' w']]. simpl. apply Hset. exact HP.
Qed.

Lemma keeps_modify (f : t -> t) :
  (forall self, P self -> P (f self)) -> keeps P (modify_self f).
Proof. intros Hf self w HP. simpl. apply Hf. exact HP. Qed.

Lemma reads_only_py_get (v : json) (k : string) (d : json) :
  reads_only (@py_get t v k d).
Proof. intros s. destruct v; reflexivity. Qed.

Lemma reads_only_py_slice (n : nat) (v : json) : reads_only (@py_slice t n v).
Proof. intros s. destruct v; reflexivity. Qed.

Lemma reads_only_py_getitem (v : json) (k : string) :
  reads_only (@py_getitem t v k).
Proof.
  intros s. destruct v; try reflexivity. simpl.
  destruct (dict_get d k); reflexivity.
Qed.

Lemma reads_only_py_len (v : json) : reads_only (@py_len t v).
Proof. intros s. destruct v; reflexivity. Qed.

Lemma reads_only_unicode_db : reads_only (@unicode_db t).
Proof. intros s. reflexivity. Qed.

Lemma reads_only_lift_result {A} (r : result A) :
  reads_only (@lift_result t A r).
Proof. intros s. reflexivity. Qed.

Lemma reads_only_ret {A} (a : A) : reads_only (@ret t A a).
Proof. intros s. reflexivity. Qed.

Lemma reads_only_raise {A} (e : exn) : reads_only (@raise t A e).
Proof. intros s. reflexivity. Qed.

Lemma reads_only_get_self : reads_only (@get_self t).
Proof. intros s. reflexivity. Qed.

Lemma reads_only_time : reads_only (@time_time t).
Proof. intros s. reflexivity. Qed.

Lemma reads_only_log (ev : event) : reads_only (@log_event t ev).
Proof. intros s. reflexivity. Qed.

Lemma reads_only_nth_result (l : list json) (n : Z) :
  reads_only (nth_result l n).
Proof. intros s. unfold nth_result. destruct (l !! _); reflexivity. Qed.

Lemma reads_only_nth_resource (l : list resource_item) (n : Z) :
  reads_only (nth_resource l n).
Proof. intros s. unfold nth_resource. destruct (l !! _); reflexivity. Qed.

End Keeps.

Create HintDb keeps.

#[local] Hint Resolve reads_only_py_get reads_only_py_slice reads_only_ret
  reads_only_py_getitem reads_only_py_len reads_only_unicode_db
  reads_only_lift_result
  reads_only_raise reads_only_get_self reads_only_time reads_only_log
  reads_only_nth_result reads_only_nth_resource : keeps.

(** One step through the structure of a handler. *)
Ltac keeps_step :=
  match goal with
  | |- keeps _ (bind _ _) => apply keeps_bind; [|intros ?]
  | |- keeps _ (try_except _ _) => apply keeps_try_except; [|intros ?]
  | |- keeps _ (NullbrSearch.with_client _) => apply keeps_with_client
  | |- keeps _ (if ?b then _ else _) => destruct b
  | |- keeps _ (match ?x with _ => _ end) => destruct x
  | |- keeps _ (NullbrSearch.post_message _ _ _ _) =>
      apply keeps_reads_only, reads_only_log
  | |- keeps _ (NullbrSearch.fallback_to_moviepilot_search _ _ _) =>
      apply keeps_reads_only, reads_only_log
  | |- keeps _ _ => apply keeps_reads_only; solve [auto with keeps]
  end.

Section HandlersKeep.
Import NullbrSearch.

Context (P : t -> Prop).
Hypothesis P_cms_client : forall c self, P self -> P (set_cms_client c self).
Hypothesis P_search_cache : forall m self, P self -> P (set_search_cache m self).
Hypothesis P_format :
  forall resources rt title channel userid,
    keeps P (_format_and_send_resources resources rt title channel userid).

Lemma keeps_release_year (item : json) : keeps P (release_year item).
Proof. unfold release_year. repeat keeps_step. Qed.

Lemma keeps_fetch_resources (media_type tmdbid : json) (rt : string) :
  keeps P (fetch_resources media_type tmdbid rt).
Proof. unfold fetch_resources. repeat keeps_step. Qed.

Lemma keeps_priority_walk (selected title media_type tmdbid : json)
    (channel userid : string) (priority : list string) :
  keeps P (priority_walk selected title media_type tmdbid channel userid
             priority).
Proof.
  induction priority as [|ty rest IH]; simpl.
  - repeat keeps_step.
  - keeps_step; [keeps_step|]. destruct (negb (truthy a)); [exact IH|].
    keeps_step; [keeps_step|]. destruct (negb (enable_flag a0 ty)); [exact IH|].
    keeps_step; [apply keeps_fetch_resources|].
    keeps_step; [repeat keeps_step|].
    destruct a2; [|exact IH].
    do 3 (keeps_step; [keeps_step|]). apply P_format.
Qed.

Lemma keeps_get_resources_by_priority (selected : json)
    (channel userid : string) :
  keeps P (get_resources_by_priority selected channel userid).
Proof.
  unfold get_resources_by_priority.
  keeps_step; [|keeps_step].
  do 3 (keeps_step; [keeps_step|]).
  destruct (negb (truthy a1)); [keeps_step|].
  keeps_step; [keeps_step|]. apply keeps_priority_walk.
Qed.

Ltac keeps_handler :=
  repeat first
    [ apply keeps_get_resources_by_priority
    | apply P_format
    | apply keeps_fetch_resources
    | apply keeps_release_year
    | apply keeps_with_cms_client; exact P_cms_client
    | apply keeps_modify; intros ? ?; apply P_search_cache; assumption
    | keeps_step ].

Lemma keeps_handle_resource_selection (number : Z) (channel userid : string) :
  keeps P (handle_resource_selection number channel userid).
Proof.
  unfold handle_resource_selection, reply_to_selection. keeps_handler.
Qed.

Lemma keeps_handle_get_resources (number : Z) (rt channel userid : string) :
  keeps P (handle_get_resources number rt channel userid).
Proof.
  unfold handle_get_resources, resources_of_selection. keeps_handler.
Qed.

Lemma keeps_handle_resource_transfer (number : Z) (channel userid : string) :
  keeps P (handle_resource_transfer number channel userid).
Proof.
  unfold handle_resource_transfer, transfer_selected. keeps_handler.
Qed.

Lemma keeps_format_hits (items : list json) : keeps P (format_hits items).
Proof.
  induction items as [|item rest IH]; simpl.
  - keeps_step.
  - keeps_step; [|exact IH]. unfold format_hit. keeps_handler.
Qed.

Lemma keeps_search_and_reply (keyword channel userid : string) :
  keeps P (search_and_reply keyword channel userid).
Proof.
  unfold search_and_reply.
  repeat first [apply keeps_format_hits | progress keeps_handler].
Qed.

Lemma keeps_transfer_requested (number : Z) (userid : string) :
  keeps P (transfer_requested number userid).
Proof. unfold transfer_requested. keeps_handler. Qed.

(** Whatever the message, [talk] keeps the property. *)
Lemma keeps_talk (event : message) : keeps P (talk event).
Proof.
  unfold talk.
  repeat first
    [ apply keeps_handle_get_resources
    | apply keeps_handle_resource_transfer
    | apply keeps_handle_resource_selection
    | apply keeps_search_and_reply
    | apply keeps_transfer_requested
    | keeps_step ].
Qed.

End HandlersKeep.

(** ** C7: what the resource cache holds *)

Section StoredResources.
Import NullbrSearch.

Lemma resource_cache_ok_insert (self : t) (userid : string)
    (e : resource_entry) :
  resource_cache_ok self ->
  Forall has_url (resources e) -> (length (resources e) <= 10)%nat ->
  resource_cache_ok
    (set_resource_cache (<[userid := e]> (_user_resource_cache self)) self).
Proof.
  intros Hok Hurls Hlen u e'. simpl. rewrite lookup_insert.
  destruct (decide (userid = u)) as [->|Hne].
  - intros [= <-]. split; assumption.
  - apply Hok.
Qed.

Lemma format_and_send_keeps_ok (resources : json) (rt : string) (title : json)
    (channel userid : string) :
  keeps resource_cache_ok
    (_format_and_send_resources resources rt title channel userid).
Proof.
  intros self w Hok.
  destruct (format_and_send_effect resources rt title channel userid self w)
    as (self' & w' & Hrun & [->|(items & -> & Hurls & _ & _ & _ & Hlen)]);
    rewrite Hrun; simpl; [exact Hok|].
  apply resource_cache_ok_insert; assumption.
Qed.

(** C7: [_format_and_send_resources] is the one place that writes the
    resource cache.  It never raises; it leaves the cache as it was or
    stores for the user the entries, among the first ten raw entries of
    the bundle, whose url field for the type is not empty, in order; an
    entry whose field is empty or missing gives no item.  So a stored item
    has a url, and the items are no more than the raw entries and no more
    than ten; and whatever message [talk] handles, every entry of the
    cache stays so. *)
Theorem stored_resources_have_urls (bundle : json) (rt : string)
    (title : json) (channel userid : string) (event : message)
    (self : t) (w : world) :
  resource_cache_ok self ->
  (exists self' w',
     _format_and_send_resources bundle rt title channel userid (self, w) =
       (Ok tt, (self', w')) /\
     resource_cache_ok self' /\
     (self' = self \/
      exists items,
        self' = set_resource_cache
                  (<[userid := stored_entry items title rt
                                 (time_src w (ticks w))]>
                     (_user_resource_cache self)) self /\
        Forall has_url items /\
        map url items =
          filter (fun u => truthy u = true)
            (map (url_field rt) (take 10 (raw_entries bundle rt))) /\
        (length items <= length (raw_entries bundle rt))%nat /\
        (length items <= 10)%nat)) /\
  resource_cache_ok (fst (snd (talk event (self, w)))).
Proof.
  intros Hok. split.
  - destruct (format_and_send_effect bundle rt title channel userid self w)
      as (self' & w' & Hrun & Hcases).
    exists self', w'. split; [exact Hrun|]. split.
    + pose proof (format_and_send_keeps_ok bundle rt title channel userid
                    self w Hok) as Hkeep.
      rewrite Hrun in Hkeep. exact Hkeep.
    + destruct Hcases as [->|(items & Hself & Hurls & Hmap & _ & Hraw & Hlen)];
        [left; reflexivity|].
      right. exists items. repeat split; assumption.
  - apply keeps_talk; try assumption.
    + intros c self0 H. exact H.
    + intros m self0 H. exact H.
    + apply format_and_send_keeps_ok.
Qed.

Lemma plugin0_cache_ok : resource_cache_ok plugin0.
Proof. intros u e H. simpl in H. rewrite lookup_empty in H. discriminate. Qed.

Lemma stored_resources_have_urls_witness :
  resource_cache_ok
    (fst (snd (_format_and_send_resources bundle_115 "115" (JStr "The Matrix")
                 "wechat" "u1" (plugin0, world_of 50 [])))) /\
  resource_cache_ok
    (fst (snd (talk (message_of "1.115") (plugin0, world_of 50 [])))).
Proof.
  destruct (stored_resources_have_urls bundle_115 "115" (JStr "The Matrix")
              "wechat" "u1" (message_of "1.115") plugin0 (world_of 50 [])
              plugin0_cache_ok) as [(self' & w' & Hrun & Hok & _) Htalk].
  split; [|exact Htalk]. rewrite Hrun. exact Hok.
Defined.

End StoredResources.

(** ** C2: the age of a cache entry *)

Section CacheTtl.
Import NullbrSearch.

Lemma nth_result_in_range (l : list json) (number : Z) :
  1 <= number <= Z.of_nat (length l) ->
  exists x, l !! Z.to_nat (number - 1) = Some x.
Proof.
  intros H. apply lookup_lt_is_Some_2. lia.
Qed.

Lemma in_range_test (number : Z) (n : nat) :
  1 <= number <= Z.of_nat n ->
  (number <? 1) || (Z.of_nat n <? number) = false.
Proof.
  intros [Hlo Hhi]. apply orb_false_iff. split; apply Z.ltb_ge; lia.
Qed.

(** The read of [handle_resource_selection]. *)
Lemma selection_reads_search_cache (self : t) (w : world)
    (number : Z) (channel userid : string) :
  let now := time_src w (ticks w) in
  match _user_search_cache self !! userid with
  | None =>
      handle_resource_selection number channel userid (self, w) =
        (Ok tt, (self, emit (search_expired channel userid) w))
  | Some cache =>
      (3600 < now - search_timestamp cache ->
       handle_resource_selection number channel userid (self, w) =
         (Ok tt, (self, emit (search_expired channel userid) (tick w)))) /\
      (now - search_timestamp cache <= 3600 ->
       forall selected,
         1 <= number <= Z.of_nat (length (results cache)) ->
         results cache !! Z.to_nat (number - 1) = Some selected ->
         handle_resource_selection number channel userid (self, w) =
           try_except (reply_to_selection selected channel userid)
             (selection_failed channel userid) (self, tick w))
  end.
Proof.
  intros now.
  destruct (_user_search_cache self !! userid) as [cache|] eqn:Hcache.
  - split.
    + intros Hold. apply Z.ltb_lt in Hold.
      unfold handle_resource_selection, try_except, bind, get_self, time_time.
      simpl. rewrite Hcache. simpl. fold now. rewrite Hold. reflexivity.
    + intros Hlive selected Hrange Hsel. apply Z.ltb_ge in Hlive.
      unfold handle_resource_selection, try_except.
      unfold bind at 1. unfold get_self. simpl. rewrite Hcache.
      unfold bind at 1. unfold time_time. simpl. fold now. rewrite Hlive.
      rewrite (in_range_test _ _ Hrange).
      unfold bind at 1. unfold nth_result. rewrite Hsel. reflexivity.
  - unfold handle_resource_selection, try_except, bind, get_self.
    simpl. rewrite Hcache. reflexivity.
Qed.

(** The read of [handle_get_resources]. *)
Lemma resources_reads_search_cache (self : t) (w : world)
    (number : Z) (rt channel userid : string) :
  key_set (_api_key self) = true ->
  let now := time_src w (ticks w) in
  match _user_search_cache self !! userid with
  | None =>
      handle_get_resources number rt channel userid (self, w) =
        (Ok tt, (self, emit (search_expired channel userid) w))
  | Some cache =>
      (3600 < now - search_timestamp cache ->
       handle_get_resources number rt channel userid (self, w) =
         (Ok tt, (self, emit (search_expired channel userid) (tick w)))) /\
      (now - search_timestamp cache <= 3600 ->
       forall selected,
         1 <= number <= Z.of_nat (length (results cache)) ->
         results cache !! Z.to_nat (number - 1) = Some selected ->
         handle_get_resources number rt channel userid (self, w) =
           try_except (resources_of_selection selected rt channel userid)
             (resources_failed channel userid) (self, tick w))
  end.
Proof.
  intros Hkey now.
  destruct (_user_search_cache self !! userid) as [cache|] eqn:Hcache.
  - split.
    + intros Hold. apply Z.ltb_lt in Hold.
      unfold handle_get_resources, try_except, bind, get_self, time_time.
      simpl. rewrite Hkey, Hcache. simpl. fold now. rewrite Hold. reflexivity.
    + intros Hlive selected Hrange Hsel. apply Z.ltb_ge in Hlive.
      unfold handle_get_resources, try_except.
      unfold bind at 1. unfold get_self. simpl. rewrite Hkey, Hcache. simpl.
      unfold bind at 1. unfold time_time. simpl. fold now. rewrite Hlive.
      rewrite (in_range_test _ _ Hrange).
      unfold bind at 1. unfold nth_result. rewrite Hsel. reflexivity.
  - unfold handle_get_resources, try_except, bind, get_self.
    simpl. rewrite Hkey, Hcache. reflexivity.
Qed.

Lemma cms_ready_test (self : t) :
  cms_ready self ->
  _cms_enabled self = true /\ bool_decide (is_Some (_cms_client self)) = true.
Proof.
  intros [Hon Hclient]. split; [exact Hon|]. apply bool_decide_eq_true.
  exact Hclient.
Qed.

(** The read of [handle_resource_transfer]. *)
Lemma transfer_reads_resource_cache (self : t) (w : world)
    (number : Z) (channel userid : string) :
  cms_ready self ->
  let now := time_src w (ticks w) in
  match _user_resource_cache self !! userid with
  | None =>
      handle_resource_transfer number channel userid (self, w) =
        (Ok tt, (self, emit (resource_expired channel userid) w))
  | Some cache =>
      (3600 < now - timestamp cache ->
       handle_resource_transfer number channel userid (self, w) =
         (Ok tt, (self, emit (resource_expired channel userid) (tick w)))) /\
      (now - timestamp cache <= 3600 ->
       forall selected,
         1 <= number <= Z.of_nat (length (resources cache)) ->
         resources cache !! Z.to_nat (number - 1) = Some selected ->
         handle_resource_transfer number channel userid (self, w) =
           try_except (transfer_selected selected channel userid)
             (transfer_failed channel userid) (self, tick w))
  end.
Proof.
  intros Hready now. destruct (cms_ready_test self Hready) as [Hon Hclient].
  destruct (_user_resource_cache self !! userid) as [cache|] eqn:Hcache.
  - split.
    + intros Hold. apply Z.ltb_lt in Hold.
      unfold handle_resource_transfer, try_except, bind, get_self, time_time.
      simpl. rewrite Hon, Hclient, Hcache. simpl. fold now. rewrite Hold.
      reflexivity.
    + intros Hlive selected Hrange Hsel. apply Z.ltb_ge in Hlive.
      unfold handle_resource_transfer, try_except.
      unfold bind at 1. unfold get_self. simpl.
      rewrite Hon, Hclient, Hcache. simpl.
      unfold bind at 1. unfold time_time. simpl. fold now. rewrite Hlive.
      rewrite (in_range_test _ _ Hrange).
      unfold bind at 1. unfold nth_resource. rewrite Hsel. reflexivity.
  - unfold handle_resource_transfer, try_except, bind, get_self.
    simpl. rewrite Hon, Hclient, Hcache. reflexivity.
Qed.

(** The read of [talk], before a number is taken as a transfer. *)
Lemma talk_reads_resource_cache (self : t) (w : world)
    (number : Z) (userid : string) :
  let now := time_src w (ticks w) in
  transfer_requested number userid (self, w) =
    if _cms_enabled self && bool_decide (is_Some (_cms_client self)) then
      match _user_resource_cache self !! userid with
      | Some cache =>
          (Ok ((now - timestamp cache <? 3600)
               && (1 <=? number)
               && (number <=? Z.of_nat (length (resources cache)))),
           (self, tick w))
      | None => (Ok false, (self, w))
      end
    else (Ok false, (self, w)).
Proof.
  intros now. unfold transfer_requested, bind, get_self, time_time. simpl.
  destruct (_cms_enabled self && bool_decide (is_Some (_cms_client self)));
    [|reflexivity].
  destruct (_user_resource_cache self !! userid) as [cache|]; [|reflexivity].
  simpl. fold now. destruct (now - timestamp cache <? 3600); reflexivity.
Qed.

(** C2: an entry written at the time [t] (its timestamp) and read at the
    time [now].  While [now - t < 3600] the two handlers that read the
    search cache go on with the hit they find in the entry, and the two
    reads of the resource cache find it: [talk] takes the number as a
    transfer and [handle_resource_transfer] goes on with the stored item.
    Once [now - t > 3600] the four reads treat the entry as absent: the
    handlers answer as they do when the user has no entry, and [talk] does
    not take the number as a transfer.  Each read of a present entry reads
    the clock. *)
Theorem cache_ttl (self : t) (w : world) (number : Z)
    (rt channel userid : string) (se : search_entry) (re : resource_entry) :
  key_set (_api_key self) = true ->
  cms_ready self ->
  let now := time_src w (ticks w) in
  let listed := with_search_entry userid se self in
  let resolved := with_resource_entry userid re self in
  (now - search_timestamp se < 3600 ->
   forall selected,
     1 <= number <= Z.of_nat (length (results se)) ->
     results se !! Z.to_nat (number - 1) = Some selected ->
     handle_resource_selection number channel userid (listed, w) =
       try_except (reply_to_selection selected channel userid)
         (selection_failed channel userid) (listed, tick w) /\
     handle_get_resources number rt channel userid (listed, w) =
       try_except (resources_of_selection selected rt channel userid)
         (resources_failed channel userid) (listed, tick w)) /\
  (3600 < now - search_timestamp se ->
   handle_resource_selection number channel userid (listed, w) =
     (Ok tt, (listed, emit (search_expired channel userid) (tick w))) /\
   handle_get_resources number rt channel userid (listed, w) =
     (Ok tt, (listed, emit (search_expired channel userid) (tick w)))) /\
  (now - timestamp re < 3600 ->
   forall selected,
     1 <= number <= Z.of_nat (length (resources re)) ->
     resources re !! Z.to_nat (number - 1) = Some selected ->
     transfer_requested number userid (resolved, w) =
       (Ok true, (resolved, tick w)) /\
     handle_resource_transfer number channel userid (resolved, w) =
       try_except (transfer_selected selected channel userid)
         (transfer_failed channel userid) (resolved, tick w)) /\
  (3600 < now - timestamp re ->
   transfer_requested number userid (resolved, w) =
     (Ok false, (resolved, tick w)) /\
   handle_resource_transfer number channel userid (resolved, w) =
     (Ok tt, (resolved, emit (resource_expired channel userid) (tick w)))) /\
  (_user_search_cache self !! userid = None ->
   handle_resource_selection number channel userid (self, w) =
     (Ok tt, (self, emit (search_expired channel userid) w)) /\
   handle_get_resources number rt channel userid (self, w) =
     (Ok tt, (self, emit (search_expired channel userid) w))) /\
  (_user_resource_cache self !! userid = None ->
   transfer_requested number userid (self, w) = (Ok false, (self, w)) /\
   handle_resource_transfer number channel userid (self, w) =
     (Ok tt, (self, emit (resource_expired channel userid) w))).
Proof.
  intros Hkey Hready now listed resolved.
  destruct (cms_ready_test self Hready) as [Hon Hclient].
  pose proof (selection_reads_search_cache listed w number channel userid)
    as Hsel.
  pose proof (resources_reads_search_cache listed w number rt channel userid
                Hkey) as Hres.
  pose proof (transfer_reads_resource_cache resolved w number channel userid
                Hready) as Htr.
  pose proof (talk_reads_resource_cache resolved w number userid) as Htalk.
  unfold listed, with_search_entry in Hsel, Hres. simpl in Hsel, Hres.
  unfold resolved, with_resource_entry in Htr, Htalk. simpl in Htr, Htalk.
  rewrite lookup_insert_eq in Hsel, Hres.
  rewrite lookup_insert_eq in Htr, Htalk.
  rewrite Hon, Hclient in Htalk. simpl in Htalk.
  fold now in Hsel, Hres, Htr, Htalk.
  destruct Hsel as [Hsel_old Hsel_live]. destruct Hres as [Hres_old Hres_live].
  destruct Htr as [Htr_old Htr_live].
  split; [| split; [| split; [| split; [| split]]]].
  - intros Hlive selected Hrange Hlookup. split.
    + apply Hsel_live; [lia | assumption | assumption].
    + apply Hres_live; [lia | assumption | assumption].
  - intros Hold. split; [apply Hsel_old | apply Hres_old]; exact Hold.
  - intros Hlive selected Hrange Hlookup. split.
    + unfold resolved, with_resource_entry. rewrite Htalk.
      assert ((now - timestamp re <? 3600) = true) as -> by (apply Z.ltb_lt; lia).
      assert ((1 <=? number) = true) as -> by (apply Z.leb_le; lia).
      assert ((number <=? Z.of_nat (length (resources re))) = true) as ->
        by (apply Z.leb_le; lia).
      reflexivity.
    + apply Htr_live; [lia | assumption | assumption].
  - intros Hold. split.
    + unfold resolved, with_resource_entry. rewrite Htalk.
      assert ((now - timestamp re <? 3600) = false) as ->
        by (apply Z.ltb_ge; lia).
      reflexivity.
    + apply Htr_old. exact Hold.
  - intros Hnone. split.
    + pose proof (selection_reads_search_cache self w number channel userid)
        as H. rewrite Hnone in H. exact H.
    + pose proof (resources_reads_search_cache self w number rt channel userid
                    Hkey) as H. rewrite Hnone in H. exact H.
  - intros Hnone. split.
    + rewrite talk_reads_resource_cache, Hnone.
      destruct (_cms_enabled self && _); reflexivity.
    + pose proof (transfer_reads_resource_cache self w number channel userid
                    Hready) as H. rewrite Hnone in H. exact H.
Qed.

Lemma plugin0_ready : cms_ready plugin0.
Proof. split; [reflexivity|]. eexists. reflexivity. Qed.

Lemma cache_ttl_witness :
  (handle_resource_selection 1 "wechat" "u1"
     (with_search_entry "u1" listed_at_1000 plugin0, world_of 4601 []) =
     (Ok tt,
      (with_search_entry "u1" listed_at_1000 plugin0,
       emit (search_expired "wechat" "u1") (tick (world_of 4601 [])))) /\
   transfer_requested 1 "u1"
     (with_resource_entry "u1" resolved_at_1000 plugin0, world_of 4601 []) =
     (Ok false,
      (with_resource_entry "u1" resolved_at_1000 plugin0,
       tick (world_of 4601 [])))) /\
  (handle_resource_selection 1 "wechat" "u1"
     (with_search_entry "u1" listed_at_1000 plugin0, world_of 4599 []) =
     try_except (reply_to_selection hit_matrix "wechat" "u1")
       (selection_failed "wechat" "u1")
       (with_search_entry "u1" listed_at_1000 plugin0,
        tick (world_of 4599 [])) /\
   transfer_requested 1 "u1"
     (with_resource_entry "u1" resolved_at_1000 plugin0, world_of 4599 []) =
     (Ok true,
      (with_resource_entry "u1" resolved_at_1000 plugin0,
       tick (world_of 4599 [])))).
Proof.
  split.
  - destruct (cache_ttl plugin0 (world_of 4601 []) 1 "115" "wechat" "u1"
                listed_at_1000 resolved_at_1000 eq_refl plugin0_ready)
      as (_ & Hsearch & _ & Hresource & _).
    split.
    + apply Hsearch. simpl. lia.
    + apply Hresource. simpl. lia.
  - destruct (cache_ttl plugin0 (world_of 4599 []) 1 "115" "wechat" "u1"
                listed_at_1000 resolved_at_1000 eq_refl plugin0_ready)
      as (Hsearch & _ & Hresource & _).
    split.
    + apply (Hsearch ltac:(simpl; lia) hit_matrix); [simpl; lia | reflexivity].
    + apply (Hresource ltac:(simpl; lia) item_a); [simpl; lia | reflexivity].
Defined.

End CacheTtl.

(** ** C4: a message of digits *)

Section Dispatch.
Import NullbrSearch.

(** An ASCII byte of a text is one of its characters. *)
Lemma ascii_byte_is_code_point (x : N) (n : nat) :
  (x <? 128)%N = true ->
  forall l, (length l <= n)%nat -> In x l -> In x (code_points l).
Proof.
  intros Hx. unfold code_points.
  induction n as [|n IH]; intros l Hlen Hin.
  - destruct l; [destruct Hin|simpl in Hlen; lia].
  - destruct l as [|a l1]; [destruct Hin|].
    simpl in Hlen. simpl.
    destruct (a <? 128)%N eqn:Ha.
    { destruct Hin as [->|Hin]; [left; reflexivity|].
      right. apply IH; [lia|exact Hin]. }
    destruct Hin as [->|Hin]; [congruence|].
    destruct l1 as [|b l2]; [destruct Hin|]. simpl in Hlen.
    destruct (continuation b) eqn:Hb; cbn [negb];
      [|apply IH; [simpl; lia|exact Hin]].
    assert (Hb' : (b <? 128)%N = false).
    { unfold continuation in Hb. apply andb_true_iff in Hb as [Hb _].
      apply N.leb_le in Hb. apply N.ltb_ge. exact Hb. }
    destruct Hin as [->|Hin]; [congruence|].
    destruct (a <? 224)%N; [right; apply IH; [lia|exact Hin]|].
    destruct l2 as [|c l3]; [destruct Hin|]. simpl in Hlen.
    destruct (continuation c) eqn:Hc; cbn [negb];
      [|apply IH; [simpl; lia|exact Hin]].
    assert (Hc' : (c <? 128)%N = false).
    { unfold continuation in Hc. apply andb_true_iff in Hc as [Hc _].
      apply N.leb_le in Hc. apply N.ltb_ge. exact Hc. }
    destruct Hin as [->|Hin]; [congruence|].
    destruct (a <? 240)%N; [right; apply IH; [lia|exact Hin]|].
    destruct l3 as [|d l4]; [destruct Hin|]. simpl in Hlen.
    destruct (continuation d) eqn:Hd; cbn [negb];
      [|apply IH; [simpl; lia|exact Hin]].
    assert (Hd' : (d <? 128)%N = false).
    { unfold continuation in Hd. apply andb_true_iff in Hd as [Hd _].
      apply N.leb_le in Hd. apply N.ltb_ge. exact Hd. }
    destruct Hin as [->|Hin]; [congruence|].
    right. apply IH; [lia|exact Hin].
Qed.

Lemma split_dot_none (l : list N) : ~ In 46%N l -> split_dot l = None.
Proof.
  induction l as [|a l IH]; simpl; [reflexivity|].
  intros Hnot.
  destruct (N.eqb_spec a 46) as [->|_]; [exfalso; apply Hnot; left; reflexivity|].
  rewrite IH; [reflexivity|]. intros Hin. apply Hnot. right. exact Hin.
Qed.

(** The dot is no digit. *)
Lemma digits_have_no_dot (u : unicode) (l : list N) :
  forallb (digit_char u) (code_points l) = true -> split_dot l = None.
Proof.
  intros Hall. apply split_dot_none. intros Hin.
  apply (ascii_byte_is_code_point 46 (length l) eq_refl l (le_n _)) in Hin.
  rewrite forallb_forall in Hall. specialize (Hall _ Hin).
  discriminate Hall.
Qed.

Lemma isdigit_not_resource_request (u : unicode) (s : string) :
  isdigit u s = true -> match_resource_request u s = None.
Proof.
  unfold isdigit, match_resource_request. intros H.
  destruct (code_points (bytes s)) as [|a l] eqn:Hpoints; [discriminate|].
  rewrite (digits_have_no_dot u (bytes s)); [reflexivity|].
  rewrite Hpoints. exact H.
Qed.

(** A message of digits is handed to one of two handlers, by the test of
    [transfer_requested], once [int] has read the number. *)
Lemma talk_digits (self : t) (w : world) (event : message) (txt : string) :
  heard self event txt ->
  isdigit (unicodedata w) (clean txt) = true ->
  talk event (self, w) =
    (number <- lift_result (int (unicodedata w) (clean txt)) ;;
     transfer <- transfer_requested number (userid event) ;;
     if transfer : bool
     then handle_resource_transfer number (channel event) (userid event)
     else handle_resource_selection number (channel event) (userid event))
      (self, w).
Proof.
  intros (Hon & Hclient & Htext & Hne & Hsource) Hdigits.
  unfold talk. unfold bind at 1. unfold get_self. simpl.
  rewrite Hon. rewrite (bool_decide_eq_true_2 _ Hclient). simpl.
  rewrite Htext.
  destruct (String.eqb_spec txt "") as [->|_]; [congruence|].
  rewrite (bool_decide_eq_false_2 _ Hsource).
  unfold bind at 1. unfold unicode_db. simpl.
  rewrite (isdigit_not_resource_request _ _ Hdigits), Hdigits. reflexivity.
Qed.

Lemma int_of_digits_some (u : unicode) (l : list N) :
  forall acc n,
    int_of_digits u l acc = Some n ->
    n = fold_left
          (fun acc c =>
             10 * acc + Z.of_N (from_option id 0%N (decimal_digit u c)))
          l acc.
Proof.
  induction l as [|c l IH]; simpl; intros acc n.
  - intros [= <-]. reflexivity.
  - destruct (decimal_digit u c) as [v|]; [|discriminate].
    simpl. apply IH.
Qed.

(** What [int] returns is the value of the digits. *)
Lemma int_value (u : unicode) (s : string) (n : Z) :
  int u s = Ok n -> n = value_of u (code_points (bytes s)).
Proof.
  unfold int, value_of.
  destruct (int_max_str_digits <? _); [discriminate|].
  destruct (code_points (bytes s)) as [|c l] eqn:Hl; [discriminate|].
  destruct (int_of_digits u (c :: l) 0) as [m|] eqn:Hm; [|discriminate].
  intros [= <-]. apply int_of_digits_some. exact Hm.
Qed.

(** C4, as amended: a message whose cleaned text [str.isdigit] accepts
    and [int] reads as [number], the value of its decimal digits, is a
    transfer request exactly when the transfer client is switched on and
    there, the user has a resource entry younger than 3600 s and the
    number is a 1-based index into it; then [handle_resource_transfer] is
    run.  In every other case [handle_resource_selection] is run, against
    the search cache. *)
Theorem digits_dispatch (self : t) (w : world) (event : message)
    (txt : string) (number : Z) :
  heard self event txt ->
  isdigit (unicodedata w) (clean txt) = true ->
  int (unicodedata w) (clean txt) = Ok number ->
  let now := time_src w (ticks w) in
  number = value_of (unicodedata w) (code_points (bytes (clean txt))) /\
  (cms_ready self /\ live_resource self (userid event) now number ->
   talk event (self, w) =
     handle_resource_transfer number (channel event) (userid event)
       (self, tick w)) /\
  (~ (cms_ready self /\ live_resource self (userid event) now number) ->
   exists w',
     (w' = w \/ w' = tick w) /\
     talk event (self, w) =
       handle_resource_selection number (channel event) (userid event)
         (self, w')).
Proof.
  intros Hheard Hdigits Hint now.
  split; [exact (int_value _ _ _ Hint)|].
  rewrite (talk_digits self w event txt Hheard Hdigits).
  unfold bind at 1. unfold lift_result. rewrite Hint.
  unfold bind. rewrite talk_reads_resource_cache. fold now. split.
  - intros [Hready (cache & Hcache & Hage & Hlo & Hhi)].
    destruct (cms_ready_test self Hready) as [-> ->]. simpl.
    rewrite Hcache.
    apply Z.ltb_lt in Hage. apply Z.leb_le in Hlo. apply Z.leb_le in Hhi.
    rewrite Hage, Hlo, Hhi. reflexivity.
  - intros Hnot.
    destruct (_cms_enabled self) eqn:Hon; simpl;
      [|exists w; split; [left|]; reflexivity].
    destruct (bool_decide (is_Some (_cms_client self))) eqn:Hclient;
      [|exists w; split; [left|]; reflexivity].
    destruct (_user_resource_cache self !! userid event) as [cache|] eqn:Hcache;
      [|exists w; split; [left|]; reflexivity].
    destruct ((now - timestamp cache <? 3600) && (1 <=? number)
              && (number <=? Z.of_nat (length (resources cache)))) eqn:Htest;
      [|exists (tick w); split; [right|]; reflexivity].
    exfalso. apply Hnot.
    apply andb_true_iff in Htest as [Htest Hhi].
    apply andb_true_iff in Htest as [Hage Hlo].
    apply Z.ltb_lt in Hage. apply Z.leb_le in Hlo. apply Z.leb_le in Hhi.
    split.
    + split; [exact Hon|]. apply bool_decide_eq_true in Hclient. exact Hclient.
    + exists cache. repeat split; assumption.
Qed.

Lemma plugin0_hears (txt : string) :
  txt <> "" -> heard plugin0 (message_of txt) txt.
Proof.
  intros Hne. repeat split; try assumption; try reflexivity.
  - eexists. reflexivity.
  - discriminate.
Qed.

Lemma digits_dispatch_witness :
  talk (message_of "1")
    (with_resource_entry "u1" resolved_at_1000 plugin0, world_of 1500 []) =
  handle_resource_transfer 1 "wechat" "u1"
    (with_resource_entry "u1" resolved_at_1000 plugin0,
     tick (world_of 1500 [])).
Proof.
  assert (Hheard : heard (with_resource_entry "u1" resolved_at_1000 plugin0)
                     (message_of "1") "1").
  { repeat split; try reflexivity; try discriminate. eexists. reflexivity. }
  destruct (digits_dispatch _ (world_of 1500 []) (message_of "1") "1" 1
              Hheard eq_refl eq_refl) as (_ & Htransfer & _).
  apply Htransfer. split.
  - split; [reflexivity|]. eexists. reflexivity.
  - exists resolved_at_1000. split; [apply lookup_insert_eq|].
    vm_compute. repeat split; try reflexivity; discriminate.
Defined.

(** C4 as stated fails: with the transfer client switched off, the user's
    resource entry is 500 s old and 1 is an index into it, and yet the
    message [1] is handled as a choice among the search results (here
    answered by the reply that the search results have expired). *)
Lemma digits_without_transfer_client :
  let self := with_resource_entry "u1" resolved_at_1000 plugin_cms_off in
  let w := world_of 1500 [] in
  live_resource self "u1" (time_src w (ticks w)) 1 /\
  talk (message_of "1") (self, w) =
    handle_resource_selection 1 "wechat" "u1" (self, w) /\
  trace (snd (snd (talk (message_of "1") (self, w)))) =
    [search_expired "wechat" "u1"] /\
  talk (message_of "1") (self, w) <>
    handle_resource_transfer 1 "wechat" "u1" (self, tick w).
Proof.
  intros self w. split; [| split; [| split]].
  - exists resolved_at_1000. split; [apply lookup_insert_eq|]. simpl. lia.
  - reflexivity.
  - reflexivity.
  - intros H. apply (f_equal (fun out => trace (snd (snd out)))) in H.
    vm_compute in H. discriminate.
Qed.

End Dispatch.

(** ** C10: a hit without tmdbid *)

Section MissingTmdbid.
Import NullbrSearch.

(** C10: when the selected hit has no tmdbid (the key is missing, or its
    value is null, 0 or empty), [get_resources_by_priority] and
    [handle_get_resources] post the error reply and nothing else happens:
    [self], and with it both caches, is unchanged, no client operation is
    called and no request is made. *)
Theorem no_tmdbid_no_fetch (d : list (string * json)) (number : Z)
    (rt channel userid : string) (cache : search_entry)
    (self : t) (w : world) :
  truthy (tmdbid_of d) = false ->
  get_resources_by_priority (JDict d) channel userid (self, w) =
    (Ok tt, (self, emit (missing_tmdbid channel userid) w)) /\
  (key_set (_api_key self) = true ->
   _user_search_cache self !! userid = Some cache ->
   time_src w (ticks w) - search_timestamp cache <= 3600 ->
   1 <= number <= Z.of_nat (length (results cache)) ->
   results cache !! Z.to_nat (number - 1) = Some (JDict d) ->
   handle_get_resources number rt channel userid (self, w) =
     (Ok tt, (self, emit (missing_tmdbid channel userid) (tick w)))).
Proof.
  intros Hno. unfold tmdbid_of in Hno. split.
  - unfold get_resources_by_priority, try_except, bind. simpl.
    rewrite Hno. reflexivity.
  - intros Hkey Hcache Hlive Hrange Hsel.
    pose proof (resources_reads_search_cache self w number rt channel userid
                  Hkey) as Hread.
    rewrite Hcache in Hread. destruct Hread as [_ Hread].
    rewrite (Hread Hlive (JDict d) Hrange Hsel).
    unfold resources_of_selection, try_except, bind. simpl.
    rewrite Hno. reflexivity.
Qed.

Lemma no_tmdbid_no_fetch_witness :
  let listed := with_search_entry "u1" listed_at_1000 plugin0 in
  get_resources_by_priority hit_no_tmdbid "wechat" "u1"
    (listed, world_of 2000 []) =
    (Ok tt, (listed, emit (missing_tmdbid "wechat" "u1") (world_of 2000 []))) /\
  handle_get_resources 2 "115" "wechat" "u1" (listed, world_of 2000 []) =
    (Ok tt,
     (listed, emit (missing_tmdbid "wechat" "u1") (tick (world_of 2000 [])))).
Proof.
  intros listed.
  destruct (no_tmdbid_no_fetch
              [("title", JStr "The Matrix"); ("media_type", JStr "movie");
               ("115-flg", JBool true); ("magnet-flg", JBool true)]
              2 "115" "wechat" "u1" listed_at_1000 listed (world_of 2000 [])
              eq_refl) as [Hwalk Hget].
  split; [exact Hwalk|].
  apply Hget.
  - reflexivity.
  - apply lookup_insert_eq.
  - simpl. lia.
  - simpl. lia.
  - reflexivity.
Defined.

End MissingTmdbid.

(** * The priority walk of [get_resources_by_priority] *)

Section PriorityWalk.
Import NullbrSearch.

Lemma calls_app (l l' : list event) : calls (l ++ l') = calls l ++ calls l'.
Proof. apply omap_app. Qed.

(** A lookup of the client returns, leaves the client and the network
    oracle as they are, records its call once, and what it returns is
    [None] or the body of an answer. *)
Lemma client_lookup_effect (k : media_kind) (tmdbid : json) (rt : string)
    (c : NullbrApiClient.t) (w : world) :
  exists v w1,
    lookup k tmdbid rt (c, w) = (Ok v, (c, w1)) /\
    net_src w1 = net_src w /\
    calls (trace w1) =
      calls (trace w) ++ [operation_call (lookup_op k tmdbid rt)] /\
    (v = JNull \/
     exists n resp, net_src w n = Response resp /\ body resp = Some v).
Proof.
  destruct k; unfold lookup, run_operation, lookup_op;
    unfold NullbrApiClient.get_movie_resources,
      NullbrApiClient.get_tv_resources, log_event, get_self, bind; simpl.
  all: destruct (key_set (NullbrApiClient._api_key c)); simpl.
  all: try (eexists _, _; split; [reflexivity|]; simpl;
            rewrite calls_app; auto).
  all: unfold try_except, bind; rewrite request_with_fallback_run; simpl.
  all: destruct (net_src w (sent w)) as [resp|tr] eqn:Hfirst; simpl.
  all: try (destruct tr; simpl;
            try destruct (net_src w (S (sent w))) as [resp|tr2] eqn:Hsecond;
            simpl).
  all: try (destruct (status_code resp =? 200); simpl;
            [unfold response_json; destruct (body resp) as [v|] eqn:Hbody;
             simpl
            |repeat (destruct (status_code resp =? _); simpl)]).
  all: eexists _, _; (split; [reflexivity|]); simpl;
    rewrite !calls_app; simpl; rewrite ?app_nil_r;
    (split; [reflexivity|]); (split; [reflexivity|]); eauto.
Qed.


(** Fetching a type for a hit: the plugin and the network oracle are as
    before, the call made is the one of the media type, and the answer is
    falsy or an object when the API answers with objects. *)
Lemma fetch_resources_effect (hit : list (string * json)) (ty : string)
    (self : t) (c : NullbrApiClient.t) (w : world) :
  _client self = Some c ->
  answers_are_objects w ->
  exists resources w1,
    fetch_resources (media_type_of hit) (tmdbid_of hit) ty (self, w) =
      (Ok resources, (self, w1)) /\
    net_src w1 = net_src w /\
    calls (trace w1) = calls (trace w) ++ fetch_call hit ty /\
    (truthy resources = false \/ exists d, resources = JDict d).
Proof.
  intros Hclient Hobjects.
  unfold fetch_resources, fetch_call.
  destruct (is_str (media_type_of hit) "movie").
  - destruct (client_lookup_effect Movie (tmdbid_of hit) ty c w)
      as (v & w1 & Hrun & Hnet & Hcalls & Hv).
    exists v, w1. unfold with_client; simpl. rewrite Hclient.
    unfold lookup, run_operation, lookup_op in Hrun. rewrite Hrun.
    repeat split; try assumption.
    destruct Hv as [->|(n & resp & Hn & Hbody)]; [left; reflexivity|].
    exact (Hobjects n resp v Hn Hbody).
  - destruct (is_str (media_type_of hit) "tv").
    + destruct (client_lookup_effect Tv (tmdbid_of hit) ty c w)
        as (v & w1 & Hrun & Hnet & Hcalls & Hv).
      exists v, w1. unfold with_client; simpl. rewrite Hclient.
      unfold lookup, run_operation, lookup_op in Hrun. rewrite Hrun.
      repeat split; try assumption.
      destruct Hv as [->|(n & resp & Hn & Hbody)]; [left; reflexivity|].
      exact (Hobjects n resp v Hn Hbody).
    + exists JNull, w. rewrite app_nil_r. repeat split. left; reflexivity.
Qed.

(** [getattr(self, f"_enable_{type}", True)] is the switch of the type
    when it has one, and [True] for any other type. *)
Lemma enable_flag_disabled (self : t) (ty : string) :
  enable_flag self ty = negb (disabled self ty).
Proof.
  unfold enable_flag, disabled.
  destruct (String.eqb_spec ty "115") as [->|_];
    [simpl; destruct (_enable_115 self); reflexivity|].
  destruct (String.eqb_spec ty "magnet") as [->|_];
    [simpl; destruct (_enable_magnet self); reflexivity|].
  destruct (String.eqb_spec ty "video") as [->|_];
    [simpl; destruct (_enable_video self); reflexivity|].
  destruct (String.eqb_spec ty "ed2k") as [->|_];
    [simpl; destruct (_enable_ed2k self); reflexivity|].
  reflexivity.
Qed.

Lemma tried_test (self : t) (hit : list (string * json)) (ty : string) :
  tried self hit ty = available hit ty && enable_flag self ty.
Proof. unfold tried. rewrite enable_flag_disabled. reflexivity. Qed.

Lemma answers_are_objects_net (w w1 : world) :
  net_src w1 = net_src w -> answers_are_objects w -> answers_are_objects w1.
Proof. intros Hnet H n resp v. rewrite Hnet. apply H. Qed.

(** The loop realises a walk, and ends as the walk says. *)
Lemma priority_walk_walked (hit : list (string * json))
    (channel userid : string) (self : t) (c : NullbrApiClient.t)
    (priority : list string) :
  _client self = Some c ->
  forall w, answers_are_objects w ->
  exists visited r w',
    walked self hit priority w visited r w' /\
    priority_walk (JDict hit) (title_of hit) (media_type_of hit)
      (tmdbid_of hit) channel userid priority (self, w) =
      loop_end (title_of hit) channel userid self r w' /\
    calls (trace w') =
      calls (trace w) ++ concat (map (fetch_call hit) visited).
Proof.
  intros Hclient.
  induction priority as [|ty rest IH]; intros w Hobjects.
  - exists [], None, w. split; [constructor|]. split; [reflexivity|].
    simpl. rewrite app_nil_r. reflexivity.
  - destruct (tried self hit ty) eqn:Htried.
    + destruct (fetch_resources_effect hit ty self c w Hclient Hobjects)
        as (resources & w1 & Hfetch & Hnet & Hcalls & Hshape).
      pose proof Htried as Htried'. rewrite tried_test in Htried'.
      apply andb_true_iff in Htried' as [Havailable Henabled].
      unfold available in Havailable.
      destruct (nonempty_bundle resources ty) eqn:Hbundle.
      * exists [ty], (Some (ty, resources)), w1.
        split; [eapply walked_win; eassumption|].
        split; [|simpl; rewrite app_nil_r; exact Hcalls].
        simpl. unfold bind at 1. simpl. rewrite Havailable. simpl.
        unfold bind at 1. simpl. rewrite Henabled. simpl.
        unfold bind at 1. rewrite Hfetch.
        destruct resources as [| | | | |d]; try discriminate Hbundle.
        simpl in Hbundle.
        destruct (truthy (JDict d)) eqn:Htruthy.
        -- unfold bind at 1. unfold bind at 1. simpl. rewrite Hbundle.
           simpl.
           destruct (dict_get d ty) as [v|] eqn:Hget; [|discriminate Hbundle].
           unfold bind at 1. simpl.
           destruct v; try discriminate Hbundle; reflexivity.
        -- destruct d; [discriminate Hbundle|discriminate Htruthy].
      * destruct (IH w1 (answers_are_objects_net w w1 Hnet Hobjects))
          as (visited & r & w' & Hwalk & Hrun & Hcalls').
        exists (ty :: visited), r, w'.
        split; [eapply walked_on; eassumption|].
        split.
        -- simpl. unfold bind at 1. simpl. rewrite Havailable. simpl.
           unfold bind at 1. simpl. rewrite Henabled. simpl.
           unfold bind at 1. rewrite Hfetch.
           destruct Hshape as [Hfalsy|(d & ->)].
           ++ rewrite Hfalsy. unfold bind at 1. simpl. exact Hrun.
           ++ simpl in Hbundle.
              destruct (truthy (JDict d)).
              ** unfold bind at 1. unfold bind at 1. simpl.
                 rewrite Hbundle. simpl. exact Hrun.
              ** unfold bind at 1. simpl. exact Hrun.
        -- rewrite Hcalls', Hcalls. simpl. rewrite app_assoc. reflexivity.
    + destruct (IH w Hobjects) as (visited & r & w' & Hwalk & Hrun & Hcalls').
      exists visited, r, w'.
      split; [apply walked_skip; assumption|].
      split; [|exact Hcalls'].
      simpl. unfold bind at 1. simpl.
      rewrite tried_test in Htried. unfold available in Htried.
      destruct (truthy (from_option id JNull (dict_get hit (ty ++ "-flg"))));
        simpl in *.
      * unfold bind at 1. simpl. rewrite Htried. simpl. exact Hrun.
      * exact Hrun.
Qed.

(** What a walk says about the types it fetched: they are the first of
    the candidates, all of them when nothing was found, and up to the
    winner otherwise. *)
Lemma walked_candidates (self : t) (hit : list (string * json))
    (priority : list string) (w : world) (visited : list string)
    (r : option (string * json)) (w' : world) :
  walked self hit priority w visited r w' ->
  match r with
  | None => visited = candidates self hit priority
  | Some (ty, resources) =>
      exists before later,
        visited = before ++ [ty] /\
        candidates self hit priority = visited ++ later /\
        nonempty_bundle resources ty = true
  end.
Proof.
  unfold candidates.
  induction 1 as [w|ty rest w visited r w' Htried Hwalk IH
                  |ty rest w resources w1 Htried Hfetch Hbundle
                  |ty rest w resources w1 visited r w' Htried Hfetch Hbundle
                     Hwalk IH]; simpl.
  - reflexivity.
  - rewrite Htried. exact IH.
  - rewrite Htried. exists [], (List.filter (tried self hit) rest).
    repeat split; assumption.
  - rewrite Htried. destruct r as [[ty' resources']|].
    + destruct IH as (before & later & -> & Hcand & Hne).
      exists (ty :: before), later. rewrite Hcand.
      repeat split; assumption.
    + rewrite IH. reflexivity.
Qed.


(** What the [except] clause of [get_resources_by_priority] makes of the
    end of the loop: the error reply when the bundle has no length. *)
Lemma loop_end_handled (title : json) (channel userid : string) (self : t)
    (r : option (string * json)) (w' : world) (m : M t unit) (s : t * world) :
  m s = loop_end title channel userid self r w' ->
  try_except m
    (fun e => post_message channel userid "错误" "获取资源时出现错误: ") s =
  walk_end title channel userid self r w'.
Proof.
  intros Hrun. unfold try_except. rewrite Hrun.
  destruct r as [[ty resources]|]; simpl; [|reflexivity].
  destruct (has_len (bundle_of resources ty)); [|reflexivity].
  destruct (format_and_send_effect resources ty title channel userid self
              (emit (resources_found channel userid) w'))
    as (self' & w'' & Hsend & _).
  rewrite Hsend. reflexivity.
Qed.

(** C1, amended: for a hit that has a tmdbid, with the client configured
    and an API that answers with objects, [get_resources_by_priority]
    walks the configured order: a type whose availability flag is falsy or
    that is disabled is passed over, any other type is fetched (with the
    lookup of the hit's media type), the first non-empty bundle ends the
    walk, and when the order is exhausted the reply titled 切换搜索 is
    followed by the fallback search with the hit's title.  A winning
    bundle that has a length (a list, as the API sends it) is announced
    with the reply 获取成功 and handed to [_format_and_send_resources];
    one without a length (a number) is answered with the error reply
    alone.  The lookups made are those of the fetched types, in order; the
    fetched types are the candidates up to the winner, or all candidates
    when nothing is found. *)
Theorem priority_walk_order (hit : list (string * json))
    (channel userid : string) (self : t) (c : NullbrApiClient.t)
    (w : world) :
  truthy (tmdbid_of hit) = true ->
  _client self = Some c ->
  answers_are_objects w ->
  exists visited r w',
    walked self hit (_resource_priority self) w visited r w' /\
    get_resources_by_priority (JDict hit) channel userid (self, w) =
      walk_end (title_of hit) channel userid self r w' /\
    calls (trace w') =
      calls (trace w) ++ concat (map (fetch_call hit) visited) /\
    match r with
    | None => visited = candidates self hit (_resource_priority self)
    | Some (ty, resources) =>
        exists before later,
          visited = before ++ [ty] /\
          candidates self hit (_resource_priority self) = visited ++ later /\
          nonempty_bundle resources ty = true
    end.
Proof.
  intros Htmdbid Hclient Hobjects.
  destruct (priority_walk_walked hit channel userid self c
              (_resource_priority self) Hclient w Hobjects)
    as (visited & r & w' & Hwalk & Hrun & Hcalls).
  exists visited, r, w'.
  split; [exact Hwalk|]. split; [|split; [exact Hcalls|]].
  - apply loop_end_handled.
    unfold bind at 1. simpl. unfold bind at 1. simpl.
    unfold bind at 1. simpl.
    unfold tmdbid_of in Htmdbid. rewrite Htmdbid. simpl.
    unfold bind at 1. simpl.
    unfold title_of, media_type_of, tmdbid_of in Hrun.
    exact Hrun.
  - exact (walked_candidates self hit (_resource_priority self) w visited r
             w' Hwalk).
Qed.

Lemma world_second_wins_objects : answers_are_objects world_second_wins.
Proof.
  intros n resp v Hn Hbody.
  destruct n as [|[|n]]; simpl in Hn.
  - injection Hn as <-. injection Hbody as <-. right. eauto.
  - injection Hn as <-. injection Hbody as <-. right. eauto.
  - destruct n; discriminate Hn.
Qed.

Lemma world_counting_objects : answers_are_objects world_counting.
Proof.
  intros n resp v Hn Hbody.
  destruct n as [|n]; simpl in Hn.
  - injection Hn as <-. injection Hbody as <-. right. eauto.
  - destruct n; discriminate Hn.
Qed.

(** The order is magnet, 115, ed2k, video.  When the lookup of magnet is
    answered with an empty object and the one of 115 with three entries,
    the walk ends at 115; when the lookup of magnet is answered with a
    count in the place of the entries, the one reply is the error
    reply. *)
Lemma priority_walk_order_witness :
  truthy (tmdbid_of matrix_fields) = true /\
  _client plugin0 = Some nullbr_keyed /\
  (exists visited r w',
     walked plugin0 matrix_fields (_resource_priority plugin0)
       world_counting visited r w' /\
     get_resources_by_priority (JDict matrix_fields) "wechat" "u1"
       (plugin0, world_counting) =
       walk_end (title_of matrix_fields) "wechat" "u1" plugin0 r w') /\
  trace (snd (snd (get_resources_by_priority (JDict matrix_fields) "wechat"
                     "u1" (plugin0, world_counting)))) =
    [Called (CallMovie (JNum 603) "magnet");
     Http (NullbrGet (UrlMovie (JNum 603) "magnet") (Some "key") true
             Timeout5);
     walk_error "wechat" "u1"] /\
  exists visited r w',
    walked plugin0 matrix_fields (_resource_priority plugin0)
      world_second_wins visited r w' /\
    get_resources_by_priority (JDict matrix_fields) "wechat" "u1"
      (plugin0, world_second_wins) =
      walk_end (title_of matrix_fields) "wechat" "u1" plugin0 r w' /\
    calls (trace w') =
      calls (trace world_second_wins) ++
      concat (map (fetch_call matrix_fields) visited) /\
    match r with
    | None => visited = candidates plugin0 matrix_fields
                          (_resource_priority plugin0)
    | Some (ty, resources) =>
        exists before later,
          visited = before ++ [ty] /\
          candidates plugin0 matrix_fields (_resource_priority plugin0) =
            visited ++ later /\
          nonempty_bundle resources ty = true
    end.
Proof.
  split; [reflexivity|]. split; [reflexivity|].
  split; [|split; [reflexivity|]].
  - destruct (priority_walk_order matrix_fields "wechat" "u1" plugin0
                nullbr_keyed world_counting eq_refl eq_refl
                world_counting_objects)
      as (visited & r & w' & Hwalk & Hrun & _).
    exists visited, r, w'. split; assumption.
  - apply (priority_walk_order matrix_fields "wechat" "u1" plugin0
             nullbr_keyed world_second_wins).
    + reflexivity.
    + reflexivity.
    + exact world_second_wins_objects.
Defined.

(** A hit without tmdbid whose flags are set for enabled types: two
    types are candidates, yet no lookup is made and the fallback search is
    not invoked; the one effect is the error reply. *)
Lemma walk_stops_without_tmdbid :
  candidates plugin0 no_tmdbid_fields (_resource_priority plugin0) =
    ["magnet"; "115"] /\
  let out := get_resources_by_priority (JDict no_tmdbid_fields) "wechat" "u1"
               (plugin0, world_second_wins) in
  trace (snd (snd out)) = [missing_tmdbid "wechat" "u1"] /\
  calls (trace (snd (snd out))) = [] /\
  fell_back (trace (snd (snd out))) = false.
Proof. vm_compute. repeat split. Qed.

End PriorityWalk.

(** * What a message may change *)

(** ** The transfer client keeps its account *)

Section Account.
Import CloudSyncMediaClient.

Lemma same_account_refl (c : t) : same_account c c.
Proof. repeat split. Qed.

Lemma same_account_trans (c1 c2 c3 : t) :
  same_account c1 c2 -> same_account c2 c3 -> same_account c1 c3.
Proof.
  intros (H1 & H2 & H3) (H4 & H5 & H6). repeat split; congruence.
Qed.

Lemma ensure_valid_token_account (c : t) (w : world) :
  same_account c (fst (snd (_ensure_valid_token (c, w)))).
Proof.
  destruct (_ensure_valid_token (c, w)) as [r [c' w']] eqn:Hrun.
  destruct (ensure_valid_token_cases _ _ _ _ _ Hrun) as [Hfresh Hstale].
  simpl. destruct (stale c (time_src w (ticks w))).
  - destruct (Hstale eq_refl) as (_ & [(tok & _ & ->)|(e & _ & ->)] & _);
      repeat split.
  - destruct (Hfresh eq_refl) as (_ & -> & _). repeat split.
Qed.

Lemma ensure_then_post_account (url : json) (c : t) (w : world) :
  same_account c (fst (snd ((_ensure_valid_token ;; post_share url) (c, w)))).
Proof.
  unfold bind.
  pose proof (ensure_valid_token_account c w) as Hens.
  destruct (_ensure_valid_token (c, w)) as [[[]|e] [c1 w1]]; simpl in *;
    [|exact Hens].
  rewrite post_share_effect. exact Hens.
Qed.

(** Whatever [add_share_down] ends in, the client is one of the same
    account. *)
Lemma add_share_down_account (url : json) (c : t) (w : world) :
  same_account c (fst (snd (add_share_down url (c, w)))).
Proof.
  unfold add_share_down.
  destruct (negb (truthy url)); [apply same_account_refl|].
  unfold try_except.
  pose proof (ensure_then_post_account url c w) as Hfirst.
  destruct ((_ensure_valid_token ;; post_share url) (c, w))
    as [[v|e] [c1 w1]]; simpl in *; [exact Hfirst|].
  destruct e as [st| | | | | | | | | |]; try exact Hfirst.
  destruct (st =? 401); [|exact Hfirst].
  unfold bind at 1. unfold modify_self at 1.
  apply (same_account_trans c (set_token JNull c1)).
  - destruct Hfirst as (H1 & H2 & H3). repeat split; assumption.
  - apply ensure_then_post_account.
Qed.

End Account.

(** ** Properties kept by the messages of one user *)

Section UserScope.
Import NullbrSearch.

Context (P : t -> Prop) (userid : string).
Hypothesis P_cms :
  forall c c' self,
    _cms_client self = Some c -> same_account c c' ->
    P self -> P (set_cms_client (Some c') self).
Hypothesis P_search :
  forall e self,
    (length (results e) <= 10)%nat ->
    P self ->
    P (set_search_cache (<[userid := e]> (_user_search_cache self)) self).
Hypothesis P_resource :
  forall e self,
    Forall has_url (resources e) -> (length (resources e) <= 10)%nat ->
    P self ->
    P (set_resource_cache (<[userid := e]> (_user_resource_cache self)) self).

Lemma scoped_format (resources : json) (rt : string) (title : json)
    (channel : string) :
  keeps P (_format_and_send_resources resources rt title channel userid).
Proof.
  intros self w HP.
  destruct (format_and_send_effect resources rt title channel userid self w)
    as (self' & w' & Hrun & [->|(items & -> & Hurls & _ & _ & _ & Hlen)]);
    rewrite Hrun; simpl; [exact HP|].
  apply P_resource; assumption.
Qed.

Lemma scoped_add_share_down (url : json) :
  keeps P (with_cms_client (CloudSyncMediaClient.add_share_down url)).
Proof.
  intros self w HP. unfold with_cms_client. simpl.
  destruct (_cms_client self) as [c|] eqn:Hc; [|exact HP].
  pose proof (add_share_down_account url c w) as Hacc.
  destruct (CloudSyncMediaClient.add_share_down url (c, w)) as [r [c' w']].
  simpl in *. apply (P_cms c c'); assumption.
Qed.

Lemma scoped_priority_walk (selected title media_type tmdbid : json)
    (channel : string) (priority : list string) :
  keeps P (priority_walk selected title media_type tmdbid channel userid
             priority).
Proof.
  induction priority as [|ty rest IH]; simpl.
  - repeat keeps_step.
  - keeps_step; [keeps_step|]. destruct (negb (truthy a)); [exact IH|].
    keeps_step; [keeps_step|]. destruct (negb (enable_flag a0 ty)); [exact IH|].
    keeps_step; [apply keeps_fetch_resources|].
    keeps_step; [repeat keeps_step|].
    destruct a2; [|exact IH].
    do 3 (keeps_step; [keeps_step|]). apply scoped_format.
Qed.

Lemma scoped_get_resources_by_priority (selected : json) (channel : string) :
  keeps P (get_resources_by_priority selected channel userid).
Proof.
  unfold get_resources_by_priority.
  keeps_step; [|keeps_step].
  do 3 (keeps_step; [keeps_step|]).
  destruct (negb (truthy a1)); [keeps_step|].
  keeps_step; [keeps_step|]. apply scoped_priority_walk.
Qed.

Ltac scoped_handler :=
  repeat first
    [ apply scoped_get_resources_by_priority
    | apply scoped_format
    | apply keeps_fetch_resources
    | apply keeps_release_year
    | apply scoped_add_share_down
    | keeps_step ].

Lemma scoped_handle_resource_selection (number : Z) (channel : string) :
  keeps P (handle_resource_selection number channel userid).
Proof.
  unfold handle_resource_selection, reply_to_selection. scoped_handler.
Qed.

Lemma scoped_handle_get_resources (number : Z) (rt channel : string) :
  keeps P (handle_get_resources number rt channel userid).
Proof.
  unfold handle_get_resources, resources_of_selection. scoped_handler.
Qed.

Lemma scoped_handle_resource_transfer (number : Z) (channel : string) :
  keeps P (handle_resource_transfer number channel userid).
Proof.
  unfold handle_resource_transfer, transfer_selected. scoped_handler.
Qed.

Lemma scoped_format_hits (items : list json) : keeps P (format_hits items).
Proof.
  induction items as [|item rest IH]; simpl.
  - keeps_step.
  - keeps_step; [|exact IH]. unfold format_hit. scoped_handler.
Qed.

Lemma py_slice_length {X} (n : nat) (v : json) (s s' : X * world)
    (l : list json) :
  py_slice n v s = (Ok l, s') -> (length l <= n)%nat.
Proof.
  destruct v; simpl; unfold ret, raise; intros [= <- _];
    rewrite length_take; lia.
Qed.

Lemma scoped_search_and_reply (kw channel : string) :
  keeps P (search_and_reply kw channel userid).
Proof.
  unfold search_and_reply.
  apply keeps_try_except; [|intros e; keeps_step].
  apply keeps_bind; [keeps_step|intros result].
  apply keeps_bind; [repeat keeps_step|intros none].
  destruct none; [repeat keeps_step|].
  apply keeps_bind; [keeps_step|intros all_items].
  intros self w HP. unfold bind at 1.
  destruct (py_slice 10 all_items (self, w)) as [[items|e] [self' w']]
    eqn:Hslice.
  - pose proof (py_slice_length _ _ _ _ _ Hslice) as Hlen.
    assert (self' = self) as ->
      by (revert Hslice; destruct all_items; simpl; unfold ret, raise;
          congruence).
    clear Hslice. revert self w' HP.
    change (keeps P
              (now <- time_time ;;
               modify_self (fun self =>
                 set_search_cache
                   (<[userid := {| results := items; keyword := kw;
                                   search_timestamp := now |}]>
                      (_user_search_cache self)) self) ;;
               format_hits items ;;
               post_message channel userid "Nullbr搜索结果" "🔍 找到「")).
    apply keeps_bind; [keeps_step|intros now].
    apply keeps_bind.
    + apply keeps_modify. intros self HP. apply P_search; [exact Hlen|exact HP].
    + intros _. apply keeps_bind; [apply scoped_format_hits|intros _].
      keeps_step.
  - assert (self' = self) as ->
      by (revert Hslice; destruct all_items; simpl; unfold ret, raise;
          congruence).
    exact HP.
Qed.

(** A message of the user keeps the property, whatever it says. *)
Lemma scoped_talk (event : message) :
  NullbrSearch.userid event = userid -> keeps P (talk event).
Proof.
  intros Hu. unfold talk. rewrite Hu.
  repeat first
    [ apply scoped_handle_get_resources
    | apply scoped_handle_resource_transfer
    | apply scoped_handle_resource_selection
    | apply scoped_search_and_reply
    | apply keeps_transfer_requested
    | keeps_step ].
Qed.

End UserScope.

(** ** What [talk] leaves alone *)

Section TalkFrame.
Import NullbrSearch.

(** X1: a message of one user leaves the entries of every other user in both
    caches as they are, whatever the message is and however the network
    answers. *)
Theorem talk_leaves_other_users (event : message) (other : string)
    (self : t) (w : world) :
  other <> userid event ->
  let self' := fst (snd (talk event (self, w))) in
  _user_search_cache self' !! other = _user_search_cache self !! other /\
  _user_resource_cache self' !! other = _user_resource_cache self !! other.
Proof.
  intros Hother.
  apply (scoped_talk
           (fun s => _user_search_cache s !! other =
                       _user_search_cache self !! other /\
                     _user_resource_cache s !! other =
                       _user_resource_cache self !! other)
           (userid event)).
  - intros c c' s _ _ H. exact H.
  - intros e s _ [Hs Hr]. simpl. split; [|exact Hr].
    rewrite lookup_insert_ne; [exact Hs|congruence].
  - intros e s _ _ [Hs Hr]. simpl. split; [exact Hs|].
    rewrite lookup_insert_ne; [exact Hr|congruence].
  - reflexivity.
  - split; reflexivity.
Qed.

Lemma talk_leaves_other_users_witness :
  let self := with_search_entry "u2" listed_at_1000 plugin0 in
  let self' := fst (snd (talk (message_from "u1" "Matrix?")
                           (self, world_second_wins))) in
  "u2" <> "u1" /\
  _user_search_cache self' !! "u2" = Some listed_at_1000 /\
  _user_resource_cache self' !! "u2" = None.
Proof.
  intros self self'.
  assert (Hne : "u2" <> userid (message_from "u1" "Matrix?"))
    by discriminate.
  split; [exact Hne|].
  destruct (talk_leaves_other_users (message_from "u1" "Matrix?") "u2" self
              world_second_wins Hne) as [Hs Hr].
  split.
  - etransitivity; [exact Hs|]. reflexivity.
  - etransitivity; [exact Hr|]. reflexivity.
Defined.

(** X2: no message changes the configuration of the plugin: the switch, the
    API key, the priority order, the four enable flags, the search client
    and the transfer switch stay as they are, and the transfer client, if
    there is one, stays there with its address, user name and password
    (only its token may be renewed). *)
Theorem talk_keeps_settings (event : message) (self : t) (w : world) :
  let self' := fst (snd (talk event (self, w))) in
  settings_of self' = settings_of self /\
  cms_account self' = cms_account self.
Proof.
  apply (scoped_talk
           (fun s => settings_of s = settings_of self /\
                     cms_account s = cms_account self)
           (userid event)).
  - intros c c' s Hc (H1 & H2 & H3) [Hset Hacc]. split; [exact Hset|].
    rewrite <- Hacc. unfold cms_account. simpl. rewrite Hc, H1, H2, H3.
    reflexivity.
  - intros e s _ H. exact H.
  - intros e s _ _ H. exact H.
  - reflexivity.
  - split; reflexivity.
Qed.

(** X3: the search cache never lists more than 10 hits for a user: if that
    holds before a message, it holds after it, also when the message is a
    search that is answered with more than 10 hits. *)
Theorem talk_keeps_search_cache_ok (event : message) (self : t) (w : world) :
  search_cache_ok self ->
  search_cache_ok (fst (snd (talk event (self, w)))).
Proof.
  apply (scoped_talk search_cache_ok (userid event)).
  - intros c c' s _ _ H. exact H.
  - intros e s Hlen H u e'. simpl. rewrite lookup_insert.
    destruct (decide (userid event = u)) as [_|Hne].
    + intros [= <-]. exact Hlen.
    + apply H.
  - intros e s _ _ H. exact H.
  - reflexivity.
Qed.

Lemma listed_search_cache_ok :
  search_cache_ok (with_search_entry "u1" listed_at_1000 plugin0).
Proof.
  intros u e. simpl. rewrite lookup_insert.
  destruct (decide ("u1" = u)) as [_|_].
  - intros [= <-]. simpl. lia.
  - rewrite lookup_empty. discriminate.
Qed.

(** The user has an entry of two hits; the search is answered with twelve
    hits, and the entry that replaces it lists the first ten of them. *)
Lemma talk_keeps_search_cache_ok_witness :
  let self := with_search_entry "u1" listed_at_1000 plugin0 in
  let self' := fst (snd (talk (message_from "u1" "Matrix?")
                           (self, world_twelve))) in
  search_cache_ok self /\
  search_cache_ok self' /\
  _user_search_cache self' !! "u1" = Some (listed twelve_hits "Matrix" 1000) /\
  length twelve_hits = 12%nat /\
  length (results (listed twelve_hits "Matrix" 1000)) = 10%nat.
Proof.
  intros self self'.
  split; [exact listed_search_cache_ok|].
  split; [|split; [|split; reflexivity]].
  - apply (talk_keeps_search_cache_ok (message_from "u1" "Matrix?") self
             world_twelve).
    exact listed_search_cache_ok.
  - apply lookup_insert_eq.
Defined.

End TalkFrame.

(** ** What [talk] ends in *)

Section TalkGuards.
Import NullbrSearch.

Lemma try_except_post (m : M t unit) (channel userid title text : string)
    (s : t * world) :
  fst (try_except m (fun e => post_message channel userid title text) s) =
    Ok tt.
Proof.
  unfold try_except. destruct (m s) as [[[]|e] s']; reflexivity.
Qed.

Lemma int_raises (u : unicode) (s : string) (e : exn) :
  int u s = Raise e -> e = ValueError.
Proof.
  unfold int.
  destruct (int_max_str_digits <? _); [congruence|].
  destruct (code_points (bytes s)); [congruence|].
  destruct (int_of_digits u _ 0); congruence.
Qed.

(** [talk] up to the two calls of [int], for a message that it goes on to
    classify. *)
Lemma talk_heard (self : t) (w : world) (event : message) (txt : string) :
  heard self event txt ->
  talk event (self, w) =
    match match_resource_request (unicodedata w) (clean txt) with
    | Some (number_text, resource_type) =>
        (number <- lift_result (int (unicodedata w) number_text) ;;
         handle_get_resources number resource_type
           (channel event) (userid event)) (self, w)
    | None =>
        if isdigit (unicodedata w) (clean txt) then
          (number <- lift_result (int (unicodedata w) (clean txt)) ;;
           transfer <- transfer_requested number (userid event) ;;
           if transfer : bool
           then handle_resource_transfer number (channel event) (userid event)
           else handle_resource_selection number (channel event)
                  (userid event)) (self, w)
        else if ends_with_question txt then
          if negb (String.eqb (clean txt) "")
          then search_and_reply (clean txt) (channel event) (userid event)
                 (self, w)
          else (Ok tt, (self, w))
        else (Ok tt, (self, w))
    end.
Proof.
  intros (Hon & Hclient & Htext & Hne & Hsource).
  unfold talk. unfold bind at 1. unfold get_self. simpl.
  rewrite Hon. rewrite (bool_decide_eq_true_2 _ Hclient). simpl.
  rewrite Htext.
  destruct (String.eqb_spec txt "") as [->|_]; [congruence|].
  rewrite (bool_decide_eq_false_2 _ Hsource).
  unfold bind at 1. unfold unicode_db. simpl.
  destruct (match_resource_request (unicodedata w) (clean txt))
    as [[digits rt]|]; [reflexivity|].
  destruct (isdigit (unicodedata w) (clean txt)); [reflexivity|].
  destruct (ends_with_question txt); [|reflexivity].
  destruct (negb (String.eqb (clean txt) "")); reflexivity.
Qed.

(** A message that [talk] passes over or goes on to classify. *)
Lemma heard_or_not (self : t) (w : world) (event : message) :
  talk event (self, w) = (Ok tt, (self, w)) \/
  exists txt, heard self event txt.
Proof.
  unfold talk. unfold bind at 1. unfold get_self. simpl.
  destruct (_enabled self) eqn:Hon; simpl; [|left; reflexivity].
  destruct (bool_decide (is_Some (_client self))) eqn:Hclient; simpl;
    [|left; reflexivity].
  destruct (text event) as [txt|] eqn:Htext; [|left; reflexivity].
  destruct (String.eqb_spec txt "") as [->|Hne]; [left; reflexivity|].
  destruct (bool_decide (source event = Some "nullbr_fallback")) eqn:Hsource;
    [left; reflexivity|].
  right. exists txt. repeat split; try assumption.
  - apply bool_decide_eq_true in Hclient. exact Hclient.
  - apply bool_decide_eq_false in Hsource. exact Hsource.
Qed.

(** After the number is read every handler answers what is raised inside
    it with a reply. *)
Lemma dispatch_returns (number : Z) (channel userid : string) (self : t)
    (w : world) :
  fst ((transfer <- transfer_requested number userid ;;
        if transfer : bool
        then handle_resource_transfer number channel userid
        else handle_resource_selection number channel userid) (self, w)) =
    Ok tt.
Proof.
  unfold bind. rewrite talk_reads_resource_cache.
  destruct (_cms_enabled self && bool_decide (is_Some (_cms_client self)));
    [|apply try_except_post].
  destruct (_user_resource_cache self !! userid) as [cache|];
    [|apply try_except_post].
  destruct ((time_src w (ticks w) - timestamp cache <? 3600)
            && (1 <=? number)
            && (number <=? Z.of_nat (length (resources cache))));
    apply try_except_post.
Qed.

(** X4: the one exception that leaves [talk] is the [ValueError] of
    [int]: when the text that [talk] hands to [int] (the number of a
    request such as [3.115], or a text that [str.isdigit] accepts) is
    refused, because it has more than 4300 digits or a digit that is no
    decimal digit, the exception leaves [talk] before anything is done;
    in every other case [talk] returns, whatever the message, the state of
    the plugin, the clock and the answers of the network.  Each handler
    answers what is raised inside it with a reply; [post_message] and the
    fallback search of the host are events of the trace here, and are
    taken not to raise. *)
Theorem talk_raises_only_from_int (event : message) (self : t) (w : world) :
  (forall txt digits e,
     heard self event txt ->
     number_text (unicodedata w) (clean txt) = Some digits ->
     int (unicodedata w) digits = Raise e ->
     talk event (self, w) = (Raise ValueError, (self, w))) /\
  (fst (talk event (self, w)) = Ok tt \/
   exists txt digits,
     heard self event txt /\
     number_text (unicodedata w) (clean txt) = Some digits /\
     int (unicodedata w) digits = Raise ValueError) /\
  (forall digits,
     4300 < Z.of_nat (length (code_points (bytes digits))) ->
     int (unicodedata w) digits = Raise ValueError).
Proof.
  split; [|split].
  3: { intros digits Hlong. unfold int, int_max_str_digits.
       apply Z.ltb_lt in Hlong. rewrite Hlong. reflexivity. }
  - intros txt digits e Hheard Htext Hint.
    pose proof (int_raises _ _ _ Hint) as ->.
    rewrite (talk_heard self w event txt Hheard).
    unfold number_text in Htext.
    destruct (match_resource_request (unicodedata w) (clean txt))
      as [[digits' rt]|].
    + injection Htext as ->. unfold bind, lift_result. rewrite Hint.
      reflexivity.
    + destruct (isdigit (unicodedata w) (clean txt)); [|discriminate].
      injection Htext as ->. unfold bind at 1. unfold lift_result.
      rewrite Hint. reflexivity.
  - destruct (heard_or_not self w event) as [Hskip|(txt & Hheard)];
      [left; rewrite Hskip; reflexivity|].
    rewrite (talk_heard self w event txt Hheard).
    destruct (match_resource_request (unicodedata w) (clean txt))
      as [[digits rt]|] eqn:Hmatch.
    + destruct (int (unicodedata w) digits) as [number|e] eqn:Hint.
      * left. unfold bind, lift_result. apply try_except_post.
      * right. exists txt, digits.
        pose proof (int_raises _ _ _ Hint) as ->.
        unfold number_text. rewrite Hmatch.
        split; [exact Hheard|split; [reflexivity|exact Hint]].
    + destruct (isdigit (unicodedata w) (clean txt)) eqn:Hdigits.
      * destruct (int (unicodedata w) (clean txt)) as [number|e] eqn:Hint.
        -- left. unfold bind at 1. unfold lift_result.
           apply dispatch_returns.
        -- right. exists txt, (clean txt).
           pose proof (int_raises _ _ _ Hint) as ->.
           unfold number_text. rewrite Hmatch, Hdigits.
           split; [exact Hheard|split; [reflexivity|exact Hint]].
      * left. destruct (ends_with_question txt); [|reflexivity].
        destruct (negb (String.eqb (clean txt) "")); [|reflexivity].
        apply try_except_post.
Qed.

(** A superscript two is a digit for [str.isdigit] and no number for
    [int]: the message leaves [talk] with a [ValueError]. *)
Lemma talk_raises_only_from_int_witness :
  heard plugin0 (message_of "²") "²" /\
  number_text unicode_sample (clean "²") = Some "²" /\
  int unicode_sample "²" = Raise ValueError /\
  talk (message_of "²") (plugin0, world_of 1500 []) =
    (Raise ValueError, (plugin0, world_of 1500 [])).
Proof.
  assert (Hheard : heard plugin0 (message_of "²") "²").
  { repeat split; try reflexivity; try discriminate. eexists. reflexivity. }
  split; [exact Hheard|]. split; [reflexivity|]. split; [reflexivity|].
  destruct (talk_raises_only_from_int (message_of "²") plugin0
              (world_of 1500 [])) as [Hraise _].
  exact (Hraise "²" "²" ValueError Hheard eq_refl eq_refl).
Defined.

Lemma talk_skips (event : message) (self : t) (w : world) :
  _enabled self = false \/ _client self = None \/
  text event = None \/ text event = Some "" \/
  source event = Some "nullbr_fallback" ->
  talk event (self, w) = (Ok tt, (self, w)).
Proof.
  intros H. unfold talk. unfold bind at 1. unfold get_self. simpl.
  destruct (_enabled self) eqn:Hon; simpl.
  2: reflexivity.
  destruct (_client self) as [c|] eqn:Hc; simpl.
  2: reflexivity.
  destruct (text event) as [txt|] eqn:Htxt; [|reflexivity].
  destruct (String.eqb_spec txt "") as [->|Hne]; [reflexivity|].
  destruct H as [H|[H|[H|[H|H]]]]; try discriminate.
  - congruence.
  - rewrite bool_decide_eq_true_2 by exact H. reflexivity.
Qed.

(** X5: the messages that [talk] passes over: with the plugin switched off or
    without its search client, without text, or marked as coming from the
    plugin's own fallback search ([source = nullbr_fallback]), nothing
    happens: no reply, no request, no read of the clock, no change of the
    caches. *)
Theorem talk_passes_over (event : message) (self : t) (w : world) :
  _enabled self = false \/ _client self = None \/
  text event = None \/ text event = Some "" \/
  source event = Some "nullbr_fallback" ->
  talk event (self, w) = (Ok tt, (self, w)).
Proof. apply talk_skips. Qed.

Lemma talk_passes_over_witness :
  talk {| text := Some "Matrix?"; userid := "u1"; channel := "wechat";
          source := Some "nullbr_fallback" |} (plugin0, world_second_wins) =
    (Ok tt, (plugin0, world_second_wins)).
Proof.
  apply talk_passes_over. right. right. right. right. reflexivity.
Defined.

End TalkGuards.

(** ** Searching *)

Section Searching.
Import NullbrSearch.

Lemma with_client_run {A} (m : M NullbrApiClient.t A) (self : t)
    (c c' : NullbrApiClient.t) (w w' : world) (r : result A) :
  _client self = Some c ->
  m (c, w) = (r, (c', w')) ->
  with_client m (self, w) = (r, (self, w')).
Proof.
  intros Hc Hm. unfold with_client. simpl. rewrite Hc, Hm. reflexivity.
Qed.

(** X6: a search that finds nothing: the reply titled 切换搜索, then the
    fallback search with the keyword; the plugin is as it was, so an
    entry that the user had in the search cache is still there. *)
Theorem search_without_hits (kw channel userid : string) (self : t)
    (c : NullbrApiClient.t) (w w1 : world) (result : json) :
  _client self = Some c ->
  NullbrApiClient.search kw 1 (c, w) = (Ok result, (c, w1)) ->
  no_hits result ->
  search_and_reply kw channel userid (self, w) =
    (Ok tt,
     (self,
      emit (FallbackSearch (JStr kw))
        (emit (switching_search channel userid) w1))).
Proof.
  intros Hc Hsearch Hnone.
  unfold search_and_reply, try_except. unfold bind at 1.
  rewrite (with_client_run _ self c c w w1 (Ok result) Hc Hsearch).
  destruct Hnone as [Hfalsy|(d & -> & Hitems)].
  - rewrite Hfalsy. reflexivity.
  - destruct (truthy (JDict d)); [|reflexivity].
    simpl. unfold bind at 1. unfold bind at 1. simpl. rewrite Hitems.
    reflexivity.
Qed.

Lemma search_without_hits_witness :
  let self := with_search_entry "u1" listed_at_1000 plugin0 in
  fst (snd (search_and_reply "Nobody" "wechat" "u1"
              (self, world_answering 200))) = self /\
  fell_back
    (trace (snd (snd (search_and_reply "Nobody" "wechat" "u1"
                        (self, world_answering 200))))) = true.
Proof.
  intros self.
  rewrite (search_without_hits "Nobody" "wechat" "u1" self nullbr_keyed
             (world_answering 200)
             (snd (snd (NullbrApiClient.search "Nobody" 1
                          (nullbr_keyed, world_answering 200))))
             (JDict [])).
  - split; reflexivity.
  - reflexivity.
  - reflexivity.
  - right. exists []. split; reflexivity.
Defined.


Lemma py_slice_state {X} (n : nat) (v : json) (s : X * world) :
  snd (py_slice n v s) = s.
Proof. destruct v; reflexivity. Qed.

Lemma release_year_state (item : json) (s : t * world) :
  snd (release_year item s) = s.
Proof.
  unfold release_year, bind.
  destruct item as [| | | | |d]; try reflexivity. simpl.
  destruct (truthy _ || truthy _); [|reflexivity].
  destruct (from_option id _ (dict_get d "release_date")); reflexivity.
Qed.

Lemma format_hit_state (item : json) (s : t * world) :
  snd (format_hit item s) = s.
Proof.
  unfold format_hit. unfold bind at 1.
  destruct item as [| | | | |d]; try reflexivity. simpl.
  unfold bind at 1. simpl. apply release_year_state.
Qed.

Lemma format_hits_state (items : list json) (s : t * world) :
  snd (format_hits items s) = s.
Proof.
  induction items as [|item rest IH]; [reflexivity|].
  simpl. unfold bind.
  pose proof (format_hit_state item s) as H.
  destruct (format_hit item s) as [[[]|e] s']; simpl in H; subst s';
    [apply IH|reflexivity].
Qed.

Lemma format_hit_showable (item : json) (s : t * world) :
  showable item -> fst (format_hit item s) = Ok tt.
Proof.
  destruct item as [| | | | |d]; try contradiction.
  intros [Hrelease Hfirst].
  unfold format_hit, release_year, bind, date_ok in *. simpl.
  destruct (dict_get d "release_date") as [[| | |x| |]|];
    try contradiction;
    destruct (dict_get d "first_air_date") as [[| | |y| |]|];
    try contradiction; simpl;
    repeat match goal with
           | |- context [if ?b then _ else _] => destruct b
           end; reflexivity.
Qed.

Lemma format_hits_showable (items : list json) (s : t * world) :
  Forall showable items -> fst (format_hits items s) = Ok tt.
Proof.
  induction 1 as [|item rest Hitem Hrest IH]; [reflexivity|].
  simpl. unfold bind.
  pose proof (format_hit_state item s) as Hs.
  pose proof (format_hit_showable item s Hitem) as Hr.
  destruct (format_hit item s) as [r s']; simpl in *. subst. exact IH.
Qed.

(** What a search that found hits does: the first ten of them are stored
    for the user with the keyword and the reading of the clock, over what
    the user had, before the listing is made; the listing is the reply
    when every stored hit can be shown, and the entry is stored also when
    the reply is the error. *)
Lemma search_with_hits (kw channel userid : string) (self : t)
    (c : NullbrApiClient.t) (w w1 : world) (d : list (string * json))
    (items : list json) :
  _client self = Some c ->
  NullbrApiClient.search kw 1 (c, w) = (Ok (JDict d), (c, w1)) ->
  dict_get d "items" = Some (JList items) -> items <> [] ->
  exists reply,
    search_and_reply kw channel userid (self, w) =
      (Ok tt,
       (with_search_entry userid (listed items kw (time_src w1 (ticks w1)))
          self,
        emit reply (tick w1))) /\
    (reply = search_listing channel userid \/
     reply = search_failed channel userid) /\
    (Forall showable (take 10 items) ->
     reply = search_listing channel userid).
Proof.
  intros Hc Hsearch Hitems Hne.
  unfold search_and_reply, try_except. unfold bind at 1.
  rewrite (with_client_run _ self c c w w1 (Ok (JDict d)) Hc Hsearch).
  assert (Htruthy : truthy (JDict d) = true).
  { destruct d; [discriminate Hitems|reflexivity]. }
  rewrite Htruthy. simpl. unfold bind at 1. unfold bind at 1. simpl.
  rewrite Hitems. simpl.
  assert (Hl : match items with [] => false | _ :: _ => true end = true)
    by (destruct items; [contradiction|reflexivity]).
  rewrite Hl. simpl.
  unfold bind at 1. simpl. unfold bind at 1. simpl.
  unfold bind at 1. simpl. unfold bind at 1. simpl.
  unfold bind at 1.
  set (self1 := set_search_cache _ self).
  pose proof (format_hits_state (take 10 items) (self1, tick w1)) as Hstate.
  pose proof (format_hits_showable (take 10 items) (self1, tick w1)) as Hok.
  destruct (format_hits (take 10 items) (self1, tick w1)) as [[[]|e] s'];
    simpl in Hstate, Hok; subst s'.
  - exists (search_listing channel userid). split; [reflexivity|].
    split; [left; reflexivity|]. reflexivity.
  - exists (search_failed channel userid). split; [reflexivity|].
    split; [right; reflexivity|]. intros H. specialize (Hok H). discriminate.
Qed.


Lemma out_of_range_test (number : Z) (n : nat) :
  out_of_range number n ->
  (number <? 1) || (Z.of_nat n <? number) = true.
Proof.
  intros [H|H]; apply orb_true_iff; [left|right]; apply Z.ltb_lt; exact H.
Qed.

Lemma selection_out_of_range (self : t) (w : world) (number : Z)
    (channel userid : string) (cache : search_entry) :
  _user_search_cache self !! userid = Some cache ->
  time_src w (ticks w) - search_timestamp cache <= 3600 ->
  out_of_range number (length (results cache)) ->
  handle_resource_selection number channel userid (self, w) =
    (Ok tt, (self, emit (invalid_number channel userid) (tick w))).
Proof.
  intros Hcache Hlive Hout.
  unfold handle_resource_selection, try_except, bind, get_self, time_time.
  simpl. rewrite Hcache. simpl.
  apply Z.ltb_ge in Hlive. rewrite Hlive.
  rewrite (out_of_range_test _ _ Hout). reflexivity.
Qed.

(** X7: search, then choose: after a search that found hits, the user's
    entry lists the first ten of them, and for an hour (by the clock)
    the number n from 1 to 10 chooses the n-th hit of the answer; a
    number below 1, above 10 or above the number of hits is answered
    with the reply that asks for a valid number, also when the answer
    had more than ten hits. *)
Theorem search_then_select (kw channel userid : string) (self : t)
    (c : NullbrApiClient.t) (w w1 : world) (d : list (string * json))
    (items : list json) :
  _client self = Some c ->
  NullbrApiClient.search kw 1 (c, w) = (Ok (JDict d), (c, w1)) ->
  dict_get d "items" = Some (JList items) -> items <> [] ->
  let self1 := fst (snd (search_and_reply kw channel userid (self, w))) in
  let t1 := time_src w1 (ticks w1) in
  _user_search_cache self1 !! userid = Some (listed items kw t1) /\
  length (results (listed items kw t1)) = (length items `min` 10)%nat /\
  forall w2 number,
    time_src w2 (ticks w2) - t1 <= 3600 ->
    (forall selected,
       1 <= number <= 10 ->
       items !! Z.to_nat (number - 1) = Some selected ->
       handle_resource_selection number channel userid (self1, w2) =
         try_except (reply_to_selection selected channel userid)
           (selection_failed channel userid) (self1, tick w2)) /\
    (number < 1 \/ 10 < number \/ Z.of_nat (length items) < number ->
     handle_resource_selection number channel userid (self1, w2) =
       (Ok tt, (self1, emit (invalid_number channel userid) (tick w2)))).
Proof.
  intros Hc Hsearch Hitems Hne self1 t1.
  destruct (search_with_hits kw channel userid self c w w1 d items
              Hc Hsearch Hitems Hne) as (reply & Hrun & _).
  assert (Hself : self1 = with_search_entry userid (listed items kw t1) self)
    by (unfold self1; rewrite Hrun; reflexivity).
  assert (Hentry : _user_search_cache self1 !! userid =
                   Some (listed items kw t1)).
  { rewrite Hself. simpl. apply lookup_insert_eq. }
  assert (Hlen : length (results (listed items kw t1)) =
                 (length items `min` 10)%nat).
  { simpl. rewrite length_take. lia. }
  split; [exact Hentry|]. split; [exact Hlen|].
  intros w2 number Hlive. split.
  - intros selected Hnumber Hsel.
    pose proof (selection_reads_search_cache self1 w2 number channel userid)
      as Hread.
    simpl in Hread. rewrite Hentry in Hread.
    destruct Hread as [_ Hread].
    apply lookup_lt_Some in Hsel as Hlt.
    apply Hread.
    + exact Hlive.
    + rewrite Hlen. lia.
    + simpl. rewrite lookup_take_lt by lia. exact Hsel.
  - intros Hout.
    apply (selection_out_of_range self1 w2 number channel userid
             (listed items kw t1) Hentry Hlive).
    unfold out_of_range. rewrite Hlen. lia.
Qed.

Lemma world_twelve_search :
  NullbrApiClient.search "Matrix" 1 (nullbr_keyed, world_twelve) =
    (Ok (JDict [("items", JList twelve_hits)]),
     (nullbr_keyed,
      snd (snd (NullbrApiClient.search "Matrix" 1
                  (nullbr_keyed, world_twelve))))).
Proof. reflexivity. Qed.

Lemma search_then_select_witness :
  let self1 := fst (snd (search_and_reply "Matrix" "wechat" "u1"
                           (plugin0, world_twelve))) in
  length (twelve_hits) = 12%nat /\
  (exists e, _user_search_cache self1 !! "u1" = Some e /\
             length (results e) = 10%nat) /\
  handle_resource_selection 11 "wechat" "u1" (self1, world_of 2000 []) =
    (Ok tt,
     (self1, emit (invalid_number "wechat" "u1") (tick (world_of 2000 [])))).
Proof.
  intros self1.
  destruct (search_then_select "Matrix" "wechat" "u1" plugin0 nullbr_keyed
              world_twelve _ [("items", JList twelve_hits)] twelve_hits
              eq_refl world_twelve_search eq_refl)
    as (Hentry & Hlen & Hselect).
  { discriminate. }
  split; [reflexivity|]. split.
  - eexists. split; [exact Hentry|]. exact Hlen.
  - destruct (Hselect (world_of 2000 []) 11) as [_ Hout].
    + simpl. lia.
    + apply Hout. lia.
Defined.

End Searching.

(** ** A request for one type: [handle_get_resources] *)

Section TypeRequest.
Import NullbrSearch.

Lemma fetch_resources_calls (hit : list (string * json)) (ty : string)
    (self : t) (c : NullbrApiClient.t) (w : world) :
  _client self = Some c ->
  exists resources w1,
    fetch_resources (media_type_of hit) (tmdbid_of hit) ty (self, w) =
      (Ok resources, (self, w1)) /\
    calls (trace w1) = calls (trace w) ++ fetch_call hit ty.
Proof.
  intros Hclient. unfold fetch_resources, fetch_call.
  destruct (is_str (media_type_of hit) "movie").
  - destruct (client_lookup_effect Movie (tmdbid_of hit) ty c w)
      as (v & w1 & Hrun & _ & Hcalls & _).
    exists v, w1. split; [|exact Hcalls].
    apply (with_client_run _ self c c w w1 (Ok v) Hclient Hrun).
  - destruct (is_str (media_type_of hit) "tv").
    + destruct (client_lookup_effect Tv (tmdbid_of hit) ty c w)
        as (v & w1 & Hrun & _ & Hcalls & _).
      exists v, w1. split; [|exact Hcalls].
      apply (with_client_run _ self c c w w1 (Ok v) Hclient Hrun).
    + exists JNull, w. rewrite app_nil_r. split; reflexivity.
Qed.

(** X8: a request [n.type] for a hit that has a tmdbid looks the type up
    whether or not the hit flags it as available and whether or not the
    configuration enables it: the lookup of the hit's media type is
    called (none when the media type is neither movie nor tv).  What the
    lookup returns decides the rest: a falsy answer is followed by the
    reply titled 切换搜索 and the fallback search with the hit's title,
    anything else goes to [_format_and_send_resources]. *)
Theorem type_request_ignores_flags (hit : list (string * json))
    (number : Z) (rt channel userid : string) (cache : search_entry)
    (self : t) (c : NullbrApiClient.t) (w : world) :
  key_set (_api_key self) = true ->
  _client self = Some c ->
  _user_search_cache self !! userid = Some cache ->
  time_src w (ticks w) - search_timestamp cache <= 3600 ->
  1 <= number <= Z.of_nat (length (results cache)) ->
  results cache !! Z.to_nat (number - 1) = Some (JDict hit) ->
  truthy (tmdbid_of hit) = true ->
  exists resources w1,
    fetch_resources (media_type_of hit) (tmdbid_of hit) rt
      (self, emit (fetching channel userid) (tick w)) =
      (Ok resources, (self, w1)) /\
    calls (trace w1) = calls (trace w) ++ fetch_call hit rt /\
    handle_get_resources number rt channel userid (self, w) =
      if truthy resources
      then _format_and_send_resources resources rt (title_of hit)
             channel userid (self, w1)
      else (Ok tt,
            (self,
             emit (FallbackSearch (title_of hit))
               (emit (switching_search channel userid) w1))).
Proof.
  intros Hkey Hclient Hcache Hlive Hrange Hsel Htmdbid.
  destruct (fetch_resources_calls hit rt self c
              (emit (fetching channel userid) (tick w)) Hclient)
    as (resources & w1 & Hfetch & Hcalls).
  exists resources, w1. split; [exact Hfetch|]. split.
  - rewrite Hcalls. simpl. rewrite calls_app. simpl. rewrite app_nil_r.
    reflexivity.
  - pose proof (resources_reads_search_cache self w number rt channel userid
                  Hkey) as Hread.
    rewrite Hcache in Hread. destruct Hread as [_ Hread].
    rewrite (Hread Hlive (JDict hit) Hrange Hsel).
    unfold resources_of_selection, try_except.
    unfold bind at 1. simpl. unfold bind at 1. simpl.
    unfold bind at 1. simpl.
    unfold tmdbid_of in Htmdbid. rewrite Htmdbid. simpl.
    unfold bind at 1. simpl. unfold bind at 1.
    unfold title_of, media_type_of, tmdbid_of, fetching in Hfetch.
    rewrite Hfetch.
    destruct (truthy resources); simpl.
    + destruct (format_and_send_effect resources rt
                  (from_option id (JStr "未知标题") (dict_get hit "title"))
                  channel userid self w1) as (self' & w' & Hrun & _).
      unfold title_of. rewrite Hrun. reflexivity.
    + reflexivity.
Qed.

Lemma type_request_ignores_flags_witness :
  tried plugin_no_ed2k matrix_fields "ed2k" = false /\
  calls (trace (snd (snd (handle_get_resources 1 "ed2k" "wechat" "u1"
                            (plugin_no_ed2k, world_of 2000 []))))) =
    [CallMovie (JNum 603) "ed2k"].
Proof.
  split; [reflexivity|].
  destruct (type_request_ignores_flags matrix_fields 1 "ed2k" "wechat" "u1"
              listed_at_1000 plugin_no_ed2k nullbr_keyed (world_of 2000 []))
    as (resources & w1 & Hfetch & Hcalls & Hrun).
  - reflexivity.
  - reflexivity.
  - reflexivity.
  - simpl. lia.
  - simpl. lia.
  - reflexivity.
  - reflexivity.
  - reflexivity.
Defined.

End TypeRequest.

(** ** Transfers *)

Section Transfers.
Import CloudSyncMediaClient.

Lemma post_share_run (url : json) (c : t) (w : world) :
  post_share url (c, w) =
    (share_result (net_src w (sent w)), (c, send (share_request c url) w)).
Proof.
  rewrite (surjective_pairing (post_share url (c, w))).
  rewrite post_share_effect, post_share_result. reflexivity.
Qed.

(** X10: with a URL, once the token is ensured, the answer to the first post
    decides unless it is a 401: the returned object, [HTTPError] for
    another status from 400 to 599, the transport's exception, or
    [JSONDecodeError]; there is one post and no further login. *)
Theorem add_share_down_first_answer (url : json) (c c1 : t) (w w1 : world) :
  truthy url = true ->
  _ensure_valid_token (c, w) = (Ok tt, (c1, w1)) ->
  not_401 (net_src w1 (sent w1)) ->
  let out := add_share_down url (c, w) in
  out = (share_result (net_src w1 (sent w1)),
         (c1, send (share_request c1 url) w1)) /\
  share_posts (trace (snd (snd out))) = S (share_posts (trace w1)).
Proof.
  intros Hurl Hens Hnot out. unfold out.
  rewrite (add_share_down_no_retry url c c1 w w1 Hurl Hens Hnot).
  rewrite post_share_run. split; [reflexivity|].
  simpl. unfold share_posts. rewrite filter_app, length_app.
  rewrite filter_cons, decide_True by reflexivity. simpl. lia.
Qed.

Lemma add_share_down_first_answer_witness :
  add_share_down share_url
    (cms_holding, world_of 1000 [answer 500 JNull]) =
    (Raise (HTTPError 500),
     (cms_holding,
      send (share_request cms_holding share_url)
        (tick (world_of 1000 [answer 500 JNull])))).
Proof.
  destruct (add_share_down_first_answer share_url cms_holding cms_holding
              (world_of 1000 [answer 500 JNull])
              (tick (world_of 1000 [answer 500 JNull])) eq_refl eq_refl)
    as [Hrun _].
  - intros resp [= <-]. simpl. lia.
  - exact Hrun.
Defined.

(** X11: when the token cannot be ensured, because the login fails with
    anything but an [HTTPError] 401, [add_share_down] raises what the
    login raised and the URL is not posted. *)
Theorem add_share_down_login_failure (url : json) (c c1 : t) (w w1 : world)
    (e : exn) :
  truthy url = true ->
  _ensure_valid_token (c, w) = (Raise e, (c1, w1)) ->
  e <> HTTPError 401 ->
  add_share_down url (c, w) = (Raise e, (c, w1)) /\
  w1 = send (login_request c) (tick w) /\
  share_posts (trace w1) = share_posts (trace w).
Proof.
  intros Hurl Hens He.
  destruct (ensure_valid_token_cases _ _ _ _ _ Hens) as [Hfresh Hstale].
  destruct (stale c (time_src w (ticks w))) eqn:Hst.
  2: { destruct (Hfresh eq_refl) as (Hr & _). discriminate. }
  destruct (Hstale eq_refl) as (Hw & [(tok & Hr & _)|(e' & _ & Hc)] & _);
    [discriminate|]. subst c1.
  split; [|split; [exact Hw|]].
  - unfold add_share_down. rewrite Hurl. simpl.
    unfold try_except. unfold bind at 1. rewrite Hens.
    destruct e as [st| | | | | | | | | |]; try reflexivity.
    destruct (Z.eqb_spec st 401) as [->|Hne]; [contradiction|reflexivity].
  - subst w1. simpl. unfold share_posts.
    rewrite filter_app, length_app.
    rewrite filter_cons, decide_False by discriminate. simpl. lia.
Qed.

Lemma add_share_down_login_failure_witness :
  add_share_down share_url (cms_blank, world_of 1000 [answer 500 JNull]) =
    (Raise (HTTPError 500),
     (cms_blank,
      send (login_request cms_blank) (tick (world_of 1000 [answer 500 JNull])))).
Proof.
  destruct (add_share_down_login_failure share_url cms_blank cms_blank
              (world_of 1000 [answer 500 JNull])
              (send (login_request cms_blank)
                 (tick (world_of 1000 [answer 500 JNull])))
              (HTTPError 500) eq_refl eq_refl) as [Hrun _].
  - discriminate.
  - exact Hrun.
Defined.

End Transfers.

Section TransferReplies.
Import NullbrSearch.

Lemma set_cms_client_same (self : t) (c : CloudSyncMediaClient.t) :
  _cms_client self = Some c -> set_cms_client (Some c) self = self.
Proof. destruct self. simpl. intros ->. reflexivity. Qed.

(** X12: a transfer of the n-th stored item, with the token of the transfer
    client fresh: the reply titled 转存中, then one post of the url of
    that item, then the reply that the answer calls for: 转存成功 when the
    returned object has the code 200, 转存失败 when it has another code
    or none, 转存错误 when the post raised or returned no object.  The
    plugin is as it was: the entry stays, so the number can be sent
    again. *)
Theorem transfer_posts_stored_url (self : t) (c : CloudSyncMediaClient.t)
    (w : world) (number : Z) (channel userid : string)
    (cache : resource_entry) (item : resource_item) :
  _cms_enabled self = true ->
  _cms_client self = Some c ->
  _user_resource_cache self !! userid = Some cache ->
  time_src w (ticks w) - timestamp cache <= 3600 ->
  1 <= number <= Z.of_nat (length (resources cache)) ->
  resources cache !! Z.to_nat (number - 1) = Some item ->
  has_url item ->
  CloudSyncMediaClient.stale c (time_src w (S (ticks w))) = false ->
  not_401 (net_src w (sent w)) ->
  handle_resource_transfer number channel userid (self, w) =
    (Ok tt,
     (self,
      emit (transfer_reply channel userid (share_result (net_src w (sent w))))
        (send (share_request c (url item))
           (tick (emit (transferring channel userid) (tick w)))))).
Proof.
  intros Hon Hc Hcache Hlive Hrange Hitem Hurl Hfresh Hnot.
  assert (Hready : cms_ready self).
  { split; [exact Hon|]. rewrite Hc. eexists. reflexivity. }
  pose proof (transfer_reads_resource_cache self w number channel userid
                Hready) as Hread.
  simpl in Hread. rewrite Hcache in Hread. destruct Hread as [_ Hread].
  rewrite (Hread Hlive item Hrange Hitem). clear Hread.
  set (w1 := emit (transferring channel userid) (tick w)).
  assert (Hens : CloudSyncMediaClient._ensure_valid_token (c, w1) =
                 (Ok tt, (c, tick w1)))
    by (apply ensure_valid_token_fresh; exact Hfresh).
  assert (Hshare : CloudSyncMediaClient.add_share_down (url item) (c, w1) =
                   (share_result (net_src w (sent w)),
                    (c, send (share_request c (url item)) (tick w1)))).
  { rewrite (add_share_down_no_retry (url item) c c w1 (tick w1) Hurl Hens)
      by exact Hnot.
    rewrite post_share_run. reflexivity. }
  unfold transfer_selected, try_except, transfer_failed.
  unfold bind at 1. simpl. fold (transferring channel userid). fold w1.
  unfold bind at 1. unfold with_cms_client. simpl. rewrite Hc, Hshare.
  rewrite (set_cms_client_same self c Hc).
  destruct (share_result (net_src w (sent w))) as [v|e]; [|reflexivity].
  destruct v as [| | | | |d]; try reflexivity.
  unfold bind at 1. simpl.
  destruct (is_num (from_option id JNull (dict_get d "code")) 200);
    reflexivity.
Qed.

Lemma transfer_posts_stored_url_witness :
  handle_resource_transfer 1 "wechat" "u1"
    (plugin_resolved, world_of 2000 [share_accepted]) =
    (Ok tt,
     (plugin_resolved,
      emit (transfer_done "wechat" "u1")
        (send (share_request cms_holding (JStr "https://115.com/s/a"))
           (tick (emit (transferring "wechat" "u1")
                    (tick (world_of 2000 [share_accepted]))))))).
Proof.
  apply (transfer_posts_stored_url plugin_resolved cms_holding
           (world_of 2000 [share_accepted]) 1 "wechat" "u1" resolved_at_1000
           item_a).
  - reflexivity.
  - reflexivity.
  - reflexivity.
  - simpl. lia.
  - simpl. lia.
  - reflexivity.
  - reflexivity.
  - reflexivity.
  - intros resp [= <-]. simpl. lia.
Defined.

End TransferReplies.

(** ** Starting and stopping the plugin *)

Section InitPlugin.
Import NullbrSearch.

(** [init_plugin], step by step. *)
Lemma init_plugin_run (cfg : config_arg) (p : plugin) (w : world) :
  let p0 := configured cfg p in
  let p1 := on_core (set_client (client_for p0)) p0 in
  init_plugin cfg (p, w) =
    if wants_cms p0 then
      match CloudSyncMediaClient._ensure_valid_token (cms_blank_for p0, w) with
      | (Ok _, (cms, w')) =>
          (Ok tt, (on_core (set_cms_client (Some cms)) p1, w'))
      | (Raise e, (_, w')) =>
          (Ok tt,
           (on_core (set_cms_client None) (on_core (set_cms_enabled false) p1),
            w'))
      end
    else (Ok tt, (on_core (set_cms_client None) p1, w)).
Proof.
  intros p0 p1. unfold init_plugin.
  unfold bind at 1.
  assert (Hcfg : (match cfg with
                  | Config c => modify_self (configure c)
                  | ConfigNone | ConfigEmpty => ret tt
                  end) (p, w) = (Ok tt, (p0, w)))
    by (destruct cfg; reflexivity).
  rewrite Hcfg. unfold bind at 1. unfold get_self. simpl.
  unfold bind at 1.
  assert (Hclient :
            (match _app_id p0 with
             | Some app_id =>
                 if _enabled (core p0) && nonempty app_id then
                   try_except
                     (client <- NullbrApiClient.__init__ app_id
                                  (_api_key (core p0)) ;;
                      modify_self (on_core (set_client (Some client))))
                     (fun e => modify_self (on_core (set_enabled false)))
                 else modify_self (on_core (set_client None))
             | None => modify_self (on_core (set_client None))
             end) (p0, w) = (Ok tt, (p1, w))).
  { unfold p1, client_for. destruct (_app_id p0) as [app_id|]; [|reflexivity].
    destruct (_enabled (core p0) && nonempty app_id); reflexivity. }
  rewrite Hclient. unfold bind at 1. simpl.
  unfold wants_cms.
  change (_cms_enabled (core p1)) with (_cms_enabled (core p0)).
  change (_cms_url p1) with (_cms_url p0).
  change (_cms_username p1) with (_cms_username p0).
  change (_cms_password p1) with (_cms_password p0).
  destruct (_cms_enabled (core p0) && nonempty (_cms_url p0)
            && nonempty (_cms_username p0) && nonempty (_cms_password p0));
    [|reflexivity].
  unfold try_except, bind, CloudSyncMediaClient.__init__, cms_blank_for. simpl.
  destruct (CloudSyncMediaClient._ensure_valid_token
              (CloudSyncMediaClient.blank (_cms_url p0) (_cms_username p0)
                 (_cms_password p0), w)) as [[[]|e] [cms w']]; reflexivity.
Qed.


Lemma existsb_eqb_false (s : string) (l : list string) :
  existsb (String.eqb s) l = false <-> s ∉ l.
Proof.
  induction l as [|x l IH]; simpl.
  - split; [intros _; apply not_elem_of_nil|reflexivity].
  - rewrite orb_false_iff, IH, not_elem_of_cons.
    destruct (String.eqb_spec s x); split; intros [? ?]; split;
      congruence || assumption.
Qed.

(** What the loop collects: no value twice and no empty value; it takes
    every value exactly when it ends with as many more as it was given. *)
Lemma collect_priorities_spec (ps : list (option string)) :
  forall acc,
    NoDup acc -> Forall (fun s => s <> "") acc ->
    let r := collect_priorities ps acc in
    NoDup r /\ Forall (fun s => s <> "") r /\
    (length r <= length acc + length ps)%nat /\
    (length r = (length acc + length ps)%nat ->
     map Some r = map Some acc ++ ps).
Proof.
  induction ps as [|[s|] rest IH]; intros acc Hnd Hne; simpl.
  - repeat split; try assumption; [lia|]. intros _. rewrite app_nil_r.
    reflexivity.
  - destruct (String.eqb_spec s "") as [->|Hs]; simpl.
    + destruct (IH acc Hnd Hne) as (H1 & H2 & H3 & H4).
      repeat split; try assumption; lia.
    + destruct (existsb (String.eqb s) acc) eqn:Hin; simpl.
      * destruct (IH acc Hnd Hne) as (H1 & H2 & H3 & H4).
        repeat split; try assumption; lia.
      * apply existsb_eqb_false in Hin.
        destruct (IH (acc ++ [s])) as (H1 & H2 & H3 & H4).
        -- apply NoDup_app. split; [exact Hnd|]. split.
           ++ intros x Hx Hx'. apply list_elem_of_singleton in Hx'.
              subst x. contradiction.
           ++ apply NoDup_singleton.
        -- apply Forall_app. split; [exact Hne|].
           apply Forall_singleton. exact Hs.
        -- rewrite length_app in H3, H4. simpl in H3, H4.
           repeat split; try assumption; [lia|].
           intros Hlen. rewrite H4 by lia.
           rewrite map_app, <- app_assoc. reflexivity.
  - destruct (IH acc Hnd Hne) as (H1 & H2 & H3 & H4).
    repeat split; try assumption; lia.
Qed.

(** Four values that differ and are not empty are all taken, in order. *)
Lemma collect_priorities_all (l : list string) :
  forall acc,
    NoDup (acc ++ l) -> Forall (fun s => s <> "") l ->
    collect_priorities (map Some l) acc = acc ++ l.
Proof.
  induction l as [|s l IH]; intros acc Hnd Hne; simpl.
  - rewrite app_nil_r. reflexivity.
  - apply Forall_cons in Hne as [Hs Hne].
    destruct (String.eqb_spec s "") as [->|_]; [contradiction|]. simpl.
    assert (Hin : existsb (String.eqb s) acc = false).
    { apply existsb_eqb_false. intros Hin.
      apply NoDup_app in Hnd as (_ & Hdisj & _).
      apply (Hdisj s Hin). left. }
    rewrite Hin. simpl.
    rewrite IH; [rewrite <- app_assoc; reflexivity| |exact Hne].
    rewrite <- app_assoc. exact Hnd.
Qed.

Lemma default_priority_ok :
  NoDup default_priority /\ Forall (fun s => s <> "") default_priority.
Proof.
  split.
  - apply (bool_decide_unpack _). vm_compute. exact I.
  - repeat constructor; discriminate.
Qed.

Lemma init_plugin_priority_of (cfg : config_arg) (p : plugin) (w : world) :
  _resource_priority (core (fst (snd (init_plugin cfg (p, w))))) =
    _resource_priority (core (configured cfg p)).
Proof.
  rewrite init_plugin_run.
  destruct (wants_cms (configured cfg p)); [|reflexivity].
  destruct (CloudSyncMediaClient._ensure_valid_token _) as [[[]|e] [cms w']];
    reflexivity.
Qed.

(** X13: after [init_plugin] with a configuration that has keys, the
    priority order has four entries, none empty and none twice: the four
    configured values in their order when they are all there, not empty
    and different, and the default order 115, magnet, ed2k, video in every
    other case.  With [None] or with the empty dict the block [if
    config:] is not entered, and the order stays the one that the object
    had. *)
Theorem init_plugin_priority (c : config) (p : plugin) (w : world) :
  let order cfg :=
    _resource_priority (core (fst (snd (init_plugin cfg (p, w))))) in
  let prio := order (Config c) in
  length prio = 4%nat /\ NoDup prio /\ Forall (fun s => s <> "") prio /\
  (prio = default_priority \/ priorities_of c = map Some prio) /\
  (forall l,
     priorities_of c = map Some l -> NoDup l ->
     Forall (fun s => s <> "") l -> prio = l) /\
  order ConfigNone = _resource_priority (core p) /\
  order ConfigEmpty = _resource_priority (core p).
Proof.
  intros order prio. unfold prio, order. rewrite !init_plugin_priority_of.
  cbn [configured].
  unfold configure. cbn [core _resource_priority].
  fold (priorities_of c).
  destruct (collect_priorities_spec (priorities_of c) [] (NoDup_nil_2)
              (Forall_nil_2 _)) as (Hnd & Hne & Hlen & Hall).
  cbn zeta in Hnd, Hne, Hlen, Hall.
  change (length (priorities_of c)) with 4%nat in Hlen, Hall.
  destruct default_priority_ok as [Hdnd Hdne].
  split; [|split; [|split; [|split; [|split; [|split; reflexivity]]]]].
  - destruct (Nat.ltb_spec (length (collect_priorities (priorities_of c) []))
                4); [reflexivity|simpl in *; lia].
  - destruct (_ <? _)%nat; assumption.
  - destruct (_ <? _)%nat; assumption.
  - destruct (Nat.ltb_spec (length (collect_priorities (priorities_of c) []))
                4); [left; reflexivity|right].
    rewrite Hall by (simpl in *; lia). reflexivity.
  - intros l Hl Hlnd Hlne.
    rewrite Hl, (collect_priorities_all l [] Hlnd Hlne). simpl.
    assert (Hl4 : length l = 4%nat).
    { apply (f_equal length) in Hl. rewrite length_map in Hl.
      simpl in Hl. lia. }
    rewrite Hl4. reflexivity.
Qed.


Lemma blank_stale (base_url username password : string) (now : Z) :
  CloudSyncMediaClient.stale
    (CloudSyncMediaClient.blank base_url username password) now = true.
Proof. reflexivity. Qed.

(** X14: the transfer client after [init_plugin], by the settings in
    force once the argument is read: those of a configuration that has
    keys, and those that the object had when the argument is [None] or
    the empty dict.  When the switch is off or the address, the user name
    or the password is empty, there is no client and no request is made.
    Otherwise one login is made: if it is accepted the plugin holds a
    client with the token, good for 86400 s from the reading of the
    clock; if it fails the transfer switch is turned off and there is no
    client, while the plugin itself and its search client are as the
    settings say. *)
Theorem init_plugin_transfer_client (cfg : config_arg) (p : plugin)
    (w : world) :
  let p0 := configured cfg p in
  let out := init_plugin cfg (p, w) in
  let p' := fst (snd out) in
  let w' := snd (snd out) in
  _enabled (core p') = _enabled (core p0) /\
  _client (core p') = client_for p0 /\
  (wants_cms p0 = false ->
   _cms_client (core p') = None /\
   _cms_enabled (core p') = _cms_enabled (core p0) /\ w' = w) /\
  (wants_cms p0 = true ->
   w' = send (login_request (cms_blank_for p0)) (tick w) /\
   (forall tok,
      net_src w (sent w) = login_ok tok ->
      _cms_enabled (core p') = true /\
      _cms_client (core p') =
        Some (CloudSyncMediaClient.refreshed tok (time_src w (ticks w))
                (cms_blank_for p0))) /\
   (forall e,
      fst (CloudSyncMediaClient._ensure_valid_token (cms_blank_for p0, w)) =
        Raise e ->
      _cms_enabled (core p') = false /\ _cms_client (core p') = None)).
Proof.
  intros p0 out p' w'. unfold p', w', out. rewrite init_plugin_run.
  fold p0.
  destruct (wants_cms p0) eqn:Hwants.
  - destruct (CloudSyncMediaClient._ensure_valid_token (cms_blank_for p0, w))
      as [r [cms w1]] eqn:Hens.
    destruct (ensure_valid_token_cases _ _ _ _ _ Hens) as [_ Hstale].
    destruct (Hstale (blank_stale _ _ _ _)) as (Hw & Hcases & Hok).
    assert (Hon : _cms_enabled (core p0) = true).
    { unfold wants_cms in Hwants.
      destruct (_cms_enabled (core p0)); [reflexivity|discriminate]. }
    destruct r as [[]|e]; simpl.
    + split; [reflexivity|]. split; [reflexivity|]. split; [discriminate|].
      intros _. split; [exact Hw|]. split.
      * intros tok Hnet. destruct (Hok tok Hnet) as [_ ->].
        split; [exact Hon|reflexivity].
      * intros e He. discriminate.
    + split; [reflexivity|]. split; [reflexivity|]. split; [discriminate|].
      intros _. split; [exact Hw|]. split.
      * intros tok Hnet. destruct (Hok tok Hnet) as [Hr _]. discriminate.
      * intros e' _. split; reflexivity.
  - simpl. split; [reflexivity|]. split; [reflexivity|].
    split; [|discriminate]. intros _. repeat split.
Qed.

Lemma init_plugin_transfer_client_witness :
  let w := world_of 1000 [login_ok (JStr "t1")] in
  let p' := fst (snd (init_plugin (Config config_full) (plugin_new, w))) in
  _cms_client (core p') =
    Some {| CloudSyncMediaClient.base_url := "http://cms";
            CloudSyncMediaClient.username := "admin";
            CloudSyncMediaClient.password := "secret";
            CloudSyncMediaClient.token := JStr "t1";
            CloudSyncMediaClient.token_expiry := 87400;
            CloudSyncMediaClient.authorization := Some (JStr "t1") |} /\
  _cms_client
    (core (fst (snd (init_plugin (Config config_full)
                       (plugin_new, world_of 1000 []))))) = None /\
  init_plugin ConfigEmpty (plugin_new, w) =
    (Ok tt, (plugin_new, w)).
Proof.
  intros w p'. split; [|split; [|reflexivity]].
  - destruct (init_plugin_transfer_client (Config config_full) plugin_new w)
      as (_ & _ & _ & Hcms).
    destruct (Hcms eq_refl) as (_ & Hok & _).
    destruct (Hok (JStr "t1") eq_refl) as [_ Hclient].
    exact Hclient.
  - destruct (init_plugin_transfer_client (Config config_full) plugin_new
                (world_of 1000 [])) as (_ & _ & _ & Hcms).
    destruct (Hcms eq_refl) as (_ & _ & Hfail).
    destruct (Hfail ConnectionError eq_refl) as [_ Hnone].
    exact Hnone.
Defined.

(** X15: [init_plugin] returns, whatever the configuration and the network,
    and leaves both caches as they are: what users searched and resolved
    before a change of the configuration is still there after it. *)
Theorem init_plugin_keeps_caches (cfg : config_arg) (p : plugin)
    (w : world) :
  let out := init_plugin cfg (p, w) in
  fst out = Ok tt /\
  _user_search_cache (core (fst (snd out))) = _user_search_cache (core p) /\
  _user_resource_cache (core (fst (snd out))) =
    _user_resource_cache (core p).
Proof.
  intros out. unfold out. rewrite init_plugin_run.
  assert (Hs : _user_search_cache (core (configured cfg p)) =
               _user_search_cache (core p)) by (destruct cfg; reflexivity).
  assert (Hr : _user_resource_cache (core (configured cfg p)) =
               _user_resource_cache (core p)) by (destruct cfg; reflexivity).
  destruct (wants_cms (configured cfg p)).
  - destruct (CloudSyncMediaClient._ensure_valid_token _)
      as [[[]|e] [cms w']]; simpl; repeat split; assumption.
  - simpl. repeat split; assumption.
Qed.

Lemma init_plugin_search_client (cfg : config_arg) (p : plugin)
    (w : world) :
  _client (core (fst (snd (init_plugin cfg (p, w))))) =
    client_for (configured cfg p).
Proof.
  rewrite init_plugin_run.
  destruct (wants_cms (configured cfg p)); [|reflexivity].
  destruct (CloudSyncMediaClient._ensure_valid_token _) as [[[]|e] [cms w']];
    reflexivity.
Qed.

(** X16: when the plugin is switched off or has no app id once the
    argument of [init_plugin] is read (a configuration that has keys sets
    both; [None] and the empty dict leave what the object had), the plugin
    has no search client after [init_plugin], and [talk] passes over every
    message. *)
Theorem init_plugin_without_app_id (cfg : config_arg) (p : plugin)
    (w : world) (event : message) (w' : world) :
  let p0 := configured cfg p in
  _enabled (core p0) = false \/ _app_id p0 = None \/ _app_id p0 = Some "" ->
  let self := core (fst (snd (init_plugin cfg (p, w)))) in
  _client self = None /\
  talk event (self, w') = (Ok tt, (self, w')).
Proof.
  intros p0 H self.
  assert (Hclient : _client self = None).
  { unfold self. rewrite init_plugin_search_client. fold p0.
    unfold client_for.
    destruct H as [H|[H|H]]; rewrite H; try reflexivity.
    - destruct (_app_id p0); reflexivity.
    - rewrite andb_false_r. reflexivity. }
  split; [exact Hclient|].
  apply talk_skips. right. left. exact Hclient.
Qed.

(** A configuration that switches the plugin on gives it a client; the
    same configuration with the switch off leaves none, and so does the
    empty dict for an object that has no app id yet. *)
Lemma init_plugin_without_app_id_witness :
  let self := core (fst (snd (init_plugin (Config config_repeating)
                                (plugin_new, world_of 0 [])))) in
  _client self <> None /\
  (let off := core (fst (snd (init_plugin
                                (Config (config_of_plugin_off config_repeating))
                                (plugin_new, world_of 0 [])))) in
   _client off = None /\
   talk (message_from "u1" "Matrix?") (off, world_twelve) =
     (Ok tt, (off, world_twelve))) /\
  (let kept := core (fst (snd (init_plugin ConfigEmpty
                                 (plugin_new, world_of 0 [])))) in
   _client kept = None /\
   talk (message_from "u1" "Matrix?") (kept, world_twelve) =
     (Ok tt, (kept, world_twelve))).
Proof.
  intros self. split; [discriminate|]. split.
  - apply (init_plugin_without_app_id
             (Config (config_of_plugin_off config_repeating))
             plugin_new (world_of 0 []) (message_from "u1" "Matrix?")
             world_twelve).
    left. reflexivity.
  - apply (init_plugin_without_app_id ConfigEmpty
             plugin_new (world_of 0 []) (message_from "u1" "Matrix?")
             world_twelve).
    left. reflexivity.
Defined.

(** ** [stop_service] *)

(** X17: [stop_service] returns and makes no request; after it the plugin is
    switched off and holds no client and no cache entry, and [talk]
    passes over every message until the plugin is initialised again. *)
Theorem stop_service_silences (self : t) (w : world) (event : message)
    (w' : world) :
  let out := stop_service (self, w) in
  let stopped := fst (snd out) in
  fst out = Ok tt /\ snd (snd out) = w /\
  _enabled stopped = false /\
  _client stopped = None /\ _cms_client stopped = None /\
  _user_search_cache stopped = ∅ /\ _user_resource_cache stopped = ∅ /\
  talk event (stopped, w') = (Ok tt, (stopped, w')).
Proof.
  intros out stopped. repeat split.
Qed.

End InitPlugin.

(** ** The answers to a login *)

Section LoginAnswers.
Import CloudSyncMediaClient.

Lemma login_run (c : t) (w : world) :
  _login (c, w) =
    (login_result (net_src w (sent w)), (c, send (login_request c) w)).
Proof.
  rewrite (surjective_pairing (_login (c, w))), login_effect. f_equal.
  unfold _login, bind, get_self, http, raise_for_status, response_json,
    py_get, py_contains, py_getitem, ret, raise, login_result; simpl.
  destruct (net_src w (sent w)) as [resp|tr]; simpl; [|reflexivity].
  destruct ((400 <=? status_code resp) && (status_code resp <? 600)); simpl;
    [reflexivity|].
  destruct (body resp) as [data|]; simpl; [|reflexivity].
  destruct data as [| | | | |d]; simpl; try reflexivity.
  destruct (is_num (from_option id JNull (dict_get d "code")) 200); simpl;
    [|reflexivity].
  destruct (dict_get d "data") as [v|]; reflexivity.
Qed.

(** A refresh of the token, by what the login ends in. *)
Lemma refresh_run (c : t) (w : world) :
  stale c (time_src w (ticks w)) = true ->
  _ensure_valid_token (c, w) =
    (fst (refresh_result (login_result (net_src w (sent w)))
            (time_src w (ticks w)) c),
     (snd (refresh_result (login_result (net_src w (sent w)))
             (time_src w (ticks w)) c),
      send (login_request c) (tick w))).
Proof.
  intros Hstale.
  unfold _ensure_valid_token. unfold bind at 1. unfold time_time. simpl.
  unfold bind at 1. unfold get_self. simpl. rewrite Hstale.
  unfold bind at 1. rewrite login_run. simpl.
  destruct (login_result (net_src w (sent w))) as [data|e]; [|reflexivity].
  destruct data as [| | | | |d]; try reflexivity.
  unfold bind, py_getitem. simpl.
  destruct (dict_get d "token"); reflexivity.
Qed.

(** X19: a refresh of the token, answer by answer.  The login is refused with
    [ValueError] when the answer is an object whose code is not 200 or
    that has no data, with [HTTPError] for a status from 400 to 599, with
    the transport's exception when the request failed; data without a
    token raises [KeyError].  In each of these cases the client keeps
    the token, the expiry and the header that it had; only an accepted
    login with a token replaces them. *)
Theorem token_refresh_by_answer (c : t) (w : world) :
  stale c (time_src w (ticks w)) = true ->
  _ensure_valid_token (c, w) =
    (fst (refresh_result (login_result (net_src w (sent w)))
            (time_src w (ticks w)) c),
     (snd (refresh_result (login_result (net_src w (sent w)))
             (time_src w (ticks w)) c),
      send (login_request c) (tick w))).
Proof. intros Hstale. apply refresh_run. exact Hstale. Qed.

Lemma token_refresh_by_answer_witness :
  _ensure_valid_token (cms_blank, world_of 1000 [login_refused]) =
    (Raise ValueError,
     (cms_blank,
      send (login_request cms_blank) (tick (world_of 1000 [login_refused])))).
Proof.
  rewrite token_refresh_by_answer; reflexivity.
Defined.

End LoginAnswers.

(** ** The construction of the transfer client *)

Section CmsConstruction.
Import CloudSyncMediaClient.

Lemma lstrip_slash_spec (l : list ascii) :
  exists k,
    l = repeat "/"%char k ++ lstrip_slash l /\
    head (lstrip_slash l) <> Some "/"%char.
Proof.
  induction l as [|a l (k & Hl & Hhead)]; simpl.
  - exists 0%nat. split; [reflexivity|discriminate].
  - destruct (Ascii.eqb_spec a "/") as [->|Hne].
    + exists (S k). split; [simpl; f_equal; exact Hl|exact Hhead].
    + exists 0%nat. split; [reflexivity|]. simpl. congruence.
Qed.

Lemma repeat_rev {A} (a : A) (k : nat) : rev (repeat a k) = repeat a k.
Proof.
  induction k as [|k IH]; [reflexivity|]. simpl. rewrite IH.
  symmetry. apply repeat_cons.
Qed.

Lemma last_rev_head {A} (l : list A) : last (rev l) = head l.
Proof.
  destruct l as [|a l]; [reflexivity|]. simpl. apply last_snoc.
Qed.

(** [rstrip('/')] takes slashes off the end, and all of them. *)
Lemma rstrip_slash_spec (s : string) :
  exists k,
    list_ascii_of_string s =
      list_ascii_of_string (rstrip_slash s) ++ repeat "/"%char k /\
    last (list_ascii_of_string (rstrip_slash s)) <> Some "/"%char.
Proof.
  unfold rstrip_slash. rewrite list_ascii_of_string_of_list_ascii.
  destruct (lstrip_slash_spec (rev (list_ascii_of_string s)))
    as (k & Hl & Hhead).
  exists k. split.
  - rewrite <- (rev_involutive (list_ascii_of_string s)) at 1.
    rewrite Hl at 1. rewrite rev_app_distr, repeat_rev. reflexivity.
  - rewrite last_rev_head. exact Hhead.
Qed.

(** X18: [CloudSyncMediaClient(base_url, username, password)] reads the clock
    and makes one login request, to the address without the slashes at
    its end.  If the login is accepted, the client holds the token, good
    for 86400 s from the reading of the clock, and the address without
    those slashes; if the login raises, or its data has no token, the
    exception is raised by the constructor and there is no client. *)
Theorem cms_client_construction {X} (base_url username password : string)
    (x : X) (w : world) :
  let out := @__init__ X base_url username password (x, w) in
  let now := time_src w (ticks w) in
  let refresh :=
    refresh_result (login_result (net_src w (sent w))) now
      (blank base_url username password) in
  snd out =
    (x, send (CmsLogin (rstrip_slash base_url) username password) (tick w)) /\
  fst out = match fst refresh with
            | Ok _ => Ok (snd refresh)
            | Raise e => Raise e
            end /\
  (forall tok,
     net_src w (sent w) = login_ok tok ->
     fst out = Ok (refreshed tok now (blank base_url username password))) /\
  (forall e,
     login_result (net_src w (sent w)) = Raise e -> fst out = Raise e) /\
  (forall c,
     fst out = Ok c ->
     CloudSyncMediaClient.base_url c = rstrip_slash base_url /\
     CloudSyncMediaClient.username c = username /\
     CloudSyncMediaClient.password c = password /\
     token_expiry c = now + 86400 /\ authorization c = Some (token c)) /\
  (exists k,
     list_ascii_of_string base_url =
       list_ascii_of_string (rstrip_slash base_url) ++ repeat "/"%char k) /\
  last (list_ascii_of_string (rstrip_slash base_url)) <> Some "/"%char.
Proof.
  intros out now refresh.
  assert (Hout : out = (match fst refresh with
                        | Ok _ => Ok (snd refresh)
                        | Raise e => Raise e
                        end,
                        (x, send (CmsLogin (rstrip_slash base_url) username
                                    password) (tick w)))).
  { unfold out, __init__. simpl.
    rewrite (refresh_run (blank base_url username password) w eq_refl).
    fold now. fold refresh. destruct (fst refresh); reflexivity. }
  destruct (rstrip_slash_spec base_url) as (k & Hk & Hlast).
  rewrite Hout. simpl.
  split; [reflexivity|]. split; [reflexivity|].
  split; [|split; [|split; [|split]]].
  - intros tok Hnet. unfold refresh. rewrite Hnet. reflexivity.
  - intros e He. unfold refresh. rewrite He. reflexivity.
  - intros c0. unfold refresh.
    destruct (login_result (net_src w (sent w))) as [data|e]; simpl;
      [|discriminate].
    destruct data as [| | | | |d]; simpl; try discriminate.
    destruct (dict_get d "token") as [tok|]; simpl; [|discriminate].
    intros [= <-]. repeat split.
  - exists k. exact Hk.
  - exact Hlast.
Qed.

(** A login that the service refuses leaves no client. *)
Lemma cms_client_construction_witness :
  fst (@__init__ unit "http://cms/" "admin" "secret"
         (tt, world_of 1000 [login_refused])) = Raise ValueError /\
  fst (@__init__ unit "http://cms/" "admin" "secret"
         (tt, world_of 1000 [login_ok (JStr "t1")])) =
    Ok {| base_url := "http://cms"; username := "admin";
          password := "secret"; token := JStr "t1"; token_expiry := 87400;
          authorization := Some (JStr "t1") |}.
Proof.
  split.
  - destruct (@cms_client_construction unit "http://cms/" "admin" "secret" tt
                (world_of 1000 [login_refused])) as (_ & _ & _ & Hraise & _).
    exact (Hraise ValueError eq_refl).
  - destruct (@cms_client_construction unit "http://cms/" "admin" "secret" tt
                (world_of 1000 [login_ok (JStr "t1")]))
      as (_ & _ & Hok & _).
    exact (Hok (JStr "t1") eq_refl).
Defined.

End CmsConstruction.


(** ** The two files of the search client *)

Section TwoFiles.

Lemma file_request_with_fallback_run (ep : endpoint) (key : option string)
    (c : NullbrApiClient.t) (w : world) :
  nullbr_client.request_with_fallback ep key (c, w) =
    match net_src w (sent w) with
    | Response resp =>
        (Ok resp, (c, send (NullbrGet ep key true Timeout5) w))
    | Failure tr =>
        let w1 := send (NullbrGet ep key true Timeout5) w in
        if path_failure (Failure tr) then
          let w2 := send (NullbrGet ep key false Timeout10_30) w1 in
          match net_src w (S (sent w)) with
          | Response resp => (Ok resp, (c, w2))
          | Failure tr2 => (Raise (exn_of_transport tr2), (c, w2))
          end
        else (Raise (exn_of_transport tr), (c, w1))
    end.
Proof.
  unfold nullbr_client.request_with_fallback, nullbr_client._make_request,
    NullbrApiClient._make_request, try_except, http, raise; simpl.
  destruct (net_src w (sent w)) as [resp|tr]; [reflexivity|].
  destruct tr; simpl; try reflexivity;
    destruct (net_src w (S (sent w))); reflexivity.
Qed.

(** How the two files read a response whose status is 200 or an error
    status. *)
Ltac read_response Hplain Hnet resp :=
  let H200 := fresh "H200" in
  let Hlo := fresh "Hlo" in
  let Hhi := fresh "Hhi" in
  let E := fresh "E" in
  destruct (Hplain _ resp Hnet) as [H200|[Hlo Hhi]];
  [ unfold raise_for_status, response_json; rewrite H200; simpl;
    destruct (body resp); reflexivity
  | apply Z.leb_le in Hlo as ?; apply Z.ltb_lt in Hhi as ?;
    unfold raise_for_status;
    destruct (status_code resp =? 200) eqn:E;
    [apply Z.eqb_eq in E; lia|];
    repeat match goal with
           | H : _ = true |- _ => rewrite H
           end; simpl;
    repeat match goal with
           | |- context [if ?b then _ else _] => destruct b
           end; reflexivity ].

(** X20: the lookups of [nullbr_client.py] and those of
    [nullbrsearch/__init__.py] do the same, requests and returned value,
    when every status that the API answers with is 200 or an error
    status from 400 to 599. *)
Theorem lookups_agree (k : media_kind) (tmdbid : json) (rt : string)
    (c : NullbrApiClient.t) (w : world) :
  plain_statuses w ->
  lookup_file k tmdbid rt (c, w) = lookup k tmdbid rt (c, w).
Proof.
  intros Hplain.
  destruct k; unfold lookup_file, lookup, run_operation, lookup_op,
    nullbr_client.get_movie_resources, nullbr_client.get_tv_resources,
    NullbrApiClient.get_movie_resources, NullbrApiClient.get_tv_resources.
  all: unfold bind, log_event, get_self, try_except; cbn [fst snd].
  all: destruct (key_set (NullbrApiClient._api_key c)); cbn [negb];
    [|reflexivity].
  all: rewrite file_request_with_fallback_run, request_with_fallback_run.
  all: cbn [emit send sent net_src trace].
  all: destruct (net_src w (sent w)) as [resp|tr] eqn:Hnet;
    [read_response Hplain Hnet resp|].
  all: destruct tr; simpl; try reflexivity.
  all: destruct (net_src w (S (sent w))) as [resp|tr2] eqn:Hnet2;
    [read_response Hplain Hnet2 resp|destruct tr2; reflexivity].
Qed.

Lemma lookups_agree_witness :
  lookup_file Movie (JNum 603) "115" (nullbr_keyed, world_answering 404) =
    lookup Movie (JNum 603) "115" (nullbr_keyed, world_answering 404).
Proof.
  apply lookups_agree.
  intros [|n] resp Hn; simpl in Hn.
  - injection Hn as <-. right. simpl. lia.
  - destruct n; discriminate Hn.
Defined.

Ltac read_search Hplain Hnet resp :=
  let H200 := fresh "H200" in
  let Hlo := fresh "Hlo" in
  let Hhi := fresh "Hhi" in
  let E := fresh "E" in
  destruct (Hplain _ resp Hnet) as [H200|[Hlo Hhi]];
  [ unfold raise_for_status, response_json; rewrite H200; simpl;
    destruct (body resp) as [[| | | | |d]|]; try reflexivity; simpl;
    destruct (from_option id (JList []) (dict_get d "items")); reflexivity
  | apply Z.leb_le in Hlo as ?; apply Z.ltb_lt in Hhi as ?;
    unfold raise_for_status;
    destruct (status_code resp =? 200) eqn:E;
    [apply Z.eqb_eq in E; lia|];
    repeat match goal with
           | H : _ = true |- _ => rewrite H
           end; simpl;
    repeat match goal with
           | |- context [if ?b then _ else _] => destruct b
           end; reflexivity ].

(** X21: the search of [nullbr_client.py] makes the requests of the search of
    [nullbrsearch/__init__.py], and returns what that one returns when
    the hits of the answer can be counted; it returns [None] for an
    answer that is no object, or whose [items] is null, a number or a
    boolean, because it takes [len(result.get('items', []))] before it
    returns. *)
Theorem file_search_counts_hits (query : string) (page : Z)
    (c : NullbrApiClient.t) (w : world) :
  plain_statuses w ->
  let out := NullbrApiClient.search query page (c, w) in
  nullbr_client.search query page (c, w) =
    (match fst out with
     | Ok v => if countable v then Ok v else Ok JNull
     | Raise e => Ok JNull
     end, snd out).
Proof.
  intros Hplain.
  unfold nullbr_client.search, NullbrApiClient.search.
  unfold bind, log_event, get_self, try_except; cbn [fst snd].
  rewrite file_request_with_fallback_run, request_with_fallback_run.
  cbn [emit send sent net_src trace].
  destruct (net_src w (sent w)) as [resp|tr] eqn:Hnet;
    [read_search Hplain Hnet resp|].
  destruct tr; simpl; try reflexivity.
  all: destruct (net_src w (S (sent w))) as [resp|tr2] eqn:Hnet2;
    [read_search Hplain Hnet2 resp|destruct tr2; reflexivity].
Qed.

Lemma world_null_items_plain : plain_statuses world_null_items.
Proof.
  intros [|n] resp Hn; simpl in Hn.
  - injection Hn as <-. left. reflexivity.
  - destruct n; discriminate Hn.
Qed.

Lemma file_search_counts_hits_witness :
  fst (NullbrApiClient.search "Matrix" 1 (nullbr_keyed, world_null_items)) =
    Ok (JDict [("items", JNull)]) /\
  fst (nullbr_client.search "Matrix" 1 (nullbr_keyed, world_null_items)) =
    Ok JNull.
Proof.
  split; [reflexivity|].
  rewrite (file_search_counts_hits "Matrix" 1 nullbr_keyed world_null_items
             world_null_items_plain).
  reflexivity.
Defined.

End TwoFiles.

Section Credential.

(** X28: the API key is checked before the network is used: without one, a
    lookup of either file returns [None] and makes no request.  A search
    needs no key: it makes its request, without the key header. *)
Theorem lookup_needs_key (k : media_kind) (tmdbid : json) (rt : string)
    (query : string) (page : Z) (c : NullbrApiClient.t) (w : world) :
  key_set (NullbrApiClient._api_key c) = false ->
  let called := emit (Called (operation_call (lookup_op k tmdbid rt))) w in
  lookup k tmdbid rt (c, w) = (Ok JNull, (c, called)) /\
  lookup_file k tmdbid rt (c, w) = (Ok JNull, (c, called)) /\
  exists rest,
    trace (snd (snd (NullbrApiClient.search query page (c, w)))) =
      trace w ++ Called (CallSearch query)
              :: proxied (UrlSearch query page) None :: rest.
Proof.
  intros Hkey called. split; [|split].
  - destruct k; unfold lookup, run_operation, lookup_op,
      NullbrApiClient.get_movie_resources, NullbrApiClient.get_tv_resources,
      bind, log_event, get_self; simpl; rewrite Hkey; reflexivity.
  - destruct k; unfold lookup_file, nullbr_client.get_movie_resources,
      nullbr_client.get_tv_resources, bind, log_event, get_self; simpl;
      rewrite Hkey; reflexivity.
  - destruct (run_operation_run (OpSearch query page) c w eq_refl)
      as (v & Hrun & _).
    simpl in Hrun. rewrite Hrun. simpl.
    rewrite request_with_fallback_trace. simpl.
    unfold operation_key. rewrite Hkey.
    unfold two_path_requests. rewrite <- app_assoc. simpl.
    eexists. reflexivity.
Qed.

Lemma lookup_needs_key_witness :
  lookup Movie (JNum 603) "115" (nullbr_keyless, world_second_wins) =
    (Ok JNull,
     (nullbr_keyless,
      emit (Called (CallMovie (JNum 603) "115")) world_second_wins)).
Proof.
  destruct (lookup_needs_key Movie (JNum 603) "115" "Matrix" 1 nullbr_keyless
              world_second_wins eq_refl) as [Hlookup _].
  exact Hlookup.
Defined.

End Credential.

(** ** Requests for one type, as text *)

Section RequestGrammar.
Import NullbrSearch.

Lemma of_bytes_bytes (s : string) : of_bytes (bytes s) = s.
Proof.
  unfold of_bytes, bytes. rewrite map_map.
  rewrite (map_ext _ (fun a => a)) by apply ascii_N_embedding.
  rewrite map_id. apply string_of_list_ascii_of_string.
Qed.

Lemma bytes_small (s : string) : Forall (fun a => (a < 256)%N) (bytes s).
Proof.
  unfold bytes. apply Forall_forall. intros a Ha.
  apply list_elem_of_In, in_map_iff in Ha as (x & <- & _).
  apply N_ascii_bounded.
Qed.

Lemma bytes_of_bytes (l : list N) :
  Forall (fun a => (a < 256)%N) l -> bytes (of_bytes l) = l.
Proof.
  intros Hl. unfold of_bytes, bytes.
  rewrite list_ascii_of_string_of_list_ascii, map_map.
  induction Hl as [|a l Ha Hl IH]; [reflexivity|].
  simpl. rewrite N_ascii_embedding by exact Ha. f_equal. exact IH.
Qed.

Lemma split_dot_spec (l before after : list N) :
  split_dot l = Some (before, after) -> l = before ++ 46%N :: after.
Proof.
  revert before. induction l as [|a l IH]; intros before; simpl;
    [discriminate|].
  destruct (N.eqb_spec a 46) as [->|_].
  - intros [= <- <-]. reflexivity.
  - destruct (split_dot l) as [[b x]|]; [|discriminate].
    intros [= <- <-]. simpl. f_equal. apply IH. reflexivity.
Qed.

(** The dot is no decimal digit, so the digits of a number hold no dot. *)
Lemma decimals_have_no_dot (u : unicode) (ds : list N) :
  forallb (is_decimal u) (code_points ds) = true -> ~ In 46%N ds.
Proof.
  intros Hall Hin.
  apply (ascii_byte_is_code_point 46 (length ds) eq_refl ds (le_n _)) in Hin.
  rewrite forallb_forall in Hall. specialize (Hall _ Hin).
  discriminate Hall.
Qed.

Lemma split_dot_prefix (ds after : list N) :
  ~ In 46%N ds -> split_dot (ds ++ 46%N :: after) = Some (ds, after).
Proof.
  induction ds as [|a ds IH]; simpl; [reflexivity|].
  intros Hnot.
  destruct (N.eqb_spec a 46) as [->|_]; [exfalso; apply Hnot; left; reflexivity|].
  rewrite IH; [reflexivity|]. intros Hin. apply Hnot. right. exact Hin.
Qed.

Lemma existsb_eqb_In (s : string) (l : list string) :
  existsb (String.eqb s) l = true <-> In s l.
Proof.
  rewrite existsb_exists. split.
  - intros (x & Hx & Heq). apply String.eqb_eq in Heq. subst. exact Hx.
  - intros H. exists s. split; [exact H|apply String.eqb_refl].
Qed.

Lemma resource_request_parses (u : unicode) (s : string) (ds : list N)
    (rt : string) :
  code_points ds <> [] -> forallb (is_decimal u) (code_points ds) = true ->
  In rt resource_types ->
  bytes s = ds ++ 46%N :: bytes rt ->
  match_resource_request u s = Some (of_bytes ds, rt).
Proof.
  intros Hne Hds Hrt Hs. unfold match_resource_request.
  rewrite Hs, (split_dot_prefix ds (bytes rt) (decimals_have_no_dot u ds Hds)).
  rewrite of_bytes_bytes.
  destruct (code_points ds) as [|a l]; [contradiction|].
  rewrite Hds. apply existsb_eqb_In in Hrt. rewrite Hrt. reflexivity.
Qed.

Lemma int_of_digits_value (u : unicode) (l : list N) :
  forallb (is_decimal u) l = true ->
  forall acc,
    int_of_digits u l acc =
      Some (fold_left
              (fun acc c =>
                 10 * acc + Z.of_N (from_option id 0%N (decimal_digit u c)))
              l acc).
Proof.
  induction l as [|c l IH]; simpl; [reflexivity|].
  intros H acc. apply andb_true_iff in H as [Hc Hl].
  unfold is_decimal in Hc. apply bool_decide_eq_true in Hc as [v Hv].
  rewrite Hv. simpl. apply IH. exact Hl.
Qed.

(** What [int] makes of a text of decimal digits. *)
Lemma int_reads (u : unicode) (s : string) :
  code_points (bytes s) <> [] ->
  forallb (is_decimal u) (code_points (bytes s)) = true ->
  int u s =
    if int_max_str_digits <? Z.of_nat (length (code_points (bytes s)))
    then Raise ValueError
    else Ok (value_of u (code_points (bytes s))).
Proof.
  intros Hne Hall. unfold int.
  destruct (int_max_str_digits <? _); [reflexivity|].
  destruct (code_points (bytes s)) as [|c l] eqn:Hl; [contradiction|].
  rewrite (int_of_digits_value u (c :: l) Hall 0). reflexivity.
Qed.

Lemma prefix_small (ds rest l : list N) :
  Forall (fun a => (a < 256)%N) l -> l = ds ++ rest ->
  Forall (fun a => (a < 256)%N) ds.
Proof. intros Hl ->. apply Forall_app in Hl as [H _]. exact H. Qed.

(** X22: the texts that the pattern [^\d+\.(115|magnet|video|ed2k)$]
    accepts, read on a text that does not end with a newline (a cleaned
    text never does): one decimal digit or more ([\d]: the ASCII digits
    and the decimal digits of the other scripts, as the interpreter knows
    them), a dot and one of the four types, and nothing else.  The two
    parts of the split are the text of the number and the type; [int]
    reads the number as the value of its digits when it has at most 4300
    of them, and raises [ValueError] when it has more. *)
Theorem resource_request_grammar (u : unicode) (s digits rt : string) :
  (match_resource_request u s = Some (digits, rt) <->
   exists ds,
     code_points ds <> [] /\
     forallb (is_decimal u) (code_points ds) = true /\
     In rt resource_types /\
     bytes s = ds ++ 46%N :: bytes rt /\ digits = of_bytes ds) /\
  (match_resource_request u s = Some (digits, rt) ->
   int u digits =
     if int_max_str_digits <? Z.of_nat (length (code_points (bytes digits)))
     then Raise ValueError
     else Ok (value_of u (code_points (bytes digits)))).
Proof.
  assert (Hparts :
            match_resource_request u s = Some (digits, rt) ->
            exists ds,
              code_points ds <> [] /\
              forallb (is_decimal u) (code_points ds) = true /\
              In rt resource_types /\
              bytes s = ds ++ 46%N :: bytes rt /\ digits = of_bytes ds).
  { unfold match_resource_request.
    destruct (split_dot (bytes s)) as [[ds after]|] eqn:Hsplit;
      [|discriminate].
    apply split_dot_spec in Hsplit.
    destruct (_ && _) eqn:Htest; [|discriminate].
    intros [= <- <-].
    apply andb_true_iff in Htest as [Hds Hrt].
    apply existsb_eqb_In in Hrt.
    exists ds. split; [|split; [|split; [|split]]].
    + destruct (code_points ds); [discriminate|]. discriminate.
    + destruct (code_points ds); [discriminate|exact Hds].
    + exact Hrt.
    + rewrite Hsplit. do 2 f_equal. symmetry. apply bytes_of_bytes.
      pose proof (bytes_small s) as Hsmall. rewrite Hsplit in Hsmall.
      apply Forall_app in Hsmall as [_ Hsmall].
      apply Forall_cons in Hsmall as [_ Hsmall]. exact Hsmall.
    + reflexivity. }
  split; [split; [exact Hparts|]|].
  - intros (ds & Hne & Hds & Hrt & Hs & ->).
    apply resource_request_parses; assumption.
  - intros Hmatch. destruct (Hparts Hmatch) as (ds & Hne & Hds & _ & Hs & ->).
    assert (Hbytes : bytes (of_bytes ds) = ds).
    { apply bytes_of_bytes.
      exact (prefix_small ds _ (bytes s) (bytes_small s) Hs). }
    apply int_reads; rewrite Hbytes; assumption.
Qed.

(** The full-width digits are decimal digits: [１２.magnet] is a request
    for the twelfth hit. *)
Lemma resource_request_grammar_witness :
  match_resource_request unicode_sample "１２.magnet" =
    Some ("１２", "magnet") /\
  int unicode_sample "１２" = Ok 12.
Proof.
  split; [reflexivity|].
  destruct (resource_request_grammar unicode_sample "１２.magnet" "１２"
              "magnet") as [_ Hint].
  exact (Hint eq_refl).
Defined.

(** X23: a heard message whose text, once the question marks at its end and
    the white space around it are taken off, is decimal digits, a dot and
    one of the four types is not taken as a search, even when it ends with
    a question mark, nor as a number: with at most 4300 digits it goes to
    [handle_get_resources] with the value of the digits and the type, and
    with more digits the [ValueError] of [int] leaves [talk] before
    anything is done. *)
Theorem type_request_dispatch (self : t) (w : world) (event : message)
    (txt : string) (ds : list N) (rt : string) :
  heard self event txt ->
  code_points ds <> [] ->
  forallb (is_decimal (unicodedata w)) (code_points ds) = true ->
  In rt resource_types ->
  bytes (clean txt) = ds ++ 46%N :: bytes rt ->
  talk event (self, w) =
    if int_max_str_digits <? Z.of_nat (length (code_points ds))
    then (Raise ValueError, (self, w))
    else handle_get_resources (value_of (unicodedata w) (code_points ds)) rt
           (channel event) (userid event) (self, w).
Proof.
  intros Hheard Hds Hdigits Hrt Hclean.
  rewrite (talk_heard self w event txt Hheard).
  rewrite (resource_request_parses (unicodedata w) (clean txt) ds rt Hds
             Hdigits Hrt Hclean).
  assert (Hbytes : bytes (of_bytes ds) = ds).
  { apply bytes_of_bytes.
    exact (prefix_small ds _ (bytes (clean txt)) (bytes_small _) Hclean). }
  unfold bind, lift_result.
  rewrite int_reads; rewrite Hbytes; try assumption.
  destruct (int_max_str_digits <? _); reflexivity.
Qed.

Lemma type_request_dispatch_witness :
  talk (message_of " 12.magnet？?") (plugin0, world_second_wins) =
    handle_get_resources 12 "magnet" "wechat" "u1"
      (plugin0, world_second_wins).
Proof.
  apply (type_request_dispatch plugin0 world_second_wins
           (message_of " 12.magnet？?") " 12.magnet？?" [49%N; 50%N]
           "magnet").
  - repeat split; try reflexivity; try discriminate. eexists. reflexivity.
  - discriminate.
  - reflexivity.
  - simpl. tauto.
  - vm_compute. reflexivity.
Defined.

End RequestGrammar.

(** ** The search plugin of [nullbr_search] *)

Section SearchPlugin.
Import nullbr_search.

(** X24: [search] of the [nullbr_search] plugin finds nothing, whatever the
    keyword and whatever the API would answer: it calls the client's
    [search] with the keyword argument [media_type], which [search(self,
    query, page=1)] does not take, so the call raises [TypeError] before
    any request is made and the handler returns [None]. *)
Theorem plugin_search_returns_none (keyword : string)
    (media_type : option MediaType) (season : option Z) (page : Z)
    (self : t) (w : world) :
  search keyword media_type season page (self, w) = (Ok None, (self, w)).
Proof.
  unfold search, bind, get_self. simpl.
  destruct (negb (_enabled self) ||
            negb (bool_decide (is_Some (_client self)))); [reflexivity|].
  unfold try_except, with_client. simpl.
  destruct (_client self); reflexivity.
Qed.

Lemma resource_of_run (res : json) (s : t * world) :
  snd (resource_of res s) = s /\
  forall r, fst (resource_of res s) = Ok r -> resource_115 r.
Proof.
  unfold resource_of, bind.
  destruct res as [| | | | |d]; simpl;
    try (split; [reflexivity|discriminate]).
  split; [reflexivity|]. intros r [= <-].
  eexists. split; [reflexivity|]. split; [reflexivity|].
  eexists. reflexivity.
Qed.

Lemma resources_of_run (l : list json) (s : t * world) :
  snd (resources_of l s) = s /\
  forall rs, fst (resources_of l s) = Ok rs ->
             Forall resource_115 rs /\ length rs = length l.
Proof.
  induction l as [|res rest [IHs IHr]]; simpl.
  - split; [reflexivity|]. intros rs [= <-]. split; [constructor|reflexivity].
  - unfold bind.
    destruct (resource_of_run res s) as [Hs Hr].
    destruct (resource_of res s) as [[r|e] s1]; simpl in Hs; subst s1;
      [|split; [reflexivity|discriminate]].
    destruct (resources_of rest s) as [[rs|e] s2]; simpl in IHs; subst s2;
      [|split; [reflexivity|discriminate]].
    simpl. split; [reflexivity|]. intros rs' [= <-].
    destruct (IHr rs eq_refl) as [Hall Hlen].
    split; [constructor; [apply Hr; reflexivity|exact Hall]|].
    simpl. f_equal. exact Hlen.
Qed.

Lemma plugin_with_client_self {A} (m : M nullbr_client.t A) (self : t)
    (w : world) :
  fst (snd (with_client m (self, w))) = self.
Proof.
  unfold with_client. simpl. destruct (_client self); [|reflexivity].
  destruct (m _) as [r [c' w']]. reflexivity.
Qed.

(** X25: [_get_resources] returns a list, whatever happens, and leaves the
    plugin as it is: the empty list, with no request made, when the
    plugin has no client or no API key or the hit has no tmdbid; and
    otherwise the empty list (when the lookup finds nothing or raises, or
    an entry of the bundle is no object) or objects of the type 115, each
    with a url field. *)
Theorem get_resources_returns (tmdbid : json) (media_type : option MediaType)
    (self : t) (w : world) :
  exists l w',
    _get_resources tmdbid media_type (self, w) = (Ok l, (self, w')) /\
    Forall resource_115 l /\
    (_client self = None \/ _api_key self = "" \/ truthy tmdbid = false ->
     l = [] /\ w' = w).
Proof.
  unfold _get_resources. unfold bind at 1. unfold get_self. simpl.
  destruct (_client self) as [c|] eqn:Hc; simpl.
  2: { exists [], w. repeat split. constructor. }
  destruct (String.eqb_spec (_api_key self) "") as [Hkey|Hkey]; simpl.
  { exists [], w. repeat split. constructor. }
  destruct (truthy tmdbid) eqn:Htmdbid; simpl.
  2: { exists [], w. repeat split. constructor. }
  unfold try_except. unfold bind at 1.
  set (lookup_115 := match media_type with
                     | Some MOVIE =>
                         with_client
                           (nullbr_client.get_movie_resources tmdbid "115")
                     | _ =>
                         with_client
                           (nullbr_client.get_tv_resources tmdbid "115")
                     end).
  assert (Hself : fst (snd (lookup_115 (self, w))) = self).
  { unfold lookup_115. destruct media_type as [[|]|];
      apply plugin_with_client_self. }
  destruct (lookup_115 (self, w)) as [[resources|e] [self1 w1]];
    simpl in Hself; subst self1.
  2: { exists [], w1. split; [reflexivity|]. split; [constructor|].
       intros [H|[H|H]]; congruence. }
  destruct (truthy resources) eqn:Htruthy; simpl.
  2: { exists [], w1. split; [reflexivity|]. split; [constructor|].
       intros [H|[H|H]]; congruence. }
  destruct resources as [| | | | |d]; simpl;
    try (exists [], w1; split; [reflexivity|]; split; [constructor|];
         intros [H|[H|H]]; congruence).
  unfold bind at 1. unfold bind at 1. simpl.
  destruct (truthy (from_option id JNull (dict_get d "115"))); simpl.
  2: { exists [], w1. split; [reflexivity|]. split; [constructor|].
       intros [H|[H|H]]; congruence. }
  unfold bind at 1. simpl. unfold bind at 1.
  destruct (from_option id (JList []) (dict_get d "115"))
    as [| | |str|entries|keys]; simpl;
    try (exists [], w1; split; [reflexivity|]; split; [constructor|];
         intros [H|[H|H]]; congruence).
  all: match goal with
       | |- context [resources_of ?l ?s] =>
           destruct (resources_of_run l s) as [Hs Hr];
           destruct (resources_of l s) as [[rs|e] s2]; simpl in Hs; subst s2
       end.
  all: try (exists [], w1; split; [reflexivity|]; split; [constructor|];
            intros [H|[H|H]]; congruence).
  all: exists rs, w1; (split; [reflexivity|]);
    (split; [apply (Hr rs eq_refl)|]); intros [H|[H|H]]; congruence.
Qed.

End SearchPlugin.

(** ** An entry that is exactly one hour old *)

Section TtlBoundary.
Import NullbrSearch.

(** X26: at 3600 s exactly the two tests of the age differ.  The handlers
    reject an entry that is more than 3600 s old, so they still read one
    of exactly 3600 s: a number chooses a hit of the search entry, and
    [handle_resource_transfer] would still transfer from the resource
    entry.  But [talk] takes a number as a transfer only when the
    resource entry is less than 3600 s old, so at 3600 s the number goes
    to [handle_resource_selection]. *)
Theorem entry_one_hour_old (self : t) (w : world) (number : Z)
    (channel userid : string) (se : search_entry) (re : resource_entry) :
  cms_ready self ->
  _user_search_cache self !! userid = Some se ->
  _user_resource_cache self !! userid = Some re ->
  time_src w (ticks w) - search_timestamp se = 3600 ->
  time_src w (ticks w) - timestamp re = 3600 ->
  transfer_requested number userid (self, w) = (Ok false, (self, tick w)) /\
  (forall item,
     1 <= number <= Z.of_nat (length (resources re)) ->
     resources re !! Z.to_nat (number - 1) = Some item ->
     handle_resource_transfer number channel userid (self, w) =
       try_except (transfer_selected item channel userid)
         (transfer_failed channel userid) (self, tick w)) /\
  (forall selected,
     1 <= number <= Z.of_nat (length (results se)) ->
     results se !! Z.to_nat (number - 1) = Some selected ->
     handle_resource_selection number channel userid (self, w) =
       try_except (reply_to_selection selected channel userid)
         (selection_failed channel userid) (self, tick w)).
Proof.
  intros Hready Hse Hre Hsage Hrage.
  split; [|split].
  - rewrite talk_reads_resource_cache.
    destruct (cms_ready_test self Hready) as [-> ->]. simpl.
    rewrite Hre, Hrage. reflexivity.
  - intros item Hrange Hitem.
    pose proof (transfer_reads_resource_cache self w number channel userid
                  Hready) as Hread.
    simpl in Hread. rewrite Hre in Hread. destruct Hread as [_ Hread].
    apply Hread; [lia|exact Hrange|exact Hitem].
  - intros selected Hrange Hsel.
    pose proof (selection_reads_search_cache self w number channel userid)
      as Hread.
    simpl in Hread. rewrite Hse in Hread. destruct Hread as [_ Hread].
    apply Hread; [lia|exact Hrange|exact Hsel].
Qed.

Lemma entry_one_hour_old_witness :
  let self := with_search_entry "u1" listed_at_1000 plugin_resolved in
  let w := world_of 4600 [share_accepted] in
  transfer_requested 1 "u1" (self, w) = (Ok false, (self, tick w)) /\
  handle_resource_transfer 1 "wechat" "u1" (self, w) =
    try_except (transfer_selected item_a "wechat" "u1")
      (transfer_failed "wechat" "u1") (self, tick w).
Proof.
  intros self w.
  destruct (entry_one_hour_old self w 1 "wechat" "u1" listed_at_1000
              resolved_at_1000) as (Htalk & Htransfer & _).
  - split; [reflexivity|]. eexists. reflexivity.
  - reflexivity.
  - reflexivity.
  - reflexivity.
  - reflexivity.
  - split; [exact Htalk|]. apply Htransfer; [simpl; lia|reflexivity].
Defined.

End TtlBoundary.

(** * The requests that a message costs *)

Section Budget.

Context {X : Type} (P : X -> Prop).

Lemma costs_quiet {A} (n : nat) (m : M X A) : quiet m -> costs P n m.
Proof.
  intros Hm x w HP. destruct (Hm x w) as [-> ->]. split; [exact HP|lia].
Qed.

Lemma costs_weaken {A} (n n' : nat) (m : M X A) :
  (n <= n')%nat -> costs P n m -> costs P n' m.
Proof.
  intros Hle Hm x w HP. destruct (Hm x w HP) as [HP' Hsent].
  split; [exact HP'|lia].
Qed.

Lemma costs_bind {A B} (n1 n : nat) (m : M X A) (k : A -> M X B) :
  costs P n1 m -> (n1 <= n)%nat -> (forall a, costs P (n - n1) (k a)) ->
  costs P n (bind m k).
Proof.
  intros Hm Hle Hk x w HP. unfold bind.
  destruct (Hm x w HP) as [HP' Hsent].
  destruct (m (x, w)) as [[a|e] [x' w']]; simpl in *.
  - destruct (Hk a x' w' HP') as [HP'' Hsent'']. split; [exact HP''|lia].
  - split; [exact HP'|lia].
Qed.

Lemma costs_bind_quiet {A B} (n : nat) (m : M X A) (k : A -> M X B) :
  quiet m -> (forall a, costs P n (k a)) -> costs P n (bind m k).
Proof.
  intros Hm Hk. apply (costs_bind 0 n); [apply costs_quiet; exact Hm|lia|].
  intros a. rewrite Nat.sub_0_r. apply Hk.
Qed.

Lemma costs_get_self {B} (n : nat) (k : X -> M X B) :
  (forall x, P x -> costs P n (k x)) -> costs P n (bind get_self k).
Proof. intros Hk x w HP. apply (Hk x HP x w HP). Qed.

Lemma costs_try_except {A} (n1 n : nat) (m : M X A) (h : exn -> M X A) :
  costs P n1 m -> (n1 <= n)%nat -> (forall e, costs P (n - n1) (h e)) ->
  costs P n (try_except m h).
Proof.
  intros Hm Hle Hh x w HP. unfold try_except.
  destruct (Hm x w HP) as [HP' Hsent].
  destruct (m (x, w)) as [[a|e] [x' w']]; simpl in *.
  - split; [exact HP'|lia].
  - destruct (Hh e x' w' HP') as [HP'' Hsent'']. split; [exact HP''|lia].
Qed.

Lemma costs_try_except_quiet {A} (n : nat) (m : M X A) (h : exn -> M X A) :
  costs P n m -> (forall e, quiet (h e)) -> costs P n (try_except m h).
Proof.
  intros Hm Hh. apply (costs_try_except n n); [exact Hm|lia|].
  intros e. apply costs_quiet, Hh.
Qed.

Lemma costs_http (n : nat) (r : request) :
  (1 <= n)%nat -> costs P n (@http X r).
Proof.
  intros Hn x w HP. unfold http. simpl.
  destruct (net_src w (sent w)); simpl; (split; [exact HP|lia]).
Qed.

Lemma costs_modify (n : nat) (f : X -> X) :
  (forall x, P x -> P (f x)) -> costs P n (modify_self f).
Proof. intros Hf x w HP. simpl. split; [apply Hf; exact HP|lia]. Qed.

Lemma quiet_bind {A B} (m : M X A) (k : A -> M X B) :
  quiet m -> (forall a, quiet (k a)) -> quiet (bind m k).
Proof.
  intros Hm Hk x w. unfold bind. destruct (Hm x w) as [Hx Hs].
  destruct (m (x, w)) as [[a|e] [x' w']]; simpl in *; subst.
  - destruct (Hk a x w') as [-> ->]. split; [reflexivity|exact Hs].
  - split; [reflexivity|exact Hs].
Qed.

Lemma quiet_try_except {A} (m : M X A) (h : exn -> M X A) :
  quiet m -> (forall e, quiet (h e)) -> quiet (try_except m h).
Proof.
  intros Hm Hh x w. unfold try_except. destruct (Hm x w) as [Hx Hs].
  destruct (m (x, w)) as [[a|e] [x' w']]; simpl in *; subst.
  - split; [reflexivity|exact Hs].
  - destruct (Hh e x w') as [-> ->]. split; [reflexivity|exact Hs].
Qed.

Lemma quiet_ret {A} (a : A) : quiet (@ret X A a).
Proof. intros x w. split; reflexivity. Qed.

Lemma quiet_raise {A} (e : exn) : quiet (@raise X A e).
Proof. intros x w. split; reflexivity. Qed.

Lemma quiet_get_self : quiet (@get_self X).
Proof. intros x w. split; reflexivity. Qed.

Lemma quiet_time : quiet (@time_time X).
Proof. intros x w. split; reflexivity. Qed.

Lemma quiet_log (ev : event) : quiet (@log_event X ev).
Proof. intros x w. split; reflexivity. Qed.

Lemma quiet_py_get (v : json) (k : string) (d : json) :
  quiet (@py_get X v k d).
Proof. intros x w. destruct v; split; reflexivity. Qed.

Lemma quiet_py_slice (n : nat) (v : json) : quiet (@py_slice X n v).
Proof. intros x w. destruct v; split; reflexivity. Qed.

Lemma quiet_py_getitem (v : json) (k : string) : quiet (@py_getitem X v k).
Proof.
  intros x w. destruct v as [| | | | |d]; try (split; reflexivity).
  simpl. destruct (dict_get d k); split; reflexivity.
Qed.

Lemma quiet_py_len (v : json) : quiet (@py_len X v).
Proof. intros x w. destruct v; split; reflexivity. Qed.

Lemma quiet_unicode_db : quiet (@unicode_db X).
Proof. intros x w. split; reflexivity. Qed.

Lemma quiet_lift_result {A} (r : result A) : quiet (@lift_result X A r).
Proof. intros x w. split; reflexivity. Qed.

Lemma quiet_py_contains (v : json) (k : string) : quiet (@py_contains X v k).
Proof. intros x w. destruct v; split; reflexivity. Qed.

Lemma quiet_raise_for_status (r : response) : quiet (@raise_for_status X r).
Proof.
  intros x w. unfold raise_for_status. destruct (_ && _); split; reflexivity.
Qed.

Lemma quiet_response_json (r : response) : quiet (@response_json X r).
Proof.
  intros x w. unfold response_json. destruct (body r); split; reflexivity.
Qed.

End Budget.

Create HintDb quiet.

#[local] Hint Resolve quiet_ret quiet_raise quiet_get_self quiet_time quiet_log
  quiet_py_get quiet_py_slice quiet_py_getitem quiet_py_contains
  quiet_py_len quiet_unicode_db quiet_lift_result
  quiet_raise_for_status quiet_response_json : quiet.

(** A computation built from quiet parts is quiet. *)
Ltac be_quiet :=
  repeat first
    [ apply quiet_bind; [|intros ?]
    | apply quiet_try_except; [|intros ?]
    | solve [auto with quiet]
    | match goal with
      | |- quiet (if ?b then _ else _) => destruct b
      | |- quiet (match ?x with _ => _ end) => destruct x
      end ].

(** The budget passes the quiet steps of a computation unchanged. *)
Ltac spend :=
  repeat first
    [ apply costs_bind_quiet; [solve [be_quiet]|intros ?]
    | apply costs_try_except_quiet; [|intros ?; solve [be_quiet]]
    | apply costs_quiet; solve [be_quiet]
    | match goal with
      | |- costs _ _ (if ?b then _ else _) => destruct b
      | |- costs _ _ (match ?x with _ => _ end) => destruct x
      end ].

Section ClientBudgets.

Lemma request_with_fallback_costs (ep : endpoint) (key : option string) :
  costs any 2 (NullbrApiClient.request_with_fallback ep key).
Proof.
  unfold NullbrApiClient.request_with_fallback, NullbrApiClient._make_request.
  apply (costs_try_except _ 1 2); [|lia|intros e].
  - apply (costs_bind _ 1 1); [apply costs_http; lia|lia|intros r]. spend.
  - destruct (proxy_failure e); [|spend].
    apply costs_try_except_quiet; [|intros ?; be_quiet].
    apply (costs_bind _ 1 1); [apply costs_http; lia|lia|intros r]. spend.
Qed.

Lemma search_costs (query : string) (page : Z) :
  costs any 2 (NullbrApiClient.search query page).
Proof.
  unfold NullbrApiClient.search.
  apply costs_bind_quiet; [be_quiet|intros _].
  apply costs_try_except_quiet; [|intros ?; be_quiet].
  apply costs_bind_quiet; [be_quiet|intros self].
  apply (costs_bind _ 2 2); [apply request_with_fallback_costs|lia|intros o].
  spend.
Qed.

Lemma get_movie_resources_costs (tmdbid : json) (rt : string) :
  costs any 2 (NullbrApiClient.get_movie_resources tmdbid rt).
Proof.
  unfold NullbrApiClient.get_movie_resources.
  apply costs_bind_quiet; [be_quiet|intros _].
  apply costs_bind_quiet; [be_quiet|intros self].
  destruct (negb _); [spend|].
  apply costs_try_except_quiet; [|intros ?; be_quiet].
  apply (costs_bind _ 2 2); [apply request_with_fallback_costs|lia|intros o].
  spend.
Qed.

Lemma get_tv_resources_costs (tmdbid : json) (rt : string) :
  costs any 2 (NullbrApiClient.get_tv_resources tmdbid rt).
Proof.
  unfold NullbrApiClient.get_tv_resources.
  apply costs_bind_quiet; [be_quiet|intros _].
  apply costs_bind_quiet; [be_quiet|intros self].
  destruct (negb _); [spend|].
  apply costs_try_except_quiet; [|intros ?; be_quiet].
  apply (costs_bind _ 2 2); [apply request_with_fallback_costs|lia|intros o].
  spend.
Qed.

Lemma login_costs : costs any 1 CloudSyncMediaClient._login.
Proof.
  unfold CloudSyncMediaClient._login.
  apply costs_bind_quiet; [be_quiet|intros self].
  apply (costs_bind _ 1 1); [apply costs_http; lia|lia|intros r]. spend.
Qed.

Lemma ensure_valid_token_costs :
  costs any 1 CloudSyncMediaClient._ensure_valid_token.
Proof.
  unfold CloudSyncMediaClient._ensure_valid_token.
  apply costs_bind_quiet; [be_quiet|intros now].
  apply costs_bind_quiet; [be_quiet|intros self].
  destruct (CloudSyncMediaClient.stale self now); [|spend].
  apply (costs_bind _ 1 1); [apply login_costs|lia|intros data].
  apply costs_bind_quiet; [be_quiet|intros tok].
  apply costs_modify. trivial.
Qed.

Lemma post_share_costs (url : json) :
  costs any 1 (CloudSyncMediaClient.post_share url).
Proof.
  unfold CloudSyncMediaClient.post_share.
  apply costs_bind_quiet; [be_quiet|intros self].
  apply (costs_bind _ 1 1); [apply costs_http; lia|lia|intros r]. spend.
Qed.

Lemma ensure_then_post_costs (url : json) :
  costs any 2
    (CloudSyncMediaClient._ensure_valid_token ;;
     CloudSyncMediaClient.post_share url)%py.
Proof.
  apply (costs_bind _ 1 2); [apply ensure_valid_token_costs|lia|intros _].
  apply post_share_costs.
Qed.

(** A transfer costs four requests at most: a login and a post, and
    after a 401 a login and a post again. *)
Lemma add_share_down_costs (url : json) :
  costs any 4 (CloudSyncMediaClient.add_share_down url).
Proof.
  unfold CloudSyncMediaClient.add_share_down.
  destruct (negb (truthy url)); [spend|].
  apply (costs_try_except _ 2 4); [apply ensure_then_post_costs|lia|].
  intros e. destruct e as [st| | | | | | | | | |]; try spend.
  apply (costs_bind _ 0 2); [apply costs_modify; trivial|lia|intros _].
  apply ensure_then_post_costs.
Qed.

End ClientBudgets.

Section PluginBudgets.
Import NullbrSearch.

Context (P : t -> Prop).
Hypothesis P_cms : forall c self, P self -> P (set_cms_client c self).
Hypothesis P_search : forall m self, P self -> P (set_search_cache m self).
Hypothesis P_resource :
  forall m self, P self -> P (set_resource_cache m self).

Lemma quiet_post_message (channel userid title text : string) :
  quiet (post_message channel userid title text).
Proof. apply quiet_log. Qed.

Lemma quiet_fallback (title : json) (channel userid : string) :
  quiet (fallback_to_moviepilot_search title channel userid).
Proof. apply quiet_log. Qed.

Lemma quiet_nth_result (l : list json) (n : Z) : quiet (nth_result l n).
Proof.
  intros x w. unfold nth_result. destruct (l !! _); split; reflexivity.
Qed.

Lemma quiet_nth_resource (l : list resource_item) (n : Z) :
  quiet (nth_resource l n).
Proof.
  intros x w. unfold nth_resource. destruct (l !! _); split; reflexivity.
Qed.

Lemma costs_with_client {A} (n : nat) (m : M NullbrApiClient.t A) :
  costs any n m -> costs P n (with_client m).
Proof.
  intros Hm self w HP. unfold with_client. simpl.
  destruct (_client self) as [c|]; [|simpl; split; [exact HP|lia]].
  destruct (Hm c w I) as [_ Hsent].
  destruct (m (c, w)) as [r [c' w']]. simpl in *. split; [exact HP|lia].
Qed.

Lemma costs_with_cms_client {A} (n : nat) (m : M CloudSyncMediaClient.t A) :
  costs any n m -> costs P n (with_cms_client m).
Proof.
  intros Hm self w HP. unfold with_cms_client. simpl.
  destruct (_cms_client self) as [c|]; [|simpl; split; [exact HP|lia]].
  destruct (Hm c w I) as [_ Hsent].
  destruct (m (c, w)) as [r [c' w']]. simpl in *.
  split; [apply P_cms; exact HP|lia].
Qed.


#[local] Hint Resolve quiet_post_message quiet_fallback quiet_nth_result
  quiet_nth_resource : quiet.

Lemma quiet_entry_url (rt : string) (res : json) : quiet (entry_url rt res).
Proof. unfold entry_url. be_quiet. Qed.

Lemma quiet_collect_resources (rt : string) (l : list json) :
  forall acc, quiet (collect_resources rt l acc).
Proof.
  induction l as [|res rest IH]; intros acc; simpl; [be_quiet|].
  apply quiet_bind; [apply quiet_entry_url|intros u].
  destruct (truthy u); [|apply IH].
  be_quiet.
Qed.

Lemma quiet_release_year (item : json) : quiet (release_year item).
Proof. unfold release_year. be_quiet. Qed.

Lemma quiet_format_hits (items : list json) : quiet (format_hits items).
Proof.
  induction items as [|item rest IH]; simpl; [be_quiet|].
  apply quiet_bind; [|intros _; exact IH].
  unfold format_hit. be_quiet; apply quiet_release_year.
Qed.

Lemma format_and_send_costs (n : nat) (resources : json) (rt : string)
    (title : json) (channel userid : string) :
  costs P n (_format_and_send_resources resources rt title channel userid).
Proof.
  unfold _format_and_send_resources.
  apply costs_try_except_quiet; [|intros e; be_quiet].
  apply costs_bind_quiet; [be_quiet|intros l].
  destruct (negb (truthy l)); [spend|].
  apply costs_bind_quiet; [be_quiet|intros first10].
  apply costs_bind_quiet; [apply quiet_collect_resources|intros items].
  apply costs_bind_quiet; [be_quiet|intros now].
  apply (costs_bind _ 0 n); [|lia|intros _; spend].
  apply costs_modify. intros self HP. apply P_resource. exact HP.
Qed.

Lemma fetch_resources_costs (n : nat) (media_type tmdbid : json)
    (rt : string) :
  (2 <= n)%nat -> costs P n (fetch_resources media_type tmdbid rt).
Proof.
  intros Hn. unfold fetch_resources.
  destruct (is_str media_type "movie").
  - apply costs_with_client. apply (costs_weaken _ 2); [exact Hn|].
    apply get_movie_resources_costs.
  - destruct (is_str media_type "tv"); [|spend].
    apply costs_with_client. apply (costs_weaken _ 2); [exact Hn|].
    apply get_tv_resources_costs.
Qed.

(** The walk costs two requests for each type of the order, at most. *)
Lemma priority_walk_costs (selected title media_type tmdbid : json)
    (channel userid : string) (priority : list string) :
  costs P (2 * length priority)
    (priority_walk selected title media_type tmdbid channel userid priority).
Proof.
  induction priority as [|ty rest IH]; [simpl; spend|].
  assert (Hrest : costs P (2 * length (ty :: rest))
                    (priority_walk selected title media_type tmdbid channel
                       userid rest))
    by (apply (costs_weaken _ (2 * length rest)); [simpl; lia|exact IH]).
  cbn [priority_walk].
  apply costs_bind_quiet; [be_quiet|intros flag].
  destruct (negb (truthy flag)); [exact Hrest|].
  apply costs_bind_quiet; [be_quiet|intros self].
  destruct (negb (enable_flag self ty)); [exact Hrest|].
  apply (costs_bind _ 2); [apply fetch_resources_costs; lia|simpl; lia|].
  intros resources.
  replace (2 * length (ty :: rest) - 2)%nat with (2 * length rest)%nat
    by (simpl; lia).
  apply costs_bind_quiet; [be_quiet|intros found].
  destruct found; [|exact IH].
  apply costs_bind_quiet; [be_quiet|intros bundle].
  apply costs_bind_quiet; [be_quiet|intros _].
  apply costs_bind_quiet; [be_quiet|intros _].
  apply format_and_send_costs.
Qed.

End PluginBudgets.

Section MessageBudget.
Import NullbrSearch.

Context (prio : list string).


Lemma priority_cms_client (c : option CloudSyncMediaClient.t) (self : t) :
  has_priority prio self -> has_priority prio (set_cms_client c self).
Proof. intros H. exact H. Qed.

Lemma priority_search_cache (m : gmap string search_entry) (self : t) :
  has_priority prio self -> has_priority prio (set_search_cache m self).
Proof. intros H. exact H. Qed.

Lemma priority_resource_cache (m : gmap string resource_entry)
    (self : t) :
  has_priority prio self -> has_priority prio (set_resource_cache m self).
Proof. intros H. exact H. Qed.

#[local] Hint Resolve quiet_post_message quiet_fallback quiet_nth_result
  quiet_nth_resource quiet_release_year quiet_format_hits : quiet.

Lemma get_resources_by_priority_costs (selected : json)
    (channel userid : string) :
  costs (has_priority prio) (2 * length prio)
    (get_resources_by_priority selected channel userid).
Proof.
  unfold get_resources_by_priority.
  apply costs_try_except_quiet; [|intros e; be_quiet].
  apply costs_bind_quiet; [be_quiet|intros title].
  apply costs_bind_quiet; [be_quiet|intros media_type].
  apply costs_bind_quiet; [be_quiet|intros tmdbid].
  destruct (negb (truthy tmdbid)); [spend|].
  apply costs_get_self. intros self Hself.
  unfold has_priority in Hself. rewrite Hself.
  apply priority_walk_costs. apply priority_resource_cache.
Qed.

Lemma handle_resource_selection_costs (number : Z) (channel userid : string) :
  costs (has_priority prio) (2 * length prio)
    (handle_resource_selection number channel userid).
Proof.
  unfold handle_resource_selection, reply_to_selection.
  apply costs_try_except_quiet; [|intros e; be_quiet].
  apply costs_bind_quiet; [be_quiet|intros self].
  destruct (_user_search_cache self !! userid) as [cache|]; [|spend].
  apply costs_bind_quiet; [be_quiet|intros now].
  destruct (3600 <? now - search_timestamp cache); [spend|].
  destruct ((number <? 1) || _); [spend|].
  apply costs_bind_quiet; [be_quiet|intros selected].
  apply costs_bind_quiet; [be_quiet|intros self'].
  apply costs_bind_quiet; [be_quiet|intros title].
  apply costs_bind_quiet; [be_quiet|intros media_type].
  apply costs_bind_quiet; [be_quiet|intros _].
  apply costs_bind_quiet; [be_quiet|intros tmdbid].
  destruct (negb (key_set (_api_key self'))); [spend|].
  apply costs_bind_quiet; [be_quiet|intros _].
  apply get_resources_by_priority_costs.
Qed.

Lemma handle_get_resources_costs (number : Z) (rt channel userid : string) :
  costs (has_priority prio) 2 (handle_get_resources number rt channel userid).
Proof.
  unfold handle_get_resources, resources_of_selection.
  apply costs_try_except_quiet; [|intros e; be_quiet].
  apply costs_bind_quiet; [be_quiet|intros self].
  destruct (negb (key_set (_api_key self))); [spend|].
  destruct (_user_search_cache self !! userid) as [cache|]; [|spend].
  apply costs_bind_quiet; [be_quiet|intros now].
  destruct (3600 <? now - search_timestamp cache); [spend|].
  destruct ((number <? 1) || _); [spend|].
  apply costs_bind_quiet; [be_quiet|intros selected].
  apply costs_bind_quiet; [be_quiet|intros title].
  apply costs_bind_quiet; [be_quiet|intros media_type].
  apply costs_bind_quiet; [be_quiet|intros tmdbid].
  destruct (negb (truthy tmdbid)); [spend|].
  apply costs_bind_quiet; [be_quiet|intros _].
  apply (costs_bind _ 2 2); [apply fetch_resources_costs; lia|lia|].
  intros resources. destruct (negb (truthy resources)); [spend|].
  apply format_and_send_costs. apply priority_resource_cache.
Qed.

Lemma handle_resource_transfer_costs (number : Z) (channel userid : string) :
  costs (has_priority prio) 4 (handle_resource_transfer number channel userid).
Proof.
  unfold handle_resource_transfer, transfer_selected.
  apply costs_try_except_quiet; [|intros e; be_quiet].
  apply costs_bind_quiet; [be_quiet|intros self].
  destruct (negb (_cms_enabled self) || _); [spend|].
  destruct (_user_resource_cache self !! userid) as [cache|]; [|spend].
  apply costs_bind_quiet; [be_quiet|intros now].
  destruct (3600 <? now - timestamp cache); [spend|].
  destruct ((number <? 1) || _); [spend|].
  apply costs_bind_quiet; [be_quiet|intros item].
  apply costs_bind_quiet; [be_quiet|intros _].
  apply (costs_bind _ 4 4); [|lia|intros result; spend].
  apply costs_with_cms_client; [apply priority_cms_client|].
  apply add_share_down_costs.
Qed.

Lemma search_and_reply_costs (kw channel userid : string) :
  costs (has_priority prio) 2 (search_and_reply kw channel userid).
Proof.
  unfold search_and_reply.
  apply costs_try_except_quiet; [|intros e; be_quiet].
  apply (costs_bind _ 2 2); [|lia|intros result].
  { apply costs_with_client, search_costs. }
  apply costs_bind_quiet; [be_quiet|intros none].
  destruct none; [spend|].
  apply costs_bind_quiet; [be_quiet|intros all_items].
  apply costs_bind_quiet; [be_quiet|intros items].
  apply costs_bind_quiet; [be_quiet|intros now].
  apply (costs_bind _ 0 0); [|lia|intros _; spend].
  apply costs_modify. intros self HP. exact HP.
Qed.

Lemma quiet_transfer_requested (number : Z) (userid : string) :
  quiet (transfer_requested number userid).
Proof. unfold transfer_requested. be_quiet. Qed.

Lemma talk_costs (event : message) :
  costs (has_priority prio) (Nat.max 4 (2 * length prio)) (talk event).
Proof.
  unfold talk.
  apply costs_bind_quiet; [be_quiet|intros self].
  destruct (negb (_enabled self) || _); [spend|].
  destruct (text event) as [txt|]; [|spend].
  destruct (String.eqb txt ""); [spend|].
  destruct (bool_decide _); [spend|].
  apply costs_bind_quiet; [be_quiet|intros u].
  destruct (match_resource_request u (clean txt)) as [[digits rt]|].
  { apply costs_bind_quiet; [be_quiet|intros number].
    apply (costs_weaken _ 2); [lia|apply handle_get_resources_costs]. }
  destruct (isdigit u (clean txt)).
  - apply costs_bind_quiet; [be_quiet|intros number].
    apply costs_bind_quiet; [apply quiet_transfer_requested|intros transfer].
    destruct transfer.
    + apply (costs_weaken _ 4); [lia|apply handle_resource_transfer_costs].
    + apply (costs_weaken _ (2 * length prio)); [lia|].
      apply handle_resource_selection_costs.
  - destruct (ends_with_question txt); [|spend].
    destruct (negb _); [|spend].
    apply (costs_weaken _ 2); [lia|apply search_and_reply_costs].
Qed.

End MessageBudget.

(** X27: one message makes a bounded number of calls of [session.get] and
    [session.post]: no more than four, or two for each type of the
    priority order if that is more (eight for an order of four types).
    The bound counts the calls, not the requests on the wire: the retry
    policy mounted on the session of the Nullbr client can repeat the
    request of one call up to three times. *)
Theorem talk_request_budget (event : NullbrSearch.message)
    (self : NullbrSearch.t) (w : world) :
  let w' := snd (snd (NullbrSearch.talk event (self, w))) in
  (sent w <= sent w' <= sent w + message_budget self)%nat.
Proof.
  intros w'.
  destruct (talk_costs (NullbrSearch._resource_priority self) event self w
              eq_refl) as [_ Hsent].
  exact Hsent.
Qed.

(** * Whom the replies go to *)

Section Emits.

Context {X : Type} (Q : event -> Prop).

Lemma emits_nothing {A} (m : M X A) :
  (forall s, trace (snd (snd (m s))) = trace (snd s)) -> emits Q m.
Proof.
  intros Hm s. exists []. rewrite app_nil_r. split; [apply Hm|constructor].
Qed.

Lemma emits_bind {A B} (m : M X A) (k : A -> M X B) :
  emits Q m -> (forall a, emits Q (k a)) -> emits Q (bind m k).
Proof.
  intros Hm Hk s. unfold bind. destruct (Hm s) as (tr & Htr & HQ).
  destruct (m s) as [[a|e] s']; simpl in *.
  - destruct (Hk a s') as (tr' & Htr' & HQ').
    exists (tr ++ tr'). rewrite Htr', Htr, app_assoc.
    split; [reflexivity|]. apply Forall_app. split; assumption.
  - exists tr. split; assumption.
Qed.

Lemma emits_try_except {A} (m : M X A) (h : exn -> M X A) :
  emits Q m -> (forall e, emits Q (h e)) -> emits Q (try_except m h).
Proof.
  intros Hm Hh s. unfold try_except. destruct (Hm s) as (tr & Htr & HQ).
  destruct (m s) as [[a|e] s']; simpl in *.
  - exists tr. split; assumption.
  - destruct (Hh e s') as (tr' & Htr' & HQ').
    exists (tr ++ tr'). rewrite Htr', Htr, app_assoc.
    split; [reflexivity|]. apply Forall_app. split; assumption.
Qed.

Lemma emits_log (ev : event) : Q ev -> emits Q (@log_event X ev).
Proof.
  intros HQ s. exists [ev]. split; [reflexivity|].
  constructor; [exact HQ|constructor].
Qed.

Lemma emits_http (r : request) : Q (Http r) -> emits Q (@http X r).
Proof.
  intros HQ s. exists [Http r]. unfold http.
  destruct (net_src (snd s) (sent (snd s))); simpl;
    (split; [reflexivity|constructor; [exact HQ|constructor]]).
Qed.

Lemma emits_ret {A} (a : A) : emits Q (@ret X A a).
Proof. apply emits_nothing. reflexivity. Qed.

Lemma emits_raise {A} (e : exn) : emits Q (@raise X A e).
Proof. apply emits_nothing. reflexivity. Qed.

Lemma emits_get_self : emits Q (@get_self X).
Proof. apply emits_nothing. reflexivity. Qed.

Lemma emits_modify (f : X -> X) : emits Q (modify_self f).
Proof. apply emits_nothing. reflexivity. Qed.

Lemma emits_time : emits Q (@time_time X).
Proof. apply emits_nothing. reflexivity. Qed.

Lemma emits_py_get (v : json) (k : string) (d : json) :
  emits Q (@py_get X v k d).
Proof. apply emits_nothing. intros s. destruct v; reflexivity. Qed.

Lemma emits_py_slice (n : nat) (v : json) : emits Q (@py_slice X n v).
Proof. apply emits_nothing. intros s. destruct v; reflexivity. Qed.

Lemma emits_py_getitem (v : json) (k : string) : emits Q (@py_getitem X v k).
Proof.
  apply emits_nothing. intros s. destruct v as [| | | | |d]; try reflexivity.
  simpl. destruct (dict_get d k); reflexivity.
Qed.

Lemma emits_py_len (v : json) : emits Q (@py_len X v).
Proof. apply emits_nothing. intros s. destruct v; reflexivity. Qed.

Lemma emits_unicode_db : emits Q (@unicode_db X).
Proof. apply emits_nothing. reflexivity. Qed.

Lemma emits_lift_result {A} (r : result A) : emits Q (@lift_result X A r).
Proof. apply emits_nothing. reflexivity. Qed.

Lemma emits_py_contains (v : json) (k : string) :
  emits Q (@py_contains X v k).
Proof. apply emits_nothing. intros s. destruct v; reflexivity. Qed.

Lemma emits_raise_for_status (r : response) : emits Q (@raise_for_status X r).
Proof.
  apply emits_nothing. intros s. unfold raise_for_status.
  destruct (_ && _); reflexivity.
Qed.

Lemma emits_response_json (r : response) : emits Q (@response_json X r).
Proof.
  apply emits_nothing. intros s. unfold response_json.
  destruct (body r); reflexivity.
Qed.

End Emits.

Create HintDb emits.

#[local] Hint Resolve emits_ret emits_raise emits_get_self emits_modify
  emits_time emits_py_get emits_py_slice emits_py_getitem emits_py_contains
  emits_py_len emits_unicode_db emits_lift_result
  emits_raise_for_status emits_response_json : emits.

(** One step through a computation; what is left are the events. *)
Ltac emit_step :=
  first
    [ apply emits_bind; [|intros ?]
    | apply emits_try_except; [|intros ?]
    | solve [auto with emits]
    | match goal with
      | |- emits _ (if ?b then _ else _) => destruct b
      | |- emits _ (match ?x with _ => _ end) => destruct x
      end ].

Section Routing.
Import NullbrSearch.

Context (Q : event -> Prop).
Hypothesis Q_nullbr : forall ep key proxy timeout,
  Q (Http (NullbrGet ep key proxy timeout)).
Hypothesis Q_login : forall base user pass, Q (Http (CmsLogin base user pass)).
Hypothesis Q_share : forall base auth url,
  Q (Http (CmsAddShareDown base auth url)).
Hypothesis Q_called : forall c, Q (Called c).

Lemma emits_called (c : client_call) {X} : emits Q (@log_event X (Called c)).
Proof. apply emits_log, Q_called. Qed.

Lemma emits_request_with_fallback (ep : endpoint) (key : option string) :
  emits Q (NullbrApiClient.request_with_fallback ep key).
Proof.
  unfold NullbrApiClient.request_with_fallback, NullbrApiClient._make_request.
  repeat first [apply emits_http, Q_nullbr | emit_step].
Qed.

Lemma emits_client_search (query : string) (page : Z) :
  emits Q (NullbrApiClient.search query page).
Proof.
  unfold NullbrApiClient.search.
  repeat first [apply emits_called | apply emits_request_with_fallback
               | emit_step].
Qed.

Lemma emits_get_movie_resources (tmdbid : json) (rt : string) :
  emits Q (NullbrApiClient.get_movie_resources tmdbid rt).
Proof.
  unfold NullbrApiClient.get_movie_resources.
  repeat first [apply emits_called | apply emits_request_with_fallback
               | emit_step].
Qed.

Lemma emits_get_tv_resources (tmdbid : json) (rt : string) :
  emits Q (NullbrApiClient.get_tv_resources tmdbid rt).
Proof.
  unfold NullbrApiClient.get_tv_resources.
  repeat first [apply emits_called | apply emits_request_with_fallback
               | emit_step].
Qed.

Lemma emits_ensure_valid_token :
  emits Q CloudSyncMediaClient._ensure_valid_token.
Proof.
  unfold CloudSyncMediaClient._ensure_valid_token, CloudSyncMediaClient._login.
  repeat first [apply emits_http, Q_login | emit_step].
Qed.

Lemma emits_post_share (url : json) :
  emits Q (CloudSyncMediaClient.post_share url).
Proof.
  unfold CloudSyncMediaClient.post_share.
  repeat first [apply emits_http, Q_share | emit_step].
Qed.

Lemma emits_add_share_down (url : json) :
  emits Q (CloudSyncMediaClient.add_share_down url).
Proof.
  unfold CloudSyncMediaClient.add_share_down.
  repeat first [apply emits_ensure_valid_token | apply emits_post_share
               | emit_step].
Qed.

Lemma emits_with_client {A} (m : M NullbrApiClient.t A) :
  emits Q m -> emits Q (with_client m).
Proof.
  intros Hm [self w]. unfold with_client. simpl.
  destruct (_client self) as [c|].
  - destruct (Hm (c, w)) as (tr & Htr & HQ).
    destruct (m (c, w)) as [r [c' w']]. simpl in *. exists tr.
    split; assumption.
  - exists []. rewrite app_nil_r. split; [reflexivity|constructor].
Qed.

Lemma emits_with_cms_client {A} (m : M CloudSyncMediaClient.t A) :
  emits Q m -> emits Q (with_cms_client m).
Proof.
  intros Hm [self w]. unfold with_cms_client. simpl.
  destruct (_cms_client self) as [c|].
  - destruct (Hm (c, w)) as (tr & Htr & HQ).
    destruct (m (c, w)) as [r [c' w']]. simpl in *. exists tr.
    split; assumption.
  - exists []. rewrite app_nil_r. split; [reflexivity|constructor].
Qed.

End Routing.

Section Replies.
Import NullbrSearch.

Context (Q : event -> Prop) (channel userid : string).
Hypothesis Q_post :
  forall title text, Q (PostMessage channel userid title text).
Hypothesis Q_nullbr : forall ep key proxy timeout,
  Q (Http (NullbrGet ep key proxy timeout)).
Hypothesis Q_login : forall base user pass, Q (Http (CmsLogin base user pass)).
Hypothesis Q_share : forall base auth url,
  Q (Http (CmsAddShareDown base auth url)).
Hypothesis Q_called : forall c, Q (Called c).
Hypothesis Q_fallback : forall title, Q (FallbackSearch title).

Lemma emits_post (title text : string) :
  emits Q (post_message channel userid title text).
Proof. apply emits_log, Q_post. Qed.

Lemma emits_fallback (title : json) :
  emits Q (fallback_to_moviepilot_search title channel userid).
Proof. apply emits_log, Q_fallback. Qed.

Lemma emits_nth_result (l : list json) (n : Z) : emits Q (nth_result l n).
Proof.
  apply emits_nothing. intros s. unfold nth_result.
  destruct (l !! _); reflexivity.
Qed.

Lemma emits_nth_resource (l : list resource_item) (n : Z) :
  emits Q (nth_resource l n).
Proof.
  apply emits_nothing. intros s. unfold nth_resource.
  destruct (l !! _); reflexivity.
Qed.

(** The steps of the handlers. *)
Ltac reply_step :=
  first
    [ apply emits_post
    | apply emits_fallback
    | apply emits_nth_result
    | apply emits_nth_resource
    | emit_step ].

Lemma emits_entry_url (rt : string) (res : json) : emits Q (entry_url rt res).
Proof. unfold entry_url. repeat reply_step. Qed.

Lemma emits_collect_resources (rt : string) (l : list json) :
  forall acc, emits Q (collect_resources rt l acc).
Proof.
  induction l as [|res rest IH]; intros acc; simpl; [repeat reply_step|].
  apply emits_bind; [apply emits_entry_url|intros u].
  destruct (truthy u); [|apply IH].
  do 3 (apply emits_bind; [reply_step|intros ?]). apply IH.
Qed.

Lemma emits_format_and_send (resources : json) (rt : string) (title : json) :
  emits Q (_format_and_send_resources resources rt title channel userid).
Proof.
  unfold _format_and_send_resources.
  repeat first [apply emits_collect_resources | reply_step].
Qed.

Lemma emits_fetch_resources (media_type tmdbid : json) (rt : string) :
  emits Q (fetch_resources media_type tmdbid rt).
Proof.
  unfold fetch_resources.
  destruct (is_str media_type "movie").
  - apply emits_with_client, emits_get_movie_resources; assumption.
  - destruct (is_str media_type "tv"); [|reply_step].
    apply emits_with_client, emits_get_tv_resources; assumption.
Qed.

Lemma emits_priority_walk (selected title media_type tmdbid : json)
    (priority : list string) :
  emits Q (priority_walk selected title media_type tmdbid channel userid
             priority).
Proof.
  induction priority as [|ty rest IH]; simpl; [repeat reply_step|].
  apply emits_bind; [reply_step|intros flag].
  destruct (negb (truthy flag)); [exact IH|].
  apply emits_bind; [reply_step|intros self].
  destruct (negb (enable_flag self ty)); [exact IH|].
  apply emits_bind; [apply emits_fetch_resources|intros resources].
  apply emits_bind; [repeat reply_step|intros found].
  destruct found; [|exact IH].
  apply emits_bind; [reply_step|intros bundle].
  apply emits_bind; [reply_step|intros _].
  apply emits_bind; [reply_step|intros _]. apply emits_format_and_send.
Qed.

Lemma emits_get_resources_by_priority (selected : json) :
  emits Q (get_resources_by_priority selected channel userid).
Proof.
  unfold get_resources_by_priority.
  repeat first [apply emits_priority_walk | reply_step].
Qed.

Lemma emits_release_year (item : json) : emits Q (release_year item).
Proof. unfold release_year. repeat reply_step. Qed.

Lemma emits_format_hits (items : list json) : emits Q (format_hits items).
Proof.
  induction items as [|item rest IH]; simpl; [reply_step|].
  apply emits_bind; [|intros _; exact IH].
  unfold format_hit.
  repeat first [apply emits_release_year | reply_step].
Qed.

Lemma emits_handle_resource_selection (number : Z) :
  emits Q (handle_resource_selection number channel userid).
Proof.
  unfold handle_resource_selection, reply_to_selection.
  repeat first [apply emits_get_resources_by_priority
               | apply emits_release_year | reply_step].
Qed.

Lemma emits_handle_get_resources (number : Z) (rt : string) :
  emits Q (handle_get_resources number rt channel userid).
Proof.
  unfold handle_get_resources, resources_of_selection.
  repeat first [apply emits_fetch_resources | apply emits_format_and_send
               | reply_step].
Qed.

Lemma emits_handle_resource_transfer (number : Z) :
  emits Q (handle_resource_transfer number channel userid).
Proof.
  unfold handle_resource_transfer, transfer_selected.
  repeat first
    [ apply emits_with_cms_client, emits_add_share_down; assumption
    | reply_step ].
Qed.

Lemma emits_search_and_reply (kw : string) :
  emits Q (search_and_reply kw channel userid).
Proof.
  unfold search_and_reply.
  repeat first
    [ apply emits_with_client, emits_client_search; assumption
    | apply emits_format_hits
    | reply_step ].
Qed.

Lemma emits_transfer_requested (number : Z) :
  emits Q (transfer_requested number userid).
Proof. unfold transfer_requested. repeat reply_step. Qed.

End Replies.

Section Sender.
Import NullbrSearch.

Lemma replies_routed (channel userid : string) (tr : list event) :
  Forall (routed channel userid) tr ->
  Forall (fun to => to = (channel, userid)) (replies tr).
Proof.
  induction 1 as [|ev tr Hev Htr IH]; [constructor|].
  unfold replies. simpl. destruct ev; simpl; try exact IH.
  destruct Hev as [-> ->]. constructor; [reflexivity|exact IH].
Qed.

(** X29: every reply that the handlers post for a message goes to the
    user who sent it, on the channel it came from: whatever [talk] adds to
    the trace, the replies in it carry the message's channel and user id.
    What was on the trace before stays.  (The fallback search of the host
    is one event of the trace; what it posts itself is not part of it.) *)
Theorem talk_replies_to_sender (event : message) (self : t) (w : world) :
  exists tr,
    trace (snd (snd (talk event (self, w)))) = trace w ++ tr /\
    Forall (fun to => to = (channel event, userid event)) (replies tr).
Proof.
  assert (H : emits (routed (channel event) (userid event)) (talk event)).
  { unfold talk.
    repeat first
      [ apply emits_handle_get_resources
      | apply emits_handle_resource_transfer
      | apply emits_handle_resource_selection
      | apply emits_search_and_reply
      | apply emits_transfer_requested
      | emit_step
      | intros; exact I
      | intros; split; reflexivity ]. }
  destruct (H (self, w)) as (tr & Htr & Hrouted).
  exists tr. split; [exact Htr|]. apply replies_routed. exact Hrouted.
Qed.

(** X30: with the transfer switch off, or without a transfer client, no
    message reaches the transfer service: whatever [talk] adds to the
    trace, there is no login and no post to it among the requests. *)
Theorem talk_without_transfer_service (event : message) (self : t)
    (w : world) :
  _cms_enabled self = false \/ _cms_client self = None ->
  exists tr,
    trace (snd (snd (talk event (self, w)))) = trace w ++ tr /\
    Forall (fun ev => to_transfer_service ev = false) tr.
Proof.
  intros Hoff.
  set (Q := fun ev => to_transfer_service ev = false).
  assert (Hnone : exists tr, trace w = trace w ++ tr /\ Forall Q tr).
  { exists []. rewrite app_nil_r. split; [reflexivity|constructor]. }
  assert (Hsel : forall number,
            emits Q (handle_resource_selection number (channel event)
                       (userid event))).
  { intros number. apply emits_handle_resource_selection;
      intros; reflexivity. }
  assert (Hget : forall number rt,
            emits Q (handle_get_resources number rt (channel event)
                       (userid event))).
  { intros number rt. apply emits_handle_get_resources; intros; reflexivity. }
  assert (Hsearch : forall kw,
            emits Q (search_and_reply kw (channel event) (userid event))).
  { intros kw. apply emits_search_and_reply; intros; reflexivity. }
  destruct (heard_or_not self w event) as [Hskip|(txt & Hheard)];
    [rewrite Hskip; exact Hnone|].
  rewrite (talk_heard self w event txt Hheard).
  destruct (match_resource_request (unicodedata w) (clean txt))
    as [[digits rt]|].
  { unfold bind, lift_result.
    destruct (int (unicodedata w) digits) as [number|e]; [|exact Hnone].
    apply (Hget number rt (self, w)). }
  destruct (isdigit (unicodedata w) (clean txt)).
  - unfold bind at 1. unfold lift_result.
    destruct (int (unicodedata w) (clean txt)) as [number|e]; [|exact Hnone].
    unfold bind. rewrite talk_reads_resource_cache.
    assert (Hguard : _cms_enabled self &&
                     bool_decide (is_Some (_cms_client self)) = false).
    { destruct Hoff as [->| ->]; [reflexivity|].
      rewrite andb_false_r. reflexivity. }
    rewrite Hguard. apply (Hsel _ (self, w)).
  - destruct (ends_with_question txt); [|exact Hnone].
    destruct (negb (String.eqb (clean txt) "")); [|exact Hnone].
    apply (Hsearch _ (self, w)).
Qed.

Lemma talk_without_transfer_service_witness :
  exists tr,
    trace (snd (snd (talk (message_of "1")
                       (with_resource_entry "u1" resolved_at_1000
                          plugin_cms_off, world_of 1500 [])))) =
      trace (world_of 1500 []) ++ tr /\
    Forall (fun ev => to_transfer_service ev = false) tr.
Proof.
  apply talk_without_transfer_service. left. reflexivity.
Defined.

End Sender.

(** ** Without the API key *)

Section Keyless.
Import NullbrSearch.


#[local] Hint Resolve quiet_post_message quiet_fallback quiet_nth_result
  quiet_release_year : quiet.




End Keyless.

